(** * GitMCP / openai-mcpkit, TypeScript authenticated MCP server scaffold

    A shallow embedding of [src/trends.ts] (dataset loader and query
    engine) and of the bearer-token gate ([src/auth.ts], with the status
    mapping of [src/server.ts]), followed by the properties the
    specification states about them.

    Conventions of the embedding
    - JavaScript strings are [string]s (sequences of 8-bit code units);
      [trim], [toLowerCase] and the regular-expression class [\s] act on
      the ASCII range.
    - [null] and [undefined] in a record read are [Some JNull] and [None].
    - A [Date] is its time value, an integer number of milliseconds since
      the epoch; the calendar arithmetic of ECMA-262 (MakeDay, MakeDate,
      TimeClip, WeekDay) is written out.
    - What the platform supplies and the repository does not define
      (number parsing, the legacy date parser, the collation order, the
      CSV and JSON readers; the JOSE verifier and the URL parser) is a
      field of the class [Host], or of [Auth.AuthHost] for the gate, so
      every function is stated for every platform. *)

From Stdlib Require Import ZArith Ascii String DecimalString List Sorting.Sorted Sorting.Permutation.
From stdpp Require Import base gmap strings list.

Local Open Scope Z_scope.

Set Warnings "-register-all,-clear-no-such-hyp".

(** ** Strings *)

Module JsString.

Definition isWhitespace (c : ascii) : bool := Ascii.is_space c.

Definition isDigit (c : ascii) : bool :=
  match Ascii.is_nat c with Some _ => true | None => false end.

Fixpoint trimStart (s : string) : string :=
  match s with
  | String c s' => if isWhitespace c then trimStart s' else s
  | EmptyString => EmptyString
  end.

Definition trimEnd (s : string) : string :=
  String.rev (trimStart (String.rev s)).

(** [String.prototype.trim] *)
Definition trim (s : string) : string := trimEnd (trimStart s).

Definition lowerChar (c : ascii) : ascii :=
  let n := nat_of_ascii c in
  if ((65 <=? n) && (n <=? 90))%nat then ascii_of_nat (n + 32) else c.

(** [String.prototype.toLowerCase] *)
Fixpoint toLowerCase (s : string) : string :=
  match s with
  | String c s' => String (lowerChar c) (toLowerCase s')
  | EmptyString => EmptyString
  end.

(** [String.prototype.startsWith] *)
Definition startsWith (s pre : string) : bool := String.prefix pre s.

(** [String.prototype.includes] *)
Fixpoint includes (s sub : string) : bool :=
  String.prefix sub s ||
  match s with
  | String _ s' => includes s' sub
  | EmptyString => false
  end.

Definition includesChar (s : string) (c : ascii) : bool :=
  includes s (String c EmptyString).

(** [s.split(c)] for a one-character separator: every piece, the empty
    ones included. *)
Fixpoint splitChar (c : ascii) (s : string) : list string :=
  match s with
  | EmptyString => [EmptyString]
  | String a s' =>
      if Ascii.eqb a c then EmptyString :: splitChar c s'
      else match splitChar c s' with
           | p :: ps => String a p :: ps
           | [] => [String a EmptyString]
           end
  end.

(** [s.split(c, limit)]: the first [limit] pieces of [s.split(c)]. *)
Definition split (c : ascii) (limit : nat) (s : string) : list string :=
  take limit (splitChar c s).

(** [s.split(/[sep]+/)] for a character class [sep]: the pieces between
    maximal runs of separators; a leading or trailing run leaves an
    empty piece at that end. *)
Fixpoint splitRunsGo (sep : ascii -> bool) (inRun : bool) (cur s : string)
  : list string :=
  match s with
  | EmptyString => [String.rev cur]
  | String a s' =>
      if sep a then
        if inRun then splitRunsGo sep true EmptyString s'
        else String.rev cur :: splitRunsGo sep true EmptyString s'
      else splitRunsGo sep false (String a cur) s'
  end.

Definition splitRuns (sep : ascii -> bool) (s : string) : list string :=
  splitRunsGo sep false EmptyString s.

(** [Array.prototype.join] *)
Definition join (sep : string) (l : list string) : string :=
  String.concat sep l.

Definition nonEmpty (s : string) : bool :=
  match s with EmptyString => false | _ => true end.

Definition digitValue (c : ascii) : Z :=
  match Ascii.is_nat c with Some n => Z.of_nat n | None => 0 end.

(** [Number.parseInt(s, 10)] on a string of decimal digits. *)
Fixpoint parseDigitsGo (acc : Z) (s : string) : Z :=
  match s with
  | String c s' => parseDigitsGo (10 * acc + digitValue c) s'
  | EmptyString => acc
  end.

Definition parseDigits (s : string) : Z := parseDigitsGo 0 s.

Fixpoint allDigits (s : string) : bool :=
  match s with
  | String c s' => isDigit c && allDigits s'
  | EmptyString => true
  end.

(** The decimal digits of [z], most significant first, on [n] places. *)
Fixpoint padDigits (n : nat) (z : Z) (acc : string) : string :=
  match n with
  | O => acc
  | S n' =>
      padDigits n' (z / 10)
        (String (ascii_of_nat (48 + Z.to_nat (z mod 10))) acc)
  end.

(** [s] is empty or starts with a character that is not white space. *)
Definition headOk (s : string) : bool :=
  match s with
  | String c _ => negb (isWhitespace c)
  | EmptyString => true
  end.

(** [s] is empty or ends with a character that is not white space. *)
Definition lastOk (s : string) : bool := headOk (String.rev s).

(** [String.prototype.endsWith] *)
Definition endsWith (s suffix : string) : bool :=
  String.prefix (String.rev suffix) (String.rev s).

(** [s.slice(0, n)] for a count [n]. *)
Definition sliceTo (n : nat) (s : string) : string :=
  String.substring 0 n s.

End JsString.

(** ** Dates: ECMA-262 time values *)

Module JsDate.

Definition msPerDay : Z := 86400000.

Definition Day (t : Z) : Z := t / msPerDay.
Definition TimeWithinDay (t : Z) : Z := t mod msPerDay.

(** Number of days from the epoch to the civil date [y]-[m]-[d] of the
    proleptic Gregorian calendar, [m] in 1..12. *)
Definition daysFromCivil (y m d : Z) : Z :=
  let y' := if m <=? 2 then y - 1 else y in
  let era := y' / 400 in
  let yoe := y' - era * 400 in
  let mp := if 2 <? m then m - 3 else m + 9 in
  let doy := (153 * mp + 2) / 5 + d - 1 in
  let doe := yoe * 365 + yoe / 4 - yoe / 100 + doy in
  era * 146097 + doe - 719468.

(** The civil date (year, month 1..12, day of month) of a day number. *)
Definition civilFromDays (z : Z) : Z * Z * Z :=
  let z' := z + 719468 in
  let era := z' / 146097 in
  let doe := z' - era * 146097 in
  let yoe := (doe - doe / 1460 + doe / 36524 - doe / 146096) / 365 in
  let doy := doe - (365 * yoe + yoe / 4 - yoe / 100) in
  let mp := (5 * doy + 2) / 153 in
  let d := doy - (153 * mp + 2) / 5 + 1 in
  let m := if mp <? 10 then mp + 3 else mp - 9 in
  (if m <=? 2 then yoe + era * 400 + 1 else yoe + era * 400, m, d).

Definition YearFromTime (t : Z) : Z := (civilFromDays (Day t)).1.1.
(** Months are numbered from 0, as in ECMA-262. *)
Definition MonthFromTime (t : Z) : Z := (civilFromDays (Day t)).1.2 - 1.
Definition DateFromTime (t : Z) : Z := (civilFromDays (Day t)).2.
Definition WeekDay (t : Z) : Z := (Day t + 4) mod 7.

(** MakeDay: [month] is numbered from 0 and may lie outside 0..11, [date]
    may lie outside the month. *)
Definition MakeDay (year month date : Z) : Z :=
  let ym := year + month / 12 in
  let mn := month mod 12 in
  daysFromCivil ym (mn + 1) 1 + date - 1.

Definition MakeDate (day time : Z) : Z := day * msPerDay + time.

(** TimeClip: [None] is the time value NaN of an invalid date. *)
Definition TimeClip (t : Z) : option Z :=
  if Z.abs t <=? 8640000000000000 then Some t else None.

(** [Date.UTC(year, month, day)]; a year from 0 to 99 stands for
    1900 + year. *)
Definition UTC (year month day : Z) : option Z :=
  let yr := if (0 <=? year) && (year <=? 99) then 1900 + year else year in
  TimeClip (MakeDate (MakeDay yr month day) 0).

Definition getUTCDay (t : Z) : Z := WeekDay t.
Definition getUTCDate (t : Z) : Z := DateFromTime t.

(** [d.setUTCDate(dt)], returning the new time value. *)
Definition setUTCDate (t dt : Z) : option Z :=
  TimeClip
    (MakeDate (MakeDay (YearFromTime t) (MonthFromTime t) dt)
              (TimeWithinDay t)).

(** [Date.prototype.toISOString] of a valid time value. *)
Definition toISOString (t : Z) : string :=
  let '(y, m, d) := civilFromDays (Day t) in
  let ms := TimeWithinDay t in
  let pad := fun n z => JsString.padDigits n z EmptyString in
  let year :=
    if (0 <=? y) && (y <=? 9999) then pad 4%nat y
    else (if y <? 0 then "-" else "+") +:+ pad 6%nat (Z.abs y) in
  (year +:+ "-" +:+ pad 2%nat m +:+ "-" +:+ pad 2%nat d +:+ "T"
     +:+ pad 2%nat (ms / 3600000) +:+ ":"
     +:+ pad 2%nat ((ms / 60000) mod 60) +:+ ":"
     +:+ pad 2%nat ((ms / 1000) mod 60) +:+ "."
     +:+ pad 3%nat (ms mod 1000) +:+ "Z").

(** A check run once over the years of one 400-year cycle: January 4 of
    the year [y] goes to its day number and back, and that day number lies
    in the 720000 days before the epoch. *)
Definition jan4Checked (y : Z) : bool :=
  match civilFromDays (daysFromCivil y 1 4) with
  | (y', m, d) =>
      (y' =? y) && (m =? 1) && (d =? 4)
      && (-720000 <=? daysFromCivil y 1 4) && (daysFromCivil y 1 4 <=? 0)
  end.

(** The [n] years from [lo] on. *)
Definition yearsFrom (lo n : Z) : list Z :=
  List.map (fun i => lo + Z.of_nat i) (seq 0 (Z.to_nat n)).

End JsDate.

(** ** Values *)

(** A JavaScript number, kept as the text [String(n)] gives for it (which
    determines the number); arithmetic on such numbers is not needed by
    the code below. *)
Inductive number : Type := Num (rendering : string).

Definition numberToString (n : number) : string :=
  match n with Num r => r end.

(** [Number.isFinite] *)
Definition isFinite (n : number) : bool :=
  match n with
  | Num r =>
      negb (String.eqb r "NaN" || String.eqb r "Infinity"
            || String.eqb r "-Infinity")
  end.

(** The values a parsed JSON document or a CSV cell can hold. An object
    lists its own properties in enumeration order. *)
Inductive Json : Type :=
| JNull
| JBool (b : bool)
| JNum (n : number)
| JStr (s : string)
| JArr (items : list Json)
| JObj (fields : list (string * Json)).

(** [Record<string, unknown>]: a property that is absent reads as
    [undefined], that is [None]. *)
Abbreviation RawRecord := (gmap string Json).

(** [TrendRow]. A property the source sets to [undefined] is left out. *)
Abbreviation TrendRow := (gmap string Json).

(** [String(v)], for a value it converts; [stringThrows] below tells
    when it throws instead. *)
Fixpoint ToString (v : Json) : string :=
  match v with
  | JNull => "null"
  | JBool b => if b then "true" else "false"
  | JNum n => numberToString n
  | JStr s => s
  | JArr items =>
      JsString.join ","
        (List.map (fun x => match x with JNull => "" | _ => ToString x end)
                  items)
  | JObj _ => "[object Object]"
  end.

Definition String_ (v : option Json) : string :=
  match v with
  | Some j => ToString j
  | None => "undefined"
  end.

(** When [String(v)] throws instead: a [TypeError], for an object with a
    property named [toString] (read from JSON it is no function, and
    [valueOf] then returns the object itself), and for an array one of whose
    elements is such a value, since [Array.prototype.join] converts every
    element but [null]. [ToString] is the string of the other values. *)
Fixpoint stringThrows (v : Json) : bool :=
  match v with
  | JObj fields => existsb (fun kv => String.eqb kv.1 "toString") fields
  | JArr items => existsb stringThrows items
  | _ => false
  end.

Definition throwsOn (v : option Json) : bool :=
  match v with
  | Some j => stringThrows j
  | None => false
  end.

(** [a ?? b] *)
Definition nullish (v : option Json) : bool :=
  match v with
  | None | Some JNull => true
  | Some _ => false
  end.

Definition coalesce (a b : option Json) : option Json :=
  if nullish a then b else a.

Notation "a ?? b" := (coalesce a b) (at level 50, left associativity).

(** The string literal [''] as a value. *)
Definition emptyLit : option Json := Some (JStr "").

(** [typeof v === 'string'] *)
Definition asString (v : option Json) : option string :=
  match v with
  | Some (JStr s) => Some s
  | _ => None
  end.

(** [v && typeof v === 'object'], which holds of arrays too. *)
Definition isObjectLike (v : Json) : bool :=
  match v with
  | JArr _ | JObj _ => true
  | _ => false
  end.

(** The record a JSON object denotes; a later property of the same name
    replaces an earlier one. *)
Definition objectRecord (fields : list (string * Json)) : RawRecord :=
  fold_left (fun m kv => <[kv.1 := kv.2]> m) fields ∅.

(** [entry as Record<string, unknown>] for an object-like [entry]: an
    array has its indices as property names. *)
Definition indexName (i : nat) : string :=
  NilZero.string_of_uint (Nat.to_uint i).

Definition asRecord (v : Json) : RawRecord :=
  match v with
  | JObj fields => objectRecord fields
  | JArr items => objectRecord (imap (fun i x => (indexName i, x)) items)
  | _ => ∅
  end.

(** ** The platform *)

Class Host : Type := {
  (** [Number.parseFloat] *)
  parseFloat : string -> number;
  (** [Number.parseInt(s, 10)] *)
  parseInt : string -> number;
  (** The time value of [new Date(s)] for a string the two patterns of
      [parseIsoDate] do not settle; [None] is NaN. *)
  dateParse : string -> option Z;
  (** [a.localeCompare(b)] *)
  localeCompare : string -> string -> Z;
  (** [parseCsv(source, {columns: true, skip_empty_lines: true,
      delimiter})] from csv-parse; [None] when it throws. The cells of
      its records are strings. *)
  parseCsv : string -> string -> option (list RawRecord);
  (** [JSON.parse]; [None] when it throws. *)
  jsonParse : string -> option Json
}.

(** ** [src/trends.ts] *)

Module Trends.

Import JsString.

Inductive Suffix : Type := csv | tsv | json.

Definition SUPPORTED_SUFFIXES (ext : string) : option Suffix :=
  if String.eqb ext ".csv" then Some csv
  else if String.eqb ext ".tsv" then Some tsv
  else if String.eqb ext ".json" then Some json
  else None.

Definition OPTIONAL_COPY_KEYS : list string :=
  ["linked_tickers"; "provider"; "collection_window"; "query_count";
   "week_id"].
Definition DEFAULT_LIMIT : Z := 25.
Definition MAX_LIMIT : Z := 200.

(** [value === null || value === undefined || value === ''] *)
Definition isBlank (value : option Json) : bool :=
  match value with
  | None | Some JNull | Some (JStr EmptyString) => true
  | Some _ => false
  end.

Definition coerceFloat `{Host} (value : option Json) : option number :=
  if isBlank value then None
  else
    let num := parseFloat (String_ value) in
    if isFinite num then Some num else None.

Definition coerceInt `{Host} (value : option Json) : option number :=
  if isBlank value then None
  else
    let num := parseInt (String_ value) in
    if isFinite num then Some num else None.

(** [trimmed.match(/^(\d{4})[-/](\d{2})[-/](\d{2})$/)]: the three
    captured groups. *)
Definition matchDate (s : string) : option (string * string * string) :=
  match s with
  | String y1 (String y2 (String y3 (String y4 (String s1
      (String m1 (String m2 (String s2
        (String d1 (String d2 EmptyString))))))))) =>
      let sep := fun c => Ascii.eqb c "-" || Ascii.eqb c "/" in
      if isDigit y1 && isDigit y2 && isDigit y3 && isDigit y4 && sep s1
         && isDigit m1 && isDigit m2 && sep s2 && isDigit d1 && isDigit d2
      then Some (String y1 (String y2 (String y3 (String y4 EmptyString))),
                 String m1 (String m2 EmptyString),
                 String d1 (String d2 EmptyString))
      else None
  | _ => None
  end.

(** [trimmed.match(/^(\d{4})-W(\d{2})$/i)]: the two captured groups. *)
Definition matchWeek (s : string) : option (string * string) :=
  match s with
  | String y1 (String y2 (String y3 (String y4 (String s1
      (String w (String w1 (String w2 EmptyString))))))) =>
      if isDigit y1 && isDigit y2 && isDigit y3 && isDigit y4
         && Ascii.eqb s1 "-" && (Ascii.eqb w "W" || Ascii.eqb w "w")
         && isDigit w1 && isDigit w2
      then Some (String y1 (String y2 (String y3 (String y4 EmptyString))),
                 String w1 (String w2 EmptyString))
      else None
  | _ => None
  end.

(** The week branch of [parseIsoDate]: the Monday computed from
    January 4. For the four-digit years and two-digit weeks the pattern
    admits, [Date.UTC] and [setUTCDate] both stay inside the range of
    time values, so the source never returns an invalid date here. *)
Definition weekMonday (year week : Z) : option Z :=
  jan4 ← JsDate.UTC year 0 4;
  let jan4Weekday :=
    if JsDate.getUTCDay jan4 =? 0 then 7 else JsDate.getUTCDay jan4 in
  JsDate.setUTCDate jan4
    (JsDate.getUTCDate jan4 + (1 - jan4Weekday) + (week - 1) * 7).

Definition parseIsoDate `{Host} (value : option string) : option Z :=
  match value with
  | None => None
  | Some value =>
      if negb (nonEmpty value) then None
      else
        let trimmed := trim value in
        if negb (nonEmpty trimmed) then None
        else
          let viaDate :=
            match matchDate trimmed with
            | Some (y, m, d) =>
                let year := parseDigits y in
                let month := parseDigits m - 1 in
                let day := parseDigits d in
                JsDate.UTC year month day
            | None => None
            end in
          match viaDate with
          | Some parsed => Some parsed
          | None =>
              match matchWeek trimmed with
              | Some (y, w) => weekMonday (parseDigits y) (parseDigits w)
              | None => dateParse trimmed
              end
          end
  end.

(** [row[key] = value] when [value] is not [undefined]. *)
Definition setField (key : string) (value : option Json) (row : TrendRow)
  : TrendRow :=
  match value with
  | Some v => <[key := v]> row
  | None => row
  end.

(** [if (value) row[key] = value] for a string [value]. *)
Definition setNonEmpty (key : string) (value : option string)
    (row : TrendRow) : TrendRow :=
  match value with
  | Some v => if nonEmpty v then <[key := JStr v]> row else row
  | None => row
  end.

(** [buildRow] is written as the source has it, block by block; each
    block below is one stretch of its body. It gives the row the function
    returns; [buildRowThrows] tells when the function throws instead. *)

(** The text of an alias chain: [String(a ?? b ?? ... ?? '').trim()]. *)
Definition chainText (v : option Json) : string :=
  trim (String_ (v ?? emptyLit)).

(** The final value of [query], before [query || sourceFile]. *)
Definition queryValue (raw : RawRecord) : string :=
  let query :=
    chainText (raw !! "query" ?? raw !! "keyword" ?? raw !! "term"
                 ?? raw !! "search_term") in
  let route := chainText (raw !! "route") in
  let airline := chainText (raw !! "airline") in
  let season := chainText (raw !! "season") in
  if nonEmpty query then query
  else
    let query :=
      if nonEmpty route || nonEmpty airline
      then trim (join " " (List.filter nonEmpty [route; airline; season]))
      else query in
    if nonEmpty query then query
    else chainText (raw !! "provider" ?? raw !! "category" ?? raw !! "topic").

Definition snapshotDateValue (raw : RawRecord) : string :=
  chainText (raw !! "snapshot_date").

Definition dateValue (raw : RawRecord) : string :=
  if nonEmpty (snapshotDateValue raw) then snapshotDateValue raw
  else chainText (raw !! "date" ?? raw !! "week" ?? raw !! "week_id"
                    ?? raw !! "period").

(** The object literal [row]. *)
Definition initialRow `{Host} (raw : RawRecord) (sourceFile sourceFormat : string)
  : TrendRow :=
  let query := queryValue raw in
  let region :=
    chainText (raw !! "region" ?? raw !! "region_name" ?? raw !! "geo") in
  let searchIndex :=
    coerceInt (raw !! "search_index" ?? raw !! "index" ?? raw !! "score") in
  let brandingMix :=
    coerceFloat (raw !! "branding_mix" ?? raw !! "mix_share"
                   ?? raw !! "implied_unit_sales_impact" ?? raw !! "metric") in
  let notableEvent :=
    chainText (raw !! "notable_driver" ?? raw !! "notable_event"
                 ?? raw !! "notes" ?? raw !! "channel_checks"
                 ?? raw !! "processing_notes") in
  fold_left (fun row kv => setField kv.1 kv.2 row)
    [("query", Some (JStr (if nonEmpty query then query else sourceFile)));
     ("date", Some (JStr (dateValue raw)));
     ("snapshot_date",
      Some (JStr (if nonEmpty (snapshotDateValue raw)
                  then snapshotDateValue raw else dateValue raw)));
     ("region", Some (JStr region));
     ("search_index", JNum <$> searchIndex);
     ("branding_mix", JNum <$> brandingMix);
     ("notable_event", Some (JStr notableEvent));
     ("source_file", Some (JStr sourceFile));
     ("source_format", Some (JStr sourceFormat))]
    ∅.

(** The loop over [OPTIONAL_COPY_KEYS]. *)
Definition copyOptionalKeys (raw : RawRecord) (row : TrendRow) : TrendRow :=
  fold_left
    (fun row key =>
       let value := raw !! key in
       if isBlank value then row else setField key value row)
    OPTIONAL_COPY_KEYS row.

(** [if (route) { ... }] *)
Definition setRoute (route : string) (row : TrendRow) : TrendRow :=
  if nonEmpty route then
    let row := <["route" := JStr route]> row in
    if includesChar route "-" then
      let parts := List.map trim (split "-" 2 route) in
      let origin := parts !! 0%nat in
      let destination := parts !! 1%nat in
      let row := setNonEmpty "origin_airport" origin row in
      setNonEmpty "destination_airport" destination row
    else row
  else row.

(** The six numeric columns copied when they coerce. *)
Definition setFares `{Host} (raw : RawRecord) (row : TrendRow) : TrendRow :=
  let row := setField "avg_fare_usd" (JNum <$> coerceFloat (raw !! "avg_fare_usd")) row in
  let row := setField "premium_fare_usd" (JNum <$> coerceFloat (raw !! "premium_fare_usd")) row in
  let row := setField "fare_yoy_pct" (JNum <$> coerceFloat (raw !! "fare_yoy_pct")) row in
  let row := setField "advance_purchase_days" (JNum <$> coerceInt (raw !! "advance_purchase_days")) row in
  let row := setField "load_factor_pct" (JNum <$> coerceFloat (raw !! "load_factor_pct")) row in
  setField "ancillary_revenue_pct" (JNum <$> coerceFloat (raw !! "ancillary_revenue_pct")) row.

(** [if (notableDriver) { ... }] *)
Definition setNotableDriver (raw : RawRecord) (row : TrendRow) : TrendRow :=
  let notableDriver := chainText (raw !! "notable_driver") in
  if nonEmpty notableDriver then
    <["notable_event" := JStr notableDriver]>
      (<["notable_driver" := JStr notableDriver]> row)
  else row.

Definition buildRow `{Host} (raw : RawRecord) (sourceFile sourceFormat : string)
  : TrendRow :=
  let route := chainText (raw !! "route") in
  let airline := chainText (raw !! "airline") in
  let season := chainText (raw !! "season") in
  let row := initialRow raw sourceFile sourceFormat in
  let row := copyOptionalKeys raw row in
  let row := setRoute route row in
  let row := setNonEmpty "airline" (Some airline) row in
  let row := setNonEmpty "season" (Some season) row in
  let row := setFares raw row in
  setNotableDriver raw row.

(** When [buildRow] throws instead of returning a row: one of its calls
    of [String] throws. The calls are those of the alias chains, of
    [coerceInt] and [coerceFloat] on a value that is not blank, and the two
    the source reaches only on an empty text: the date chain after an empty
    [snapshot_date], the vendor chain after an empty query. *)
Definition buildRowThrows (raw : RawRecord) : bool :=
  let text := fun v => throwsOn (v ?? emptyLit) in
  let number := fun v => negb (isBlank v) && throwsOn v in
  let query :=
    chainText (raw !! "query" ?? raw !! "keyword" ?? raw !! "term"
                 ?? raw !! "search_term") in
  let route := chainText (raw !! "route") in
  let airline := chainText (raw !! "airline") in
  let season := chainText (raw !! "season") in
  text (raw !! "query" ?? raw !! "keyword" ?? raw !! "term"
          ?? raw !! "search_term")
  || text (raw !! "snapshot_date")
  || negb (nonEmpty (snapshotDateValue raw))
     && text (raw !! "date" ?? raw !! "week" ?? raw !! "week_id"
                ?? raw !! "period")
  || text (raw !! "region" ?? raw !! "region_name" ?? raw !! "geo")
  || number (raw !! "search_index" ?? raw !! "index" ?? raw !! "score")
  || number (raw !! "branding_mix" ?? raw !! "mix_share"
               ?? raw !! "implied_unit_sales_impact" ?? raw !! "metric")
  || text (raw !! "notable_driver" ?? raw !! "notable_event"
             ?? raw !! "notes" ?? raw !! "channel_checks"
             ?? raw !! "processing_notes")
  || text (raw !! "route") || text (raw !! "airline") || text (raw !! "season")
  || negb (nonEmpty query)
     && negb (nonEmpty
                (if nonEmpty route || nonEmpty airline
                 then trim (join " " (List.filter nonEmpty
                                        [route; airline; season]))
                 else query))
     && text (raw !! "provider" ?? raw !! "category" ?? raw !! "topic")
  || number (raw !! "avg_fare_usd") || number (raw !! "premium_fare_usd")
  || number (raw !! "fare_yoy_pct") || number (raw !! "advance_purchase_days")
  || number (raw !! "load_factor_pct")
  || number (raw !! "ancillary_revenue_pct")
  || text (raw !! "notable_driver").

(** The properties the blocks after the object literal write. *)
Definition laterKeys : list string :=
  OPTIONAL_COPY_KEYS ++
  ["route"; "origin_airport"; "destination_airport"; "airline"; "season";
   "avg_fare_usd"; "premium_fare_usd"; "fare_yoy_pct";
   "advance_purchase_days"; "load_factor_pct"; "ancillary_revenue_pct";
   "notable_driver"; "notable_event"].

(** *** Reading one file *)

Definition newline : string := String "010" EmptyString.
Definition tab : string := String "009" EmptyString.

Definition stripCR (s : string) : string :=
  match String.rev s with
  | String "013" r => String.rev r
  | _ => s
  end.

Fixpoint stripSeparatorCR (pieces : list string) : list string :=
  match pieces with
  | [] => []
  | [p] => [p]
  | p :: ps => stripCR p :: stripSeparatorCR ps
  end.

(** [content.split(/\r?\n/)] *)
Definition splitLines (content : string) : list string :=
  stripSeparatorCR (splitChar "010" content).

(** [s.slice(1)] *)
Definition slice1 (s : string) : string :=
  match s with
  | String _ s' => s'
  | EmptyString => EmptyString
  end.

Definition truthy (v : option string) : bool :=
  match v with
  | Some s => nonEmpty s
  | None => false
  end.

(** One turn of the loop over the lines of a tabular file; the state is
    [headerLine] and [dataLines]. *)
Definition scanLine (delimiter : string)
    (st : option string * list string) (line : string)
  : option string * list string :=
  let '(headerLine, dataLines) := st in
  let trimmed := trim line in
  if negb (nonEmpty trimmed) then st
  else if startsWith trimmed "#" then
    let comment := trim (slice1 trimmed) in
    if negb (truthy headerLine) && includes comment delimiter
    then (Some comment, dataLines)
    else st
  else (headerLine, dataLines ++ [line]).

(** A directory as the loader sees it. Files are named by their entry
    name: for an entry of the directory,
    [basename(resolve(directory, name))] is [name]. [readdir] is [None]
    when listing rejects, [readFile] when reading does. *)
Record Dirent : Type := { name : string; isFile : bool }.

Record Directory : Type := {
  resolved : string;
  readdir : option (list Dirent);
  readFile : string -> option string
}.

(** The loaders return [None] when the promise rejects. The cells of a
    CSV record are strings, which [String] returns as they are, so
    [buildRow] does not throw on them. *)
Definition loadTabularRows `{Host} (dir : Directory) (fileName delimiter : string)
  : option (list TrendRow) :=
  content ← readFile dir fileName;
  let lines := splitLines content in
  let '(headerLine, dataLines) :=
    fold_left (scanLine delimiter) lines (None, []) in
  if (length dataLines =? 0)%nat then Some []
  else
    let csvSource :=
      (if truthy headerLine then default "" headerLine +:+ newline else "")
        +:+ join newline dataLines in
    records ← parseCsv csvSource delimiter;
    let sourceFile := fileName in
    let sourceFormat := if String.eqb delimiter tab then "tsv" else "csv" in
    Some (List.map (fun record => buildRow record sourceFile sourceFormat)
                   records).

(** [Object.entries] *)
Definition entriesOf (v : Json) : list (string * Json) :=
  match v with
  | JObj fields => fields
  | JArr items => imap (fun i x => (indexName i, x)) items
  | _ => []
  end.

(** [ingest]: the row it pushes, or [None] when [buildRow] throws, which
    rejects the whole load. *)
Definition ingest `{Host} (sourceFile : string) (data defaults : RawRecord)
  : option TrendRow :=
  let merged := data ∪ defaults in
  if buildRowThrows merged then None
  else Some (buildRow merged sourceFile "json").

(** The loop over the entries of an array. *)
Definition ingestEntries `{Host} (sourceFile : string) (entries : list Json)
    (defaults : RawRecord) : option (list TrendRow) :=
  mapM (fun entry => ingest sourceFile (asRecord entry) defaults)
       (List.filter isObjectLike entries).

Definition loadJsonRows `{Host} (dir : Directory) (fileName : string)
  : option (list TrendRow) :=
  content ← readFile dir fileName;
  payload ← jsonParse content;
  let sourceFile := fileName in
  match payload with
  | JArr items => ingestEntries sourceFile items ∅
  | JObj _ =>
      let objectPayload := asRecord payload in
      match objectPayload !! "regions" with
      | Some regions =>
          if isObjectLike regions then
            let weekValue := objectPayload !! "week" in
            rowsOfRegions ←
              mapM
                (fun '(regionName, regionPayload) =>
                   if negb (isObjectLike regionPayload) then Some []
                   else
                     let defaults : RawRecord :=
                       setField "channel_checks"
                         (asRecord regionPayload !! "channel_checks")
                         (setField "week" weekValue
                            (<["region" := JStr regionName]> ∅)) in
                     match asRecord regionPayload !! "top_queries" with
                     | Some (JArr topQueries) =>
                         ingestEntries sourceFile topQueries defaults
                     | _ =>
                         row ← ingest sourceFile (asRecord regionPayload)
                                 defaults;
                         Some [row]
                     end)
                (entriesOf regions);
            Some (concat rowsOfRegions)
          else row ← ingest sourceFile objectPayload ∅; Some [row]
      | None => row ← ingest sourceFile objectPayload ∅; Some [row]
      end
  | _ => Some []
  end.

Definition loadTrendRowsFromFile `{Host} (dir : Directory) (fileName : string)
    (suffix : Suffix) : option (list TrendRow) :=
  match suffix with
  | csv => loadTabularRows dir fileName ","
  | tsv => loadTabularRows dir fileName tab
  | json => loadJsonRows dir fileName
  end.

(** *** Sorting *)

(** The numbers a comparator returns. *)
Inductive ExtNum : Type := NaN | NegInf | Fin (z : Z) | PosInf.

Definition isPositive (v : ExtNum) : bool :=
  match v with
  | Fin z => 0 <? z
  | PosInf => true
  | _ => false
  end.

(** [Array.prototype.sort(comparator)]. The language fixes the result
    for a consistent comparator: the stable sorted arrangement, which
    insertion from the right computes. *)
Fixpoint insertSorted {A} (cmp : A -> A -> ExtNum) (x : A) (l : list A)
  : list A :=
  match l with
  | [] => [x]
  | y :: l' =>
      if isPositive (cmp x y) then y :: insertSorted cmp x l'
      else x :: l
  end.

Definition sort {A} (cmp : A -> A -> ExtNum) (l : list A) : list A :=
  foldr (insertSorted cmp) [] l.

(** [a] may stand before [b] for the comparator: [cmp a b] is not
    positive. *)
Definition notAfter {A} (cmp : A -> A -> ExtNum) (a b : A) : Prop :=
  isPositive (cmp a b) = false.

(** *** The dataset *)

(** [path.extname] of an entry name. *)
Fixpoint lastDotSuffix (s : string) : option string :=
  match s with
  | EmptyString => None
  | String c s' =>
      match lastDotSuffix s' with
      | Some e => Some e
      | None => if Ascii.eqb c "." then Some s else None
      end
  end.

Definition extname (fileName : string) : string :=
  match fileName with
  | EmptyString => ""
  | String _ rest =>
      if String.eqb fileName ".." then ""
      else default "" (lastDotSuffix rest)
  end.

Definition suffixOf (fileName : string) : option Suffix :=
  SUPPORTED_SUFFIXES (toLowerCase (extname fileName)).

Record Dataset : Type := {
  rows : list TrendRow;
  availableFiles : list string
}.

Definition loadTrendDataset `{Host} (dir : Directory) : Dataset :=
  match readdir dir with
  | None => {| rows := []; availableFiles := [] |}
  | Some dirents =>
      let entries :=
        List.filter (fun filePath => bool_decide (is_Some (suffixOf filePath)))
          (List.map name (List.filter isFile dirents)) in
      let entries := sort (fun a b => Fin (localeCompare a b)) entries in
      let aggregatedRows :=
        fold_left
          (fun aggregatedRows filePath =>
             match suffixOf filePath with
             | None => aggregatedRows
             | Some suffix =>
                 match loadTrendRowsFromFile dir filePath suffix with
                 | Some rows => aggregatedRows ++ rows
                 | None => aggregatedRows
                 end
             end)
          entries [] in
      {| rows := aggregatedRows; availableFiles := entries |}
  end.

(** *** The query *)

Record AirfareTrendFilters : Type := {
  snapshotDate : option string;
  routeContains : option string;
  originAirport : option string;
  destinationAirport : option string;
  airlineContains : option string;
  seasonContains : option string;
  notableContains : option string;
  limit : option Z
}.

(** The [filters] object of a result that went through the query. *)
Module Echo.
Record t : Type := {
  snapshot_date : option string;
  route_contains : option string;
  origin_airport : option string;
  destination_airport : option string;
  airline_contains : option string;
  season_contains : option string;
  notable_contains : option string;
  limit : Z
}.
End Echo.

(** The [filters] property of a result: the caller's object as it came,
    or the object the query builds. *)
Inductive FiltersEcho : Type :=
| AsGiven (filters : AirfareTrendFilters)
| Normalized (filters : Echo.t).

Record QueryResult : Type := {
  result_rows : list TrendRow;
  available_files : list string;
  filters : FiltersEcho;
  total_rows : nat;
  matched_rows : nat;
  rows_returned : nat;
  trend_data_dir : string
}.

(** [(value ?? '').trim().toLowerCase()] *)
Definition normalizeFilter (value : option string) : string :=
  toLowerCase (trim (default "" value)).

Definition rowSnapshotTime `{Host} (row : TrendRow) : option Z :=
  parseIsoDate (asString (row !! "snapshot_date")).

(** The predicate of [rows.filter]. *)
Definition keepRow `{Host} (snapshotFilterIso : option string)
    (routeFilter originFilter destinationFilter airlineFilter seasonFilter
       notableFilter : string) (row : TrendRow) : bool :=
  let parsedSnapshot := rowSnapshotTime row in
  let rowSnapshotIso := JsDate.toISOString <$> parsedSnapshot in
  if truthy snapshotFilterIso
     && bool_decide (rowSnapshotIso ≠ snapshotFilterIso)
  then false
  else
    let routeValue :=
      toLowerCase (String_ (row !! "route" ?? row !! "query" ?? emptyLit)) in
    if nonEmpty routeFilter && negb (includes routeValue routeFilter)
    then false
    else if nonEmpty originFilter
            && negb (String.eqb
                       (toLowerCase (String_ (row !! "origin_airport" ?? emptyLit)))
                       originFilter)
    then false
    else if nonEmpty destinationFilter
            && negb (String.eqb
                       (toLowerCase (String_ (row !! "destination_airport" ?? emptyLit)))
                       destinationFilter)
    then false
    else if nonEmpty airlineFilter
            && negb (includes
                       (toLowerCase (String_ (row !! "airline" ?? emptyLit)))
                       airlineFilter)
    then false
    else if nonEmpty seasonFilter
            && negb (includes
                       (toLowerCase (String_ (row !! "season" ?? emptyLit)))
                       seasonFilter)
    then false
    else if nonEmpty notableFilter
            && negb (includes
                       (toLowerCase (String_ (row !! "notable_event" ?? emptyLit)))
                       notableFilter)
    then false
    else true.

(** [?.getTime() ?? -Infinity] *)
Definition timeOrNegInf (t : option Z) : ExtNum :=
  match t with
  | Some t => Fin t
  | None => NegInf
  end.

Definition extEqb (a b : ExtNum) : bool :=
  match a, b with
  | NegInf, NegInf | PosInf, PosInf => true
  | Fin x, Fin y => x =? y
  | _, _ => false
  end.

(** [a - b] on numbers. *)
Definition extSub (a b : ExtNum) : ExtNum :=
  match a, b with
  | Fin x, Fin y => Fin (x - y)
  | NaN, _ | _, NaN => NaN
  | PosInf, PosInf | NegInf, NegInf => NaN
  | PosInf, _ | _, NegInf => PosInf
  | NegInf, _ | _, PosInf => NegInf
  end.

Definition routeKey (row : TrendRow) : string :=
  String_ (row !! "route" ?? row !! "query" ?? emptyLit).

Definition airlineKey (row : TrendRow) : string :=
  String_ (row !! "airline" ?? emptyLit).

(** The comparator of the query's [sort]. *)
Definition compareRows `{Host} (a b : TrendRow) : ExtNum :=
  let dateA := timeOrNegInf (rowSnapshotTime a) in
  let dateB := timeOrNegInf (rowSnapshotTime b) in
  if negb (extEqb dateA dateB) then extSub dateB dateA
  else
    let routeA := routeKey a in
    let routeB := routeKey b in
    if negb (String.eqb routeA routeB) then Fin (localeCompare routeA routeB)
    else
      let airlineA := airlineKey a in
      let airlineB := airlineKey b in
      Fin (localeCompare airlineA airlineB).

Definition effectiveLimit (requested : option Z) : Z :=
  Z.min (Z.max (default DEFAULT_LIMIT requested) 1) MAX_LIMIT.

(** The value of [filtered]. *)
Definition filterRows `{Host} (filters : AirfareTrendFilters)
    (rows : list TrendRow) : list TrendRow :=
  let snapshotFilterDate := parseIsoDate (snapshotDate filters) in
  let snapshotFilterIso := JsDate.toISOString <$> snapshotFilterDate in
  let routeFilter := normalizeFilter (routeContains filters) in
  let originFilter := normalizeFilter (originAirport filters) in
  let destinationFilter := normalizeFilter (destinationAirport filters) in
  let airlineFilter := normalizeFilter (airlineContains filters) in
  let seasonFilter := normalizeFilter (seasonContains filters) in
  let notableFilter := normalizeFilter (notableContains filters) in
  List.filter
    (keepRow snapshotFilterIso routeFilter originFilter destinationFilter
       airlineFilter seasonFilter notableFilter)
    rows.

(** The value of [sortedRows]. *)
Definition sortRows `{Host} (filtered : list TrendRow) : list TrendRow :=
  sort compareRows filtered.

Definition queryAirfareTrends `{Host} (dir : Directory)
    (filters : AirfareTrendFilters) : QueryResult :=
  let '{| rows := rows; availableFiles := availableFiles |} :=
    loadTrendDataset dir in
  if (length rows =? 0)%nat then
    {| result_rows := [];
       available_files := availableFiles;
       filters := AsGiven filters;
       total_rows := 0;
       matched_rows := 0;
       rows_returned := 0;
       trend_data_dir := resolved dir |}
  else
    let filtered := filterRows filters rows in
    let sortedRows := sortRows filtered in
    let limit := effectiveLimit (limit filters) in
    let limitedRows := take (Z.to_nat limit) sortedRows in
    {| result_rows := limitedRows;
       available_files := availableFiles;
       filters :=
         Normalized
           {| Echo.snapshot_date := snapshotDate filters;
              Echo.route_contains := routeContains filters;
              Echo.origin_airport := originAirport filters;
              Echo.destination_airport := destinationAirport filters;
              Echo.airline_contains := airlineContains filters;
              Echo.season_contains := seasonContains filters;
              Echo.notable_contains := notableContains filters;
              Echo.limit := limit |};
       total_rows := length rows;
       matched_rows := length sortedRows;
       rows_returned := length limitedRows;
       trend_data_dir := resolved dir |}.

(** *** Text of a vector-store content value *)

(** [walk] of [collectTextFromContent]: the strings it pushes for [node],
    in order. A falsy node (null, false, 0, NaN, the empty string) pushes
    nothing; an object is read at [text], [data] and [contents], each
    property name occurring once in [fields]. *)
Fixpoint walk (node : Json) : list string :=
  match node with
  | JNull | JBool _ | JNum _ => []
  | JStr node => if nonEmpty node then [node] else []
  | JArr items => flat_map walk items
  | JObj fields =>
      match asString (objectRecord fields !! "text") with
      | Some text => [text]
      | None => []
      end
      ++ (fix data (fs : list (string * Json)) : list string :=
            match fs with
            | [] => []
            | (k, v) :: fs' =>
                (if String.eqb k "data" then walk v else []) ++ data fs'
            end) fields
      ++ (fix contents (fs : list (string * Json)) : list string :=
            match fs with
            | [] => []
            | (k, v) :: fs' =>
                (if String.eqb k "contents" then walk v else [])
                ++ contents fs'
            end) fields
  end.

Definition collectTextFromContent (content : option Json) : string :=
  join newline
    (match content with
     | Some node => walk node
     | None => []
     end).

End Trends.

(** ** [src/auth.ts] and the status mapping of [src/server.ts] *)

Module Auth.

Import JsString.

(** What the gate takes from outside the repository. *)
Class AuthHost : Type := {
  (** [jwtVerify(token, jwks, {issuer, audience})] from jose, with the
      key set and the options of the configuration: the payload, or
      [None] when it throws (bad signature, issuer, audience, expiry). *)
  jwtVerify : string -> option RawRecord;
  (** [new URL(value)], as its [href]; [None] when it throws. *)
  newURL : string -> option string;
  (** [config.resourceServerUrl] *)
  resourceServerUrl : string
}.

Definition REQUIRED_SCOPES : list string := ["openid"; "profile"; "email"].

(** What a call can throw: the class of [auth.ts], or anything else. *)
Inductive Thrown : Type :=
| AuthorizationError (message : string) (status : Z)
| OtherError.

(** [new AuthorizationError(message)]: the status defaults to 401. *)
Definition AuthorizationError401 (message : string) : Thrown :=
  AuthorizationError message 401.

(** [!value] *)
Definition falsy (value : option Json) : bool :=
  match value with
  | None | Some JNull | Some (JBool false) | Some (JStr EmptyString) => true
  | Some (JNum (Num r)) => String.eqb r "0" || String.eqb r "NaN"
  | Some _ => false
  end.

Definition isScopeSeparator (c : ascii) : bool :=
  isWhitespace c || Ascii.eqb c ",".

Definition extractScopes (payload : RawRecord) : list string :=
  let scopeValue := payload !! "scope" ?? payload !! "scp" in
  if falsy scopeValue then []
  else
    match scopeValue with
    | Some (JStr scopeValue) =>
        List.filter nonEmpty
          (List.map trim (splitRuns isScopeSeparator scopeValue))
    | Some (JArr scopeValue) =>
        List.filter nonEmpty
          (List.map
             (fun item => match item with JStr item => trim item | _ => "" end)
             scopeValue)
    | _ => []
    end.

Definition missingScopes (scopes : list string) : list string :=
  List.filter (fun scope => negb (bool_decide (scope ∈ scopes)))
              REQUIRED_SCOPES.

Definition ensureRequiredScopes (scopes : list string) : Thrown + unit :=
  let missing := missingScopes scopes in
  if (0 <? length missing)%nat then
    inl (AuthorizationError
           ("Missing required scopes: " +:+ join ", " missing) 403)
  else inr tt.

Definition tryParseUrl `{AuthHost} (value : option Json) : option string :=
  match value with
  | Some (JStr value) => if nonEmpty value then newURL value else None
  | _ => None
  end.

Fixpoint firstParsed `{AuthHost} (items : list Json) : option string :=
  match items with
  | [] => None
  | item :: items' =>
      match tryParseUrl (Some item) with
      | Some parsed => Some parsed
      | None => firstParsed items'
      end
  end.

Definition resourceClaim `{AuthHost} (payload : RawRecord) : option string :=
  match payload !! "resource" with
  | Some (JStr resource) => tryParseUrl (Some (JStr resource))
  | _ => None
  end.

Definition resolveResource `{AuthHost} (payload : RawRecord) : option string :=
  match payload !! "aud" with
  | Some (JStr aud) => tryParseUrl (Some (JStr aud))
  | Some (JArr aud) =>
      match firstParsed aud with
      | Some parsed => Some parsed
      | None => resourceClaim payload
      end
  | _ => resourceClaim payload
  end.

Record VerifiedAuthInfo : Type := {
  token : string;
  clientId : string;
  scopes : list string;
  expiresAt : option number;
  resource : string;
  claims : RawRecord;
  subject : option string
}.

Definition verifyBearerToken `{AuthHost} (token : string)
  : Thrown + VerifiedAuthInfo :=
  if negb (nonEmpty token) then
    inl (AuthorizationError401 "Missing bearer token")
  else
    match jwtVerify token with
    | None => inl OtherError
    | Some payload =>
        let scopes := extractScopes payload in
        match (if (0 <? length REQUIRED_SCOPES)%nat
               then ensureRequiredScopes scopes else inr tt) with
        | inl thrown => inl thrown
        | inr _ =>
            let subject := asString (payload !! "sub") in
            let clientId :=
              match asString (payload !! "azp") with
              | Some azp => azp
              | None =>
                  match asString (payload !! "client_id") with
                  | Some client_id => client_id
                  | None => "unknown_client"
                  end
              end in
            let expiresAt :=
              match payload !! "exp" with
              | Some (JNum exp) => Some exp
              | _ => None
              end in
            let resourceUrl :=
              default resourceServerUrl (resolveResource payload) in
            inr {| token := token;
                   clientId := clientId;
                   scopes := scopes;
                   expiresAt := expiresAt;
                   resource := resourceUrl;
                   claims := payload;
                   subject := subject |}
        end
    end.

(** The value of a request header: one string, or several. *)
Inductive HeaderValue : Type :=
| Single (value : string)
| Several (values : list string).

Definition authenticateRequest `{AuthHost} (headers : gmap string HeaderValue)
  : Thrown + VerifiedAuthInfo :=
  let header :=
    match headers !! "authorization" with
    | Some h => Some h
    | None => headers !! "Authorization"
    end in
  match header with
  | None | Some (Several _) =>
      inl (AuthorizationError401 "Missing Authorization header")
  | Some (Single header) =>
      if negb (nonEmpty header) then
        inl (AuthorizationError401 "Missing Authorization header")
      else
        let trimmed := trim header in
        if negb (startsWith (toLowerCase trimmed) "bearer ") then
          inl (AuthorizationError401
                 "Authorization header must be a Bearer token")
        else
          let token := String.substring 7 (String.length trimmed - 7) trimmed in
          verifyBearerToken token
  end.

(** The [catch] of [app.post('/mcp')]: the HTTP status, and the [code] and
    [message] of the error body. *)
Definition errorResponse (error : Thrown) : Z * (Z * string) :=
  match error with
  | AuthorizationError message status => (status, (status, message))
  | OtherError => (500, (-32603, "Internal server error"))
  end.

(** [audienceOption], the audience handed to [jwtVerify]: nothing, one
    string, or the list. *)
Inductive AudienceOption : Type :=
| NoAudience
| OneAudience (audience : string)
| Audiences (audiences : list string).

Definition audienceOption (expectedAudiences : list string) : AudienceOption :=
  match expectedAudiences with
  | [] => NoAudience
  | [audience] => OneAudience audience
  | _ => Audiences expectedAudiences
  end.

End Auth.

(** ** [src/config.ts] *)

Module Config.

Import JsString.

(** [parsed.data]: the environment once the schema has accepted it. *)
Record Env : Type := {
  PORT : option string;
  RESOURCE_SERVER_URL : option string;
  AUTH0_ISSUER : string;
  JWT_AUDIENCES : option string;
  OPENAI_API_KEY : option string;
  VECTOR_STORE_ID : option string
}.

Definition DEFAULT_PORT : string := "8788".

(** [Number.isNaN] *)
Definition isNaN (n : number) : bool :=
  match n with Num r => String.eqb r "NaN" end.

(** The value of [normalizedIssuer]. *)
Definition normalizedIssuer (raw : Env) : string :=
  if endsWith (AUTH0_ISSUER raw) "/" then AUTH0_ISSUER raw
  else AUTH0_ISSUER raw +:+ "/".

(** The value of [expectedAudiences] before the default is pushed. *)
Definition listedAudiences (raw : Env) : list string :=
  List.filter nonEmpty
    (List.map trim (splitChar "," (default "" (JWT_AUDIENCES raw)))).

(** What the module takes from outside: [new URL(value)], as its
    [href]; [None] when it throws. *)
Class UrlHost : Type := {
  parseUrl : string -> option string
}.

(** The exported [config]; [resourceServerUrl], a URL, is kept as its
    [href], and [trendDataDir], which the source computes from the place
    of the module, is taken as given. *)
Record AppConfig : Type := {
  port : number;
  auth0Issuer : string;
  resourceServerUrl : string;
  openAiApiKey : option string;
  vectorStoreId : option string;
  trendDataDir : string;
  expectedAudiences : list string
}.

(** The value of the constant [resourceServerUrl], a string. *)
Definition resourceServerText (raw : Env) (port : number) : string :=
  default ("http://localhost:" +:+ numberToString port)
          (RESOURCE_SERVER_URL raw).

(** The body of the module after the schema has accepted the
    environment; [None] when it throws: for a port that is no integer,
    and for a [resourceServerUrl] that [new URL] refuses. *)
Definition config `{Host} `{UrlHost} (defaultTrendDataDir : string) (raw : Env)
  : option AppConfig :=
  let port := parseInt (default DEFAULT_PORT (PORT raw)) in
  if isNaN port then None
  else
    let resourceServerUrl := resourceServerText raw port in
    let expectedAudiences := listedAudiences raw in
    let expectedAudiences :=
      if (length expectedAudiences =? 0)%nat
      then expectedAudiences ++ [resourceServerUrl]
      else expectedAudiences in
    href ← parseUrl resourceServerUrl;
    Some {| port := port;
            auth0Issuer := normalizedIssuer raw;
            resourceServerUrl := href;
            openAiApiKey := OPENAI_API_KEY raw;
            vectorStoreId := VECTOR_STORE_ID raw;
            trendDataDir := defaultTrendDataDir;
            expectedAudiences := expectedAudiences |}.

End Config.

(** ** The [search] tool of [src/server.ts] *)

Module Server.

Import JsString.

(** What the tool takes from outside: the configured store and the
    OpenAI client. *)
Class SearchHost : Type := {
  (** [config.vectorStoreId] *)
  vectorStoreId : option string;
  (** [openai.vectorStores.search(vectorStoreId, {query, ...})]: the
      response object by its properties, or the message of what it
      throws. *)
  vectorStoreSearch : string -> string -> string + list (string * Json);
  (** The message of the [TypeError] a property read of [null] throws. *)
  nullReadMessage : string
}.

Record SearchResult : Type := {
  id : string;
  title : string;
  text : string;
  url : string
}.

(** What the tool answers: the results, or an error with its detail. *)
Inductive SearchOutcome : Type :=
| Results (results : list SearchResult)
| ToolError (error detail : string).

(** The value of [snippet]. *)
Definition snippet (text : string) : string :=
  if (200 <? String.length text)%nat then sliceTo 200 text +:+ "..."
  else if nonEmpty text then text
  else "No content available".

(** The callback of [data.map]; [None] when [item] is [null], whose
    property read throws. *)
Definition searchResult (index : nat) (item : Json) : option SearchResult :=
  match item with
  | JNull => None
  | _ =>
      let item := asRecord item in
      let rawContent := item !! "content" in
      let text := Trends.collectTextFromContent rawContent in
      let id :=
        String_ (item !! "file_id" ?? item !! "id"
                   ?? Some (JStr ("vs_" +:+ indexName index))) in
      let title :=
        String_ (item !! "filename"
                   ?? Some (JStr ("Document " +:+ indexName (index + 1)))) in
      Some {| id := id;
              title := title;
              text := snippet text;
              url := "https://platform.openai.com/storage/files/" +:+ id |}
  end.

(** The handler of the [search] tool. *)
Definition search `{SearchHost} (query : string) : SearchOutcome :=
  let trimmedQuery := trim query in
  if negb (nonEmpty trimmedQuery) then Results []
  else
    match vectorStoreId with
    | None =>
        ToolError "Vector store not configured"
                  "Set VECTOR_STORE_ID to enable search."
    | Some vectorStoreId =>
        if negb (nonEmpty vectorStoreId) then
          ToolError "Vector store not configured"
                    "Set VECTOR_STORE_ID to enable search."
        else
          match vectorStoreSearch vectorStoreId trimmedQuery with
          | inl message => ToolError "Search failed" message
          | inr response =>
              let data :=
                match objectRecord response !! "data" with
                | Some (JArr data) => data
                | _ => []
                end in
              match mapM (fun '(index, item) => searchResult index item)
                         (imap (fun index item => (index, item)) data) with
              | Some results => Results results
              | None => ToolError "Search failed" nullReadMessage
              end
          end
    end.

End Server.

(** ** A platform for the closed examples

    Each field agrees with the function it stands for on the arguments the
    examples below pass to it, and is not meant beyond them: strings of
    one letter case are compared by code unit, as the collation does;
    the CSV reader takes unquoted cells; the documents and dates handed
    to the JSON reader and to the legacy date parser are ones the real
    functions reject; the number parsers are never reached. *)

Module Reference.

Import JsString.

Definition compareStrings (a b : string) : Z :=
  match String.compare a b with
  | Lt => -1
  | Eq => 0
  | Gt => 1
  end.

Definition cells (line : string) : list string := splitChar "," line.

Definition recordOf (header : list string) (line : string)
  : option RawRecord :=
  let values := cells line in
  if (length values =? length header)%nat
  then Some (list_to_map (zip header (JStr <$> values)))
  else None.

Definition plainCsv (source delimiter : string) : option (list RawRecord) :=
  if negb (String.eqb delimiter ",") then None
  else
    match List.filter nonEmpty (splitChar "010" source) with
    | [] => Some []
    | header :: lines => mapM (recordOf (cells header)) lines
    end.

Definition host : Host := {|
  parseFloat := fun _ => Num "NaN";
  parseInt := fun _ => Num "NaN";
  dateParse := fun _ => None;
  localeCompare := compareStrings;
  parseCsv := plainCsv;
  jsonParse := fun _ => None
|}.

(** A directory with one malformed JSON file and one well-formed CSV
    file. *)
Definition partialDir : Trends.Directory := {|
  Trends.resolved := "/data/web_search_trends";
  Trends.readdir :=
    Some [ {| Trends.name := "good.csv"; Trends.isFile := true |};
           {| Trends.name := "bad.json"; Trends.isFile := true |};
           {| Trends.name := "notes.md"; Trends.isFile := true |};
           {| Trends.name := "old.csv"; Trends.isFile := false |} ];
  Trends.readFile := fun fileName =>
    if String.eqb fileName "good.csv"
    then Some ("route,airline,season" +:+ Trends.newline
                 +:+ "JFK-LHR,Acme Air,Summer" +:+ Trends.newline)
    else if String.eqb fileName "bad.json" then Some "{oops"
    else None
|}.

(** A CSV record whose [date] cell is empty and whose [week] cell is not. *)
Definition emptyDateRecord : RawRecord :=
  <["date" := JStr ""]> (<["week" := JStr "2024-W03"]> ∅).

(** A CSV record whose [query] cell is empty and whose [keyword] cell is
    not. *)
Definition emptyQueryRecord : RawRecord :=
  <["query" := JStr ""]> (<["keyword" := JStr "airfare deals"]> ∅).

(** The CSV record of the specification's row-derivation example. *)
Definition acmeRecord : RawRecord :=
  <["route" := JStr "JFK-LHR"]>
    (<["airline" := JStr "Acme Air"]> (<["season" := JStr "Summer"]> ∅)).

(** A record whose route has two legs. *)
Definition twoLegRecord : RawRecord := <["route" := JStr "JFK-LHR-CDG"]> ∅.

(** A directory with one CSV file of five fare rows. *)
Definition faresDir : Trends.Directory := {|
  Trends.resolved := "/data/web_search_trends";
  Trends.readdir := Some [ {| Trends.name := "fares.csv"; Trends.isFile := true |} ];
  Trends.readFile := fun fileName =>
    if String.eqb fileName "fares.csv"
    then Some ("route,airline,snapshot_date" +:+ Trends.newline
                 +:+ "LAX-NRT,Zen Air,2024-W34" +:+ Trends.newline
                 +:+ "JFK-LHR,Acme Air,2024-08-19" +:+ Trends.newline
                 +:+ "JFK-LHR,,2024-08-19" +:+ Trends.newline
                 +:+ "SFO-CDG,Gallic,unknown" +:+ Trends.newline
                 +:+ "BOS-DUB,Emerald,2024-08-26" +:+ Trends.newline)
    else None
|}.


Fixpoint withoutControl (s : string) : string :=
  match s with
  | EmptyString => EmptyString
  | String c s' =>
      if Ascii.eqb c "001" then withoutControl s'
      else String c (withoutControl s')
  end.

Definition ignoringHost : Host := {|
  parseFloat := fun _ => Num "NaN";
  parseInt := fun _ => Num "NaN";
  dateParse := fun _ => None;
  localeCompare := fun a b =>
    compareStrings (withoutControl a) (withoutControl b);
  parseCsv := plainCsv;
  jsonParse := fun _ => None
|}.


(** A directory with no supported file. *)
Definition emptyDir : Trends.Directory := {|
  Trends.resolved := "/data/web_search_trends";
  Trends.readdir := Some [ {| Trends.name := "notes.md"; Trends.isFile := true |} ];
  Trends.readFile := fun _ => None
|}.

Definition noFilters : Trends.AirfareTrendFilters := {|
  Trends.snapshotDate := None;
  Trends.routeContains := None;
  Trends.originAirport := None;
  Trends.destinationAirport := None;
  Trends.airlineContains := None;
  Trends.seasonContains := None;
  Trends.notableContains := None;
  Trends.limit := None
|}.

Definition withLimit (n : Z) : Trends.AirfareTrendFilters := {|
  Trends.snapshotDate := None;
  Trends.routeContains := None;
  Trends.originAirport := None;
  Trends.destinationAirport := None;
  Trends.airlineContains := None;
  Trends.seasonContains := None;
  Trends.notableContains := None;
  Trends.limit := Some n
|}.

Definition withSnapshotDate (s : string) : Trends.AirfareTrendFilters := {|
  Trends.snapshotDate := Some s;
  Trends.routeContains := None;
  Trends.originAirport := None;
  Trends.destinationAirport := None;
  Trends.airlineContains := None;
  Trends.seasonContains := None;
  Trends.notableContains := None;
  Trends.limit := None
|}.

(** The gate's platform: one token verifies, with the scopes [openid] and
    [profile] and no [email]; a URL is taken to be its own [href]. *)
Definition authHost : Auth.AuthHost := {|
  Auth.jwtVerify := fun token =>
    if String.eqb token "token-without-email"
    then Some (<["scope" := JStr "openid profile"]>
                 (<["sub" := JStr "user-1"]> ∅))
    else None;
  Auth.newURL := fun value => Some value;
  Auth.resourceServerUrl := "http://localhost:8788/"
|}.

(** A directory with one CSV file whose header line is a comment, after
    a comment that holds no comma and a blank line. *)
Definition commentedDir : Trends.Directory := {|
  Trends.resolved := "/data/web_search_trends";
  Trends.readdir := Some [ {| Trends.name := "fares.csv"; Trends.isFile := true |} ];
  Trends.readFile := fun fileName =>
    if String.eqb fileName "fares.csv"
    then Some ("# exported 2024-08-19" +:+ Trends.newline
                 +:+ Trends.newline
                 +:+ "# route,airline,season" +:+ Trends.newline
                 +:+ "JFK-LHR,Acme Air,Summer" +:+ Trends.newline)
    else None
|}.

(** A JSON document with regions, as text and as the value [JSON.parse]
    gives for it. *)
Definition quoted (s : string) : string :=
  String "034" EmptyString +:+ s +:+ String "034" EmptyString.

Definition regionsText : string :=
  "{" +:+ quoted "week" +:+ ":" +:+ quoted "2024-W34" +:+ ","
    +:+ quoted "regions" +:+ ":{" +:+ quoted "EMEA" +:+ ":{"
    +:+ quoted "top_queries" +:+ ":[{" +:+ quoted "query" +:+ ":"
    +:+ quoted "flights to rome" +:+ "},{" +:+ quoted "region" +:+ ":null,"
    +:+ quoted "geo" +:+ ":" +:+ quoted "Lazio" +:+ "}]}}}".

Definition regionsRegions : Json :=
  JObj [("EMEA",
         JObj [("top_queries",
                JArr [JObj [("query", JStr "flights to rome")];
                      JObj [("region", JNull); ("geo", JStr "Lazio")]])])].

Definition regionsFields : list (string * Json) :=
  [("week", JStr "2024-W34"); ("regions", regionsRegions)].

(** An array of two entries, the second with a query that is an object
    with a property named [toString]. *)
Definition unprintableText : string :=
  "[{" +:+ quoted "query" +:+ ":" +:+ quoted "ok" +:+ "},{"
    +:+ quoted "query" +:+ ":{" +:+ quoted "toString" +:+ ":1}}]".

Definition unprintableItems : list Json :=
  [JObj [("query", JStr "ok")];
   JObj [("query", JObj [("toString", JNum (Num "1"))])]].

(** The reference platform with a JSON reader that reads those two
    documents. *)
Definition jsonHost : Host := {|
  parseFloat := fun _ => Num "NaN";
  parseInt := fun _ => Num "NaN";
  dateParse := fun _ => None;
  localeCompare := compareStrings;
  parseCsv := plainCsv;
  jsonParse := fun text =>
    if String.eqb text regionsText then Some (JObj regionsFields)
    else if String.eqb text unprintableText then Some (JArr unprintableItems)
    else None
|}.

Definition regionsDir : Trends.Directory := {|
  Trends.resolved := "/data/web_search_trends";
  Trends.readdir :=
    Some [ {| Trends.name := "regions.json"; Trends.isFile := true |};
           {| Trends.name := "t.json"; Trends.isFile := true |} ];
  Trends.readFile := fun fileName =>
    if String.eqb fileName "regions.json" then Some regionsText
    else if String.eqb fileName "t.json" then Some unprintableText
    else None
|}.

(** Criteria whose filters are absent, empty or white space, with a
    snapshot date that is no date. *)
Definition blankFilters : Trends.AirfareTrendFilters := {|
  Trends.snapshotDate := Some "next week";
  Trends.routeContains := Some "  ";
  Trends.originAirport := None;
  Trends.destinationAirport := Some "";
  Trends.airlineContains := Some Trends.tab;
  Trends.seasonContains := None;
  Trends.notableContains := Some " ";
  Trends.limit := None
|}.

(** Request headers with a Bearer token, the scheme in capitals and
    white space around the header. *)
Definition bearerHeaders (token : string) : gmap string Auth.HeaderValue :=
  <["authorization" := Auth.Single ("  BEARER " +:+ token +:+ " ")]> ∅.

(** A gate platform on which one token verifies with every required
    scope, issued to the client [client-7]. *)
Definition fullAuthHost : Auth.AuthHost := {|
  Auth.jwtVerify := fun token =>
    if String.eqb token "full-token"
    then Some (<["scp" := JArr [JStr "openid"; JStr " profile"; JStr "email";
                                JStr "offline_access"]]>
                 (<["azp" := JStr "client-7"]>
                    (<["aud" := JStr "not a url"]>
                       (<["resource" := JStr "https://example.org/mcp"]> ∅))))
    else None;
  Auth.newURL := fun value =>
    if String.eqb value "not a url" then None else Some value;
  Auth.resourceServerUrl := "http://localhost:8788/"
|}.

(** A platform that reads the default port and the port 70000. *)
Definition portHost : Host := {|
  parseFloat := fun _ => Num "NaN";
  parseInt := fun text =>
    if String.eqb text "8788" then Num "8788"
    else if String.eqb text "70000" then Num "70000"
    else Num "NaN";
  dateParse := fun _ => None;
  localeCompare := compareStrings;
  parseCsv := plainCsv;
  jsonParse := fun _ => None
|}.

(** [new URL] on the two local addresses: the port 70000 is out of
    range, which it refuses. *)
Definition urlHost : Config.UrlHost := {|
  Config.parseUrl := fun value =>
    if String.eqb value "http://localhost:8788"
    then Some "http://localhost:8788/"
    else None
|}.

(** An environment that sets the port 70000 and no resource server
    URL. *)
Definition largePort : Config.Env := {|
  Config.PORT := Some "70000";
  Config.RESOURCE_SERVER_URL := None;
  Config.AUTH0_ISSUER := "https://tenant.example.com";
  Config.JWT_AUDIENCES := None;
  Config.OPENAI_API_KEY := None;
  Config.VECTOR_STORE_ID := None
|}.

(** An environment that names two audiences, and sets no port and no
    resource server URL. *)
Definition twoAudiences : Config.Env := {|
  Config.PORT := None;
  Config.RESOURCE_SERVER_URL := None;
  Config.AUTH0_ISSUER := "https://tenant.example.com";
  Config.JWT_AUDIENCES := Some " https://api.example.com , ,mcp ";
  Config.OPENAI_API_KEY := None;
  Config.VECTOR_STORE_ID := None
|}.

(** A store that answers one query with two items, the second without
    content. *)
Definition searchHost : Server.SearchHost := {|
  Server.vectorStoreId := Some "vs_travel";
  Server.vectorStoreSearch := fun store query =>
    if String.eqb query "fare trends"
    then inr [("data",
               JArr [JObj [("file_id", JStr "file-1");
                           ("filename", JStr "call-1.txt");
                           ("content",
                            JArr [JObj [("type", JStr "text");
                                        ("text", JStr "Fares rose.")]])];
                     JObj []])]
    else inl "no such query";
  Server.nullReadMessage := "Cannot read properties of null"
|}.

End Reference.

(** ** Definitions that follow the specification's words *)

Module Spec.

Import JsString.

(** clamp(x, lo, hi) *)
Definition clamp (x lo hi : Z) : Z :=
  if x <? lo then lo else if hi <? x then hi else x.

(** The Jan-4 anchor formula: January 4 of [year] in the proleptic
    Gregorian calendar, its weekday with Sunday as 7, and
    (1 - weekday) + (week - 1) * 7 days added; as a time value. *)
Definition jan4AnchorMonday (year week : Z) : Z :=
  let jan4 := JsDate.daysFromCivil year 1 4 in
  let weekday := if (jan4 + 4) mod 7 =? 0 then 7 else (jan4 + 4) mod 7 in
  (jan4 + (1 - weekday) + (week - 1) * 7) * JsDate.msPerDay.

(** The string YYYY-Www of four year digits, a [W] of either case and two
    week digits, and the numbers its digits write. *)
Definition isoWeekString (y1 y2 y3 y4 w w1 w2 : ascii) : string :=
  String y1 (String y2 (String y3 (String y4
    (String "-" (String w (String w1 (String w2 EmptyString))))))).

Definition year4 (y1 y2 y3 y4 : ascii) : Z :=
  1000 * digitValue y1 + 100 * digitValue y2 + 10 * digitValue y3
  + digitValue y4.

Definition week2 (w1 w2 : ascii) : Z := 10 * digitValue w1 + digitValue w2.

(** The first of [keys] that [raw] holds with a value other than [null]. *)
Fixpoint firstPresent (raw : RawRecord) (keys : list string) : option Json :=
  match keys with
  | [] => None
  | key :: keys' =>
      match raw !! key with
      | Some JNull | None => firstPresent raw keys'
      | Some v => Some v
      end
  end.

(** The trimmed text of the first of [keys] present in [raw], [""] when
    none is. *)
Definition presentText (raw : RawRecord) (keys : list string) : string :=
  match firstPresent raw keys with
  | Some v => trim (ToString v)
  | None => ""
  end.

(** The text before the first [c] of [s] (all of [s] when it has none). *)
Fixpoint upTo (c : ascii) (s : string) : string :=
  match s with
  | EmptyString => EmptyString
  | String a s' => if Ascii.eqb a c then EmptyString else String a (upTo c s')
  end.

(** The text after the first [c] of [s]. *)
Fixpoint after (c : ascii) (s : string) : string :=
  match s with
  | EmptyString => EmptyString
  | String a s' => if Ascii.eqb a c then s' else after c s'
  end.

(** As the specification words the alias chains: the first of [keys]
    whose trimmed text is not empty, [""] when there is none. *)
Fixpoint firstNonEmpty (raw : RawRecord) (keys : list string) : string :=
  match keys with
  | [] => ""
  | key :: keys' =>
      if nonEmpty (presentText raw [key]) then presentText raw [key]
      else firstNonEmpty raw keys'
  end.

(** [date] and [snapshot_date] of a built row: the trimmed raw
    [snapshot_date] when that is not empty, else the trimmed text of the
    first of [date], [week], [week_id], [period] that is present. *)
Definition dateText (raw : RawRecord) : string :=
  if nonEmpty (presentText raw ["snapshot_date"])
  then presentText raw ["snapshot_date"]
  else presentText raw ["date"; "week"; "week_id"; "period"].

(** [query] of a built row. *)
Definition queryText (raw : RawRecord) (sourceFile : string) : string :=
  let aliases := presentText raw ["query"; "keyword"; "term"; "search_term"] in
  let route := presentText raw ["route"] in
  let airline := presentText raw ["airline"] in
  let season := presentText raw ["season"] in
  let vendor := presentText raw ["provider"; "category"; "topic"] in
  if nonEmpty aliases then aliases
  else if nonEmpty route || nonEmpty airline
  then join " " (List.filter nonEmpty [route; airline; season])
  else if nonEmpty vendor then vendor
  else sourceFile.

(** What a row holds under [key] when the text [value] is written only if
    it is not empty. *)
Definition written (value : string) : option Json :=
  if nonEmpty value then Some (JStr value) else None.

(** The rows a file of the directory contributes: those it parses into,
    none when its name has no supported suffix or its parsing throws. *)
Definition fileRows `{Host} (dir : Trends.Directory) (fileName : string)
  : list TrendRow :=
  default []
    (suffix ← Trends.suffixOf fileName;
     Trends.loadTrendRowsFromFile dir fileName suffix).


(** The criteria with the snapshot-date filter taken away. *)
Definition withoutSnapshotDate (filters : Trends.AirfareTrendFilters)
  : Trends.AirfareTrendFilters :=
  {| Trends.snapshotDate := None;
     Trends.routeContains := Trends.routeContains filters;
     Trends.originAirport := Trends.originAirport filters;
     Trends.destinationAirport := Trends.destinationAirport filters;
     Trends.airlineContains := Trends.airlineContains filters;
     Trends.seasonContains := Trends.seasonContains filters;
     Trends.notableContains := Trends.notableContains filters;
     Trends.limit := Trends.limit filters |}.

(** The echo the specification describes: the criteria as applied, with
    the clamped limit. *)
Definition normalizedEcho (filters : Trends.AirfareTrendFilters)
  : Trends.Echo.t :=
  {| Trends.Echo.snapshot_date := Trends.snapshotDate filters;
     Trends.Echo.route_contains := Trends.routeContains filters;
     Trends.Echo.origin_airport := Trends.originAirport filters;
     Trends.Echo.destination_airport := Trends.destinationAirport filters;
     Trends.Echo.airline_contains := Trends.airlineContains filters;
     Trends.Echo.season_contains := Trends.seasonContains filters;
     Trends.Echo.notable_contains := Trends.notableContains filters;
     Trends.Echo.limit :=
       clamp (default Trends.DEFAULT_LIMIT (Trends.limit filters)) 1
             Trends.MAX_LIMIT |}.



(** What the sorts ask of the collation: [localeCompare] is the three-way
    comparison of a total preorder on strings. Two different strings may
    compare as equal. *)
Class CollationPreorder `{Host} : Prop := {
  compare_antisym : forall a b,
    Z.sgn (localeCompare b a) = - Z.sgn (localeCompare a b);
  compare_trans : forall a b c,
    localeCompare a b <= 0 -> localeCompare b c <= 0 -> localeCompare a c <= 0
}.


End Spec.

(** ** What the further properties speak of *)

Module Shape.

Import JsString.

(** The [source_format] a suffix stands for. *)
Definition formatName (suffix : Trends.Suffix) : string :=
  match suffix with
  | Trends.csv => "csv"
  | Trends.tsv => "tsv"
  | Trends.json => "json"
  end.

(** [row] is a row [buildRow] built for the file [f] of format [fmt]. *)
Definition builtFor `{Host} (f fmt : string) (row : TrendRow) : Prop :=
  exists raw, row = Trends.buildRow raw f fmt.

(** [row] holds a string under [key]. *)
Definition holdsText (row : TrendRow) (key : string) : Prop :=
  exists text, row !! key = Some (JStr text).

(** A line of a tabular file that is data: not blank, and no comment. *)
Definition isDataLine (line : string) : bool :=
  nonEmpty (trim line) && negb (startsWith (trim line) "#").

(** The text of a comment line that can serve as the header. *)
Definition headerCandidate (delimiter line : string) : option string :=
  if nonEmpty (trim line) && startsWith (trim line) "#"
     && includes (trim (Trends.slice1 (trim line))) delimiter
  then Some (trim (Trends.slice1 (trim line)))
  else None.

(** The first header candidate among [lines]. *)
Fixpoint firstHeader (delimiter : string) (lines : list string)
  : option string :=
  match lines with
  | [] => None
  | line :: lines' =>
      match headerCandidate delimiter line with
      | Some header => Some header
      | None => firstHeader delimiter lines'
      end
  end.

(** The defaults the JSON loader gives the entries of the region
    [regionName]: the object literal [{ region, week, channel_checks }],
    a property whose value is [undefined] standing for none. *)
Definition regionDefaults (regionName : string)
    (weekValue channelChecks : option Json) : RawRecord :=
  Trends.setField "channel_checks" channelChecks
    (Trends.setField "week" weekValue (<["region" := JStr regionName]> ∅)).

(** The entries a region of a JSON document is read as: the object-like
    entries of its [top_queries] when that is an array, else the region
    itself. *)
Definition regionEntries (regionPayload : Json) : list RawRecord :=
  match asRecord regionPayload !! "top_queries" with
  | Some (JArr topQueries) =>
      asRecord <$> List.filter isObjectLike topQueries
  | _ => [asRecord regionPayload]
  end.

(** The records a document with [regions] hands to [buildRow], in order:
    each entry of each object-like region, over that region's defaults. *)
Definition regionRecords (fields : list (string * Json)) (regions : Json)
  : list RawRecord :=
  flat_map
    (fun '(regionName, regionPayload) =>
       if isObjectLike regionPayload then
         (fun data =>
            data ∪ regionDefaults regionName (objectRecord fields !! "week")
                     (asRecord regionPayload !! "channel_checks"))
         <$> regionEntries regionPayload
       else [])
    (Trends.entriesOf regions).

(** No object inside [v], at any depth, has a property named
    [toString]. *)
Fixpoint plain (v : Json) : bool :=
  match v with
  | JObj fields =>
      negb (existsb (fun kv => String.eqb kv.1 "toString") fields)
      && forallb (fun '(_, x) => plain x) fields
  | JArr items => forallb plain items
  | _ => true
  end.

(** Every value of the record is plain. *)
Definition plainRecord (raw : RawRecord) : Prop :=
  forall k x, raw !! k = Some x -> plain x = true.

(** No character of [s] satisfies [p]. *)
Fixpoint noChar (p : ascii -> bool) (s : string) : bool :=
  match s with
  | EmptyString => true
  | String c s' => negb (p c) && noChar p s'
  end.

(** The criteria with every filter but the limit absent. *)
Definition onlyLimit (limit : option Z) : Trends.AirfareTrendFilters :=
  {| Trends.snapshotDate := None;
     Trends.routeContains := None;
     Trends.originAirport := None;
     Trends.destinationAirport := None;
     Trends.airlineContains := None;
     Trends.seasonContains := None;
     Trends.notableContains := None;
     Trends.limit := limit |}.

(** The criteria with the origin filter alone. *)
Definition onlyOrigin (origin : string) : Trends.AirfareTrendFilters :=
  {| Trends.snapshotDate := None;
     Trends.routeContains := None;
     Trends.originAirport := Some origin;
     Trends.destinationAirport := None;
     Trends.airlineContains := None;
     Trends.seasonContains := None;
     Trends.notableContains := None;
     Trends.limit := None |}.

(** The criteria with every text filter trimmed and put in lower case,
    and the snapshot date trimmed. *)
Definition normalizedFilters (filters : Trends.AirfareTrendFilters)
  : Trends.AirfareTrendFilters :=
  let lower := fun text => toLowerCase (trim text) in
  {| Trends.snapshotDate := trim <$> Trends.snapshotDate filters;
     Trends.routeContains := lower <$> Trends.routeContains filters;
     Trends.originAirport := lower <$> Trends.originAirport filters;
     Trends.destinationAirport := lower <$> Trends.destinationAirport filters;
     Trends.airlineContains := lower <$> Trends.airlineContains filters;
     Trends.seasonContains := lower <$> Trends.seasonContains filters;
     Trends.notableContains := lower <$> Trends.notableContains filters;
     Trends.limit := Trends.limit filters |}.

(** The number two digits write. *)
Definition twoDigits (a b : ascii) : Z := 10 * digitValue a + digitValue b.

(** The string YYYY-MM-DD (or with slashes) of eight digits and two
    separators. *)
Definition dateString (y1 y2 y3 y4 s1 m1 m2 s2 d1 d2 : ascii) : string :=
  String y1 (String y2 (String y3 (String y4 (String s1
    (String m1 (String m2 (String s2 (String d1 (String d2 EmptyString))))))))).

End Shape.

(** * Properties *)

(** ** The embedding on concrete inputs *)

Section Checks.

Import JsString JsDate Trends.

Example trim_strips_both_ends : trim "  JFK - LHR  " = "JFK - LHR".
Proof. reflexivity. Qed.

Example split_with_limit_drops_the_rest : split "-" 2 "A-B-C" = ["A"; "B"].
Proof. reflexivity. Qed.

Example split_of_separator_runs :
  splitRuns Auth.isScopeSeparator " a,, b " = [""; "a"; "b"; ""].
Proof. reflexivity. Qed.

Example lines_of_a_windows_file :
  splitLines (String "a" (String "013" (String "010" (String "b" ""))))
  = ["a"; "b"].
Proof. reflexivity. Qed.

Example extname_of_names :
  List.map extname ["fares.csv"; "Fares.JSON"; ".csv"; "a.b.tsv"; "README"]
  = [".csv"; ".JSON"; ""; ".tsv"; ""].
Proof. reflexivity. Qed.

Example UTC_of_a_day : UTC 2024 7 19 = Some 1724025600000.
Proof. reflexivity. Qed.

Example UTC_month_overflow : UTC 2024 12 1 = UTC 2025 0 1.
Proof. reflexivity. Qed.

Example weekday_of_a_monday : getUTCDay 1724025600000 = 1.
Proof. reflexivity. Qed.

Example toISOString_of_a_day :
  toISOString 1724025600000 = "2024-08-19T00:00:00.000Z".
Proof. reflexivity. Qed.

Example toISOString_before_the_epoch :
  toISOString (-1) = "1969-12-31T23:59:59.999Z".
Proof. reflexivity. Qed.

Example ToString_of_values :
  List.map ToString
    [JStr "a"; JBool true; JNum (Num "1.5"); JArr [JStr "a"; JNull; JStr "b"];
     JObj []]
  = ["a"; "true"; "1.5"; "a,,b"; "[object Object]"].
Proof. reflexivity. Qed.

End Checks.

(** ** Strings: what [trim] leaves *)

Section TrimFacts.

Import JsString.

Lemma app_cons (c : ascii) (s t : string) :
  String c s +:+ t = String c (s +:+ t).
Proof. reflexivity. Qed.

Lemma app_empty_r (s : string) : s +:+ "" = s.
Proof. induction s as [|c s IH]; [done|]. by rewrite app_cons, IH. Qed.

Lemma app_assoc_string (s t u : string) : (s +:+ t) +:+ u = s +:+ (t +:+ u).
Proof. induction s as [|c s IH]; [done|]. by rewrite !app_cons, IH. Qed.

Lemma rev_app_append (s t : string) :
  String.rev_app s t = String.rev s +:+ t.
Proof.
  unfold String.rev. revert t.
  induction s as [|c s IH]; intros t; simpl; [done|].
  rewrite (IH (String c "")), IH, app_assoc_string. done.
Qed.

Lemma rev_cons (c : ascii) (s : string) :
  String.rev (String c s) = String.rev s +:+ String c "".
Proof. unfold String.rev at 1. simpl. apply rev_app_append. Qed.

Lemma rev_append (s t : string) :
  String.rev (s +:+ t) = String.rev t +:+ String.rev s.
Proof.
  induction s as [|c s IH].
  - by rewrite app_empty_r.
  - by rewrite app_cons, !rev_cons, IH, app_assoc_string.
Qed.

Lemma rev_involutive (s : string) : String.rev (String.rev s) = s.
Proof.
  induction s as [|c s IH]; [done|].
  by rewrite rev_cons, rev_append, IH.
Qed.

Lemma trimStart_headOk (s : string) : headOk (trimStart s) = true.
Proof.
  induction s as [|c s IH]; simpl; [done|].
  destruct (isWhitespace c) eqn:Hc; [done|]. simpl. by rewrite Hc.
Qed.

Lemma trimStart_fixed (s : string) : headOk s = true -> trimStart s = s.
Proof. destruct s as [|c s]; simpl; [done|]. by destruct (isWhitespace c). Qed.

Lemma trimStart_suffix (s : string) : exists p, s = p +:+ trimStart s.
Proof.
  induction s as [|c s [p IH]]; simpl; [by exists ""|].
  destruct (isWhitespace c).
  - exists (String c p). by rewrite app_cons, <- IH.
  - by exists "".
Qed.

Lemma trimEnd_prefix (s : string) : exists q, s = trimEnd s +:+ q.
Proof.
  unfold trimEnd. destruct (trimStart_suffix (String.rev s)) as [p Hp].
  exists (String.rev p).
  rewrite <- rev_append, <- Hp. by rewrite rev_involutive.
Qed.

Lemma trimEnd_lastOk (s : string) : lastOk (trimEnd s) = true.
Proof.
  unfold lastOk, trimEnd. rewrite rev_involutive. apply trimStart_headOk.
Qed.

Lemma trimEnd_fixed (s : string) : lastOk s = true -> trimEnd s = s.
Proof.
  unfold lastOk, trimEnd. intros Hs.
  by rewrite trimStart_fixed, rev_involutive.
Qed.

Lemma trimEnd_headOk (s : string) : headOk s = true -> headOk (trimEnd s) = true.
Proof.
  intros Hs. destruct (trimEnd_prefix s) as [q Hq].
  destruct (trimEnd s) as [|c t]; [done|].
  rewrite Hq in Hs. exact Hs.
Qed.

Lemma trim_headOk (s : string) : headOk (trim s) = true.
Proof. apply trimEnd_headOk, trimStart_headOk. Qed.

Lemma trim_lastOk (s : string) : lastOk (trim s) = true.
Proof. apply trimEnd_lastOk. Qed.

Lemma trim_fixed (s : string) :
  headOk s = true -> lastOk s = true -> trim s = s.
Proof.
  intros Hh Hl. unfold trim. rewrite (trimStart_fixed s Hh).
  by apply trimEnd_fixed.
Qed.

Lemma trim_trim (s : string) : trim (trim s) = trim s.
Proof. apply trim_fixed; [apply trim_headOk|apply trim_lastOk]. Qed.

Lemma headOk_append (s t : string) :
  nonEmpty s = true -> headOk s = true -> headOk (s +:+ t) = true.
Proof. by destruct s. Qed.

Lemma lastOk_append (s t : string) :
  nonEmpty t = true -> lastOk t = true -> lastOk (s +:+ t) = true.
Proof.
  unfold lastOk. intros Hn Hl. rewrite rev_append.
  apply headOk_append; [|done].
  destruct t as [|c t]; [done|]. rewrite rev_cons.
  by destruct (String.rev t).
Qed.

Lemma nonEmpty_append_l (s t : string) :
  nonEmpty s = true -> nonEmpty (s +:+ t) = true.
Proof. by destruct s. Qed.

End TrimFacts.

(** ** Records *)

Section RowLookups.

Import Trends.

Lemma lookup_setField_ne (k k' : string) (v : option Json) (r : TrendRow) :
  k ≠ k' -> setField k v r !! k' = r !! k'.
Proof. intros Hne. destruct v; simpl; [by rewrite lookup_insert_ne|done]. Qed.

Lemma lookup_setField_eq (k : string) (v : option Json) (r : TrendRow) :
  setField k v r !! k = match v with Some x => Some x | None => r !! k end.
Proof. destruct v; simpl; [by rewrite lookup_insert_eq|done]. Qed.

Lemma lookup_setNonEmpty_ne (k k' : string) (v : option string) (r : TrendRow) :
  k ≠ k' -> setNonEmpty k v r !! k' = r !! k'.
Proof.
  intros Hne. destruct v as [v|]; simpl; [|done].
  destruct (JsString.nonEmpty v); [by rewrite lookup_insert_ne|done].
Qed.

Lemma lookup_setNonEmpty_eq (k : string) (v : string) (r : TrendRow) :
  r !! k = None -> setNonEmpty k (Some v) r !! k = Spec.written v.
Proof.
  intros Hr. unfold setNonEmpty, Spec.written.
  destruct (JsString.nonEmpty v); [by rewrite lookup_insert_eq|done].
Qed.

Lemma lookup_copyOptionalKeys (raw : RawRecord) (k' : string) (r : TrendRow) :
  k' ∉ OPTIONAL_COPY_KEYS -> copyOptionalKeys raw r !! k' = r !! k'.
Proof.
  unfold copyOptionalKeys. generalize OPTIONAL_COPY_KEYS as keys.
  intros keys. revert r. induction keys as [|k keys IH]; intros r Hk; [done|].
  simpl. rewrite IH by set_solver.
  destruct (isBlank (raw !! k)); [done|].
  apply lookup_setField_ne. set_solver.
Qed.

Lemma lookup_setFares `{Host} (raw : RawRecord) (k : string) (r : TrendRow) :
  k ∉ ["avg_fare_usd"; "premium_fare_usd"; "fare_yoy_pct";
       "advance_purchase_days"; "load_factor_pct"; "ancillary_revenue_pct"] ->
  setFares raw r !! k = r !! k.
Proof.
  intros Hk. unfold setFares.
  rewrite !lookup_setField_ne; [done|set_solver..].
Qed.

Lemma lookup_setNotableDriver (raw : RawRecord) (k : string) (r : TrendRow) :
  k ∉ ["notable_driver"; "notable_event"] -> setNotableDriver raw r !! k = r !! k.
Proof.
  intros Hk. unfold setNotableDriver.
  destruct (JsString.nonEmpty _); [|done].
  rewrite !lookup_insert_ne; [done|set_solver..].
Qed.

Lemma lookup_setRoute (route k : string) (r : TrendRow) :
  k ∉ ["route"; "origin_airport"; "destination_airport"] ->
  setRoute route r !! k = r !! k.
Proof.
  intros Hk. unfold setRoute.
  destruct (JsString.nonEmpty route); [|done].
  destruct (JsString.includesChar route "-").
  - rewrite !lookup_setNonEmpty_ne, lookup_insert_ne; [done|set_solver..].
  - rewrite lookup_insert_ne; [done|set_solver].
Qed.

Lemma buildRow_lookup_initial `{Host} (raw : RawRecord) (sf fmt k : string) :
  k ∉ laterKeys ->
  buildRow raw sf fmt !! k = initialRow raw sf fmt !! k.
Proof.
  unfold laterKeys. intros Hk. unfold buildRow.
  rewrite lookup_setNotableDriver, lookup_setFares by set_solver.
  rewrite !lookup_setNonEmpty_ne by set_solver.
  rewrite lookup_setRoute, lookup_copyOptionalKeys by set_solver.
  done.
Qed.

(** An alias chain reads the first alias that is present. *)
Lemma chainText_1 (raw : RawRecord) (a : string) :
  chainText (raw !! a) = Spec.presentText raw [a].
Proof.
  unfold chainText, Spec.presentText. simpl.
  by destruct (raw !! a) as [[]|].
Qed.

Lemma chainText_3 (raw : RawRecord) (a b c : string) :
  chainText (raw !! a ?? raw !! b ?? raw !! c) = Spec.presentText raw [a; b; c].
Proof.
  unfold chainText, Spec.presentText. simpl.
  destruct (raw !! a) as [[]|]; try done;
  destruct (raw !! b) as [[]|]; try done;
  by destruct (raw !! c) as [[]|].
Qed.

Lemma chainText_4 (raw : RawRecord) (a b c d : string) :
  chainText (raw !! a ?? raw !! b ?? raw !! c ?? raw !! d)
  = Spec.presentText raw [a; b; c; d].
Proof.
  unfold chainText, Spec.presentText. simpl.
  destruct (raw !! a) as [[]|]; try done;
  destruct (raw !! b) as [[]|]; try done;
  destruct (raw !! c) as [[]|]; try done;
  by destruct (raw !! d) as [[]|].
Qed.

Lemma presentText_headOk (raw : RawRecord) (keys : list string) :
  JsString.headOk (Spec.presentText raw keys) = true.
Proof.
  unfold Spec.presentText. destruct (Spec.firstPresent raw keys); [|done].
  apply trim_headOk.
Qed.

Lemma presentText_lastOk (raw : RawRecord) (keys : list string) :
  JsString.lastOk (Spec.presentText raw keys) = true.
Proof.
  unfold Spec.presentText. destruct (Spec.firstPresent raw keys); [|done].
  apply trim_lastOk.
Qed.

End RowLookups.


(** ** Row derivation *)

Section RowDerivation.

Context `{Host}.
Import Trends JsString.

Ltac not_in := by apply (bool_decide_unpack _); vm_compute.

Lemma lookup_initialRow_date (raw : RawRecord) (sf fmt : string) :
  initialRow raw sf fmt !! "date" = Some (JStr (dateValue raw)).
Proof.
  unfold initialRow. cbn [fold_left fst snd].
  rewrite !lookup_setField_ne by done. by rewrite lookup_setField_eq.
Qed.

Lemma lookup_initialRow_snapshot_date (raw : RawRecord) (sf fmt : string) :
  initialRow raw sf fmt !! "snapshot_date"
  = Some (JStr (if nonEmpty (snapshotDateValue raw)
                then snapshotDateValue raw else dateValue raw)).
Proof.
  unfold initialRow. cbn [fold_left fst snd].
  rewrite !lookup_setField_ne by done. by rewrite lookup_setField_eq.
Qed.

Lemma lookup_initialRow_query (raw : RawRecord) (sf fmt : string) :
  initialRow raw sf fmt !! "query"
  = Some (JStr (if nonEmpty (queryValue raw) then queryValue raw else sf)).
Proof.
  unfold initialRow. cbn [fold_left fst snd].
  rewrite !lookup_setField_ne by done. by rewrite lookup_setField_eq.
Qed.

Lemma lookup_initialRow_other (raw : RawRecord) (sf fmt k : string) :
  k ∉ ["query"; "date"; "snapshot_date"; "region"; "search_index";
       "branding_mix"; "notable_event"; "source_file"; "source_format"] ->
  initialRow raw sf fmt !! k = None.
Proof.
  intros Hk. unfold initialRow. cbn [fold_left fst snd].
  rewrite !lookup_setField_ne by set_solver. apply lookup_empty.
Qed.

Lemma dateValue_spec (raw : RawRecord) : dateValue raw = Spec.dateText raw.
Proof.
  unfold dateValue, Spec.dateText, snapshotDateValue.
  by rewrite chainText_1, chainText_4.
Qed.

(** C5, as amended: [date] is the trimmed raw [snapshot_date] when that is
    not empty, and otherwise the trimmed text of the first of [date],
    [week], [week_id], [period] that is present (neither [null] nor
    [undefined]), which may be the empty string; [snapshot_date] holds the
    same text as [date]. *)
Theorem C5_date_is_first_present_alias (raw : RawRecord) (sourceFile sourceFormat : string) :
  buildRow raw sourceFile sourceFormat !! "date"
    = Some (JStr (Spec.dateText raw)) /\
  buildRow raw sourceFile sourceFormat !! "snapshot_date"
    = Some (JStr (Spec.dateText raw)).
Proof.
  split.
  - rewrite buildRow_lookup_initial by not_in.
    by rewrite lookup_initialRow_date, dateValue_spec.
  - rewrite buildRow_lookup_initial by not_in.
    rewrite lookup_initialRow_snapshot_date. do 2 f_equal.
    rewrite dateValue_spec. unfold Spec.dateText, snapshotDateValue.
    rewrite chainText_1. by destruct (nonEmpty _).
Qed.

Lemma join_trimmed (route airline season : string) :
  headOk route = true -> lastOk route = true ->
  headOk airline = true -> lastOk airline = true ->
  headOk season = true -> lastOk season = true ->
  nonEmpty route || nonEmpty airline = true ->
  trim (join " " (List.filter nonEmpty [route; airline; season]))
    = join " " (List.filter nonEmpty [route; airline; season]) /\
  nonEmpty (join " " (List.filter nonEmpty [route; airline; season])) = true.
Proof.
  intros Hr1 Hr2 Ha1 Ha2 Hs1 Hs2 Hne. unfold join. simpl.
  destruct (nonEmpty route) eqn:Er, (nonEmpty airline) eqn:Ea,
    (nonEmpty season) eqn:Es; simpl in *; try done;
    (split; [apply trim_fixed|]);
    repeat first
      [ done
      | apply headOk_append; [done|done]
      | apply nonEmpty_append_l; done
      | apply lastOk_append; [by apply nonEmpty_append_l|]
      | apply lastOk_append; [done|done] ].
Qed.

Lemma queryValue_spec (raw : RawRecord) (sf : string) :
  (if nonEmpty (queryValue raw) then queryValue raw else sf)
  = Spec.queryText raw sf.
Proof.
  unfold queryValue, Spec.queryText.
  rewrite chainText_4, chainText_3, !chainText_1.
  set (aliases := Spec.presentText raw _).
  set (route := Spec.presentText raw ["route"]).
  set (airline := Spec.presentText raw ["airline"]).
  set (season := Spec.presentText raw ["season"]).
  set (vendor := Spec.presentText raw _).
  cbv zeta.
  destruct (nonEmpty aliases) eqn:Eq; [by rewrite Eq|].
  destruct (nonEmpty route || nonEmpty airline) eqn:Era.
  - destruct (join_trimmed route airline season) as [Ht Hn];
      try apply presentText_headOk; try apply presentText_lastOk; [done|].
    rewrite Ht, Hn. by rewrite Hn.
  - rewrite Eq. by destruct (nonEmpty vendor) eqn:Ev; rewrite ?Ev.
Qed.

Lemma queryText_nonEmpty (raw : RawRecord) (sf : string) :
  nonEmpty sf = true -> nonEmpty (Spec.queryText raw sf) = true.
Proof.
  intros Hsf. unfold Spec.queryText.
  set (route := Spec.presentText raw ["route"]).
  set (airline := Spec.presentText raw ["airline"]).
  set (season := Spec.presentText raw ["season"]).
  cbv zeta.
  destruct (nonEmpty (Spec.presentText raw ["query"; _; _; _])) eqn:Eq; [done|].
  destruct (nonEmpty route || nonEmpty airline) eqn:Era.
  - apply (join_trimmed route airline season);
      try apply presentText_headOk; try apply presentText_lastOk; done.
  - by destruct (nonEmpty (Spec.presentText raw ["provider"; _; _])) eqn:Ev.
Qed.

(** C9, as amended: for a source file name that is not empty, [query] is
    never empty; it is the trimmed text of the first of [query],
    [keyword], [term], [search_term] that is present when that text is not
    empty; else, when [route] or [airline] is not empty, the space-joined
    non-empty values of [route], [airline], [season]; else the trimmed text
    of the first of [provider], [category], [topic] that is present when
    not empty; else the source file name. *)
Theorem C9_query_falls_back_to_a_non_empty_text (raw : RawRecord) (sourceFile sourceFormat : string) :
  nonEmpty sourceFile = true ->
  buildRow raw sourceFile sourceFormat !! "query"
    = Some (JStr (Spec.queryText raw sourceFile)) /\
  nonEmpty (Spec.queryText raw sourceFile) = true.
Proof.
  intros Hsf. split; [|by apply queryText_nonEmpty].
  rewrite buildRow_lookup_initial by not_in.
  by rewrite lookup_initialRow_query, queryValue_spec.
Qed.

End RowDerivation.

(** ** The route and its two airports *)

Section RouteSplit.

Context `{Host}.
Import Trends JsString.

Ltac not_in := by apply (bool_decide_unpack _); vm_compute.

Lemma splitChar_head (c : ascii) (s : string) :
  exists rest, splitChar c s = Spec.upTo c s :: rest.
Proof.
  induction s as [|a s [rest IH]]; simpl; [by eexists|].
  destruct (Ascii.eqb a c); [by eexists|]. rewrite IH. by eexists.
Qed.

Lemma includesChar_cons (a c : ascii) (s : string) :
  includesChar (String a s) c = Ascii.eqb a c || includesChar s c.
Proof.
  unfold includesChar. simpl.
  destruct (Ascii.eqb_spec a c) as [->|Hne].
  - destruct (ascii_dec c c); [|done]. by destruct s.
  - destruct (ascii_dec c a); [by subst|done].
Qed.

Lemma splitChar_includes (c : ascii) (s : string) :
  includesChar s c = true ->
  splitChar c s = Spec.upTo c s :: splitChar c (Spec.after c s).
Proof.
  induction s as [|a s IH]; [done|].
  rewrite includesChar_cons. simpl.
  destruct (Ascii.eqb a c); simpl; [done|].
  intros Hs. by rewrite (IH Hs).
Qed.

Lemma split_two (c : ascii) (s : string) :
  includesChar s c = true ->
  split c 2 s = [Spec.upTo c s; Spec.upTo c (Spec.after c s)].
Proof.
  intros Hs. unfold split. rewrite (splitChar_includes c s Hs).
  by destruct (splitChar_head c (Spec.after c s)) as [rest ->].
Qed.

Lemma includesChar_nonEmpty (c : ascii) (s : string) :
  includesChar s c = true -> nonEmpty s = true.
Proof. by destruct s. Qed.

Lemma lookup_setNonEmpty_congr (key k : string) (v : option string)
    (r r' : TrendRow) :
  r !! k = r' !! k -> setNonEmpty key v r !! k = setNonEmpty key v r' !! k.
Proof.
  intros Hr. unfold setNonEmpty. destruct v as [v|]; [|done].
  destruct (nonEmpty v); [|done].
  rewrite !lookup_insert. by case_decide.
Qed.

Lemma lookup_setRoute_congr (route k : string) (r r' : TrendRow) :
  r !! k = r' !! k -> setRoute route r !! k = setRoute route r' !! k.
Proof.
  intros Hr. unfold setRoute. destruct (nonEmpty route); [|done].
  assert (<["route":=JStr route]> r !! k = <["route":=JStr route]> r' !! k)
    as Hroute by (rewrite !lookup_insert; by case_decide).
  destruct (includesChar route "-"); [|done].
  by do 2 apply lookup_setNonEmpty_congr.
Qed.

Lemma buildRow_lookup_route_block (raw : RawRecord) (sf fmt k : string) :
  k ∈ ["route"; "origin_airport"; "destination_airport"] ->
  buildRow raw sf fmt !! k
  = setRoute (Spec.presentText raw ["route"]) ∅ !! k.
Proof.
  intros Hk. unfold buildRow. rewrite !chainText_1.
  rewrite lookup_setNotableDriver, lookup_setFares by set_solver.
  rewrite !lookup_setNonEmpty_ne by set_solver.
  apply lookup_setRoute_congr.
  rewrite lookup_copyOptionalKeys by (unfold OPTIONAL_COPY_KEYS; set_solver).
  rewrite lookup_empty. apply lookup_initialRow_other. set_solver.
Qed.

(** C6, as amended: when the trimmed [route] of a raw record contains a
    ['-'], the built row holds that route, [origin_airport] is the trimmed
    text before the first ['-'] and [destination_airport] the trimmed text
    between the first ['-'] and the second one (up to the end of the route
    when there is no second one), either airport being left out when its
    text is empty; and the CSV row of the example yields the six values
    the specification lists. *)
Theorem C6_route_is_split_at_its_first_two_dashes (raw : RawRecord) (sourceFile sourceFormat : string) :
  includesChar (Spec.presentText raw ["route"]) "-" = true ->
  (buildRow raw sourceFile sourceFormat !! "route"
     = Some (JStr (Spec.presentText raw ["route"])) /\
   buildRow raw sourceFile sourceFormat !! "origin_airport"
     = Spec.written (trim (Spec.upTo "-" (Spec.presentText raw ["route"]))) /\
   buildRow raw sourceFile sourceFormat !! "destination_airport"
     = Spec.written
         (trim (Spec.upTo "-" (Spec.after "-" (Spec.presentText raw ["route"]))))) /\
  (buildRow Reference.acmeRecord sourceFile "csv" !! "route"
     = Some (JStr "JFK-LHR") /\
   buildRow Reference.acmeRecord sourceFile "csv" !! "origin_airport"
     = Some (JStr "JFK") /\
   buildRow Reference.acmeRecord sourceFile "csv" !! "destination_airport"
     = Some (JStr "LHR") /\
   buildRow Reference.acmeRecord sourceFile "csv" !! "airline"
     = Some (JStr "Acme Air") /\
   buildRow Reference.acmeRecord sourceFile "csv" !! "season"
     = Some (JStr "Summer") /\
   buildRow Reference.acmeRecord sourceFile "csv" !! "query"
     = Some (JStr "JFK-LHR Acme Air Summer")).
Proof.
  intros Hdash. split.
  - rewrite !buildRow_lookup_route_block by set_solver.
    unfold setRoute. rewrite (includesChar_nonEmpty _ _ Hdash), Hdash.
    rewrite (split_two _ _ Hdash). cbn [List.map lookup list_lookup].
    cbv zeta. repeat split.
    + by rewrite !lookup_setNonEmpty_ne, lookup_insert_eq.
    + rewrite lookup_setNonEmpty_ne by done.
      apply lookup_setNonEmpty_eq. by rewrite lookup_insert_ne.
    + apply lookup_setNonEmpty_eq.
      by rewrite lookup_setNonEmpty_ne, lookup_insert_ne.
  - repeat split; vm_compute; reflexivity.
Qed.

End RouteSplit.

(** ** Row derivation on the reference platform *)

Section RowExamples.

#[local] Existing Instance Reference.host.
Import Trends JsString.

(** C5, as stated, fails: a record whose [date] is present and empty and
    whose [week] is "2024-W03" gets the empty [date], where the first
    non-empty of the five raw fields is "2024-W03". *)
Lemma C5_empty_date_hides_week :
  buildRow Reference.emptyDateRecord "fares.csv" "csv" !! "date"
    = Some (JStr "") /\
  buildRow Reference.emptyDateRecord "fares.csv" "csv" !! "snapshot_date"
    = Some (JStr "") /\
  Spec.firstNonEmpty Reference.emptyDateRecord
    ["snapshot_date"; "date"; "week"; "week_id"; "period"] = "2024-W03".
Proof. repeat split; vm_compute; reflexivity. Qed.

(** C9, as stated, fails: a record whose [query] is present and empty and
    whose [keyword] is "airfare deals" gets the source file name as its
    [query], where the first non-empty of the four aliases is
    "airfare deals". *)
Lemma C9_empty_query_hides_keyword :
  buildRow Reference.emptyQueryRecord "fares.csv" "csv" !! "query"
    = Some (JStr "fares.csv") /\
  Spec.firstNonEmpty Reference.emptyQueryRecord
    ["query"; "keyword"; "term"; "search_term"] = "airfare deals".
Proof. repeat split; vm_compute; reflexivity. Qed.

(** C9 at the record of the example, whose aliases are all absent. *)
Lemma C9_query_witness :
  nonEmpty "fares.csv" = true /\
  buildRow Reference.acmeRecord "fares.csv" "csv" !! "query"
    = Some (JStr (Spec.queryText Reference.acmeRecord "fares.csv")) /\
  nonEmpty (Spec.queryText Reference.acmeRecord "fares.csv") = true.
Proof.
  split; [reflexivity|].
  exact (C9_query_falls_back_to_a_non_empty_text Reference.acmeRecord
           "fares.csv" "csv" eq_refl).
Defined.

(** C6, as stated, fails: for the route "JFK-LHR-CDG" the destination is
    "LHR", where everything after the first ['-'] is "LHR-CDG". *)
Lemma C6_second_dash_ends_the_destination :
  buildRow Reference.twoLegRecord "fares.csv" "csv" !! "destination_airport"
    = Some (JStr "LHR") /\
  Spec.after "-" (Spec.presentText Reference.twoLegRecord ["route"])
    = "LHR-CDG".
Proof. repeat split; vm_compute; reflexivity. Qed.

(** C6 at the two-leg route. *)
Lemma C6_route_witness :
  includesChar (Spec.presentText Reference.twoLegRecord ["route"]) "-" = true /\
  buildRow Reference.twoLegRecord "fares.csv" "csv" !! "destination_airport"
    = Spec.written
        (trim (Spec.upTo "-"
                 (Spec.after "-"
                    (Spec.presentText Reference.twoLegRecord ["route"])))).
Proof.
  assert (includesChar (Spec.presentText Reference.twoLegRecord ["route"]) "-"
          = true) as Hdash by (vm_compute; reflexivity).
  split; [exact Hdash|].
  exact (proj2 (proj2 (proj1
           (C6_route_is_split_at_its_first_two_dashes Reference.twoLegRecord
              "fares.csv" "csv" Hdash)))).
Defined.

End RowExamples.

(** ** Sorting *)

Section SortFacts.

Import Trends.

Context {A : Type} (cmp : A -> A -> ExtNum).

Lemma insertSorted_perm (x : A) (l : list A) :
  Permutation (insertSorted cmp x l) (x :: l).
Proof.
  induction l as [|y l IH]; simpl; [done|].
  destruct (isPositive (cmp x y)); [|done].
  rewrite IH. apply perm_swap.
Qed.

Lemma sort_perm (l : list A) : Permutation (sort cmp l) l.
Proof.
  induction l as [|x l IH]; simpl; [done|].
  rewrite insertSorted_perm. by constructor.
Qed.

Lemma sort_length (l : list A) : length (sort cmp l) = length l.
Proof. apply Permutation_length, sort_perm. Qed.

Hypothesis cmp_total :
  forall a b, isPositive (cmp a b) = true -> notAfter cmp b a.
Hypothesis cmp_trans :
  forall a b c, notAfter cmp a b -> notAfter cmp b c -> notAfter cmp a c.

Lemma insertSorted_sorted (x : A) (l : list A) :
  StronglySorted (notAfter cmp) l -> StronglySorted (notAfter cmp) (insertSorted cmp x l).
Proof.
  induction l as [|y l IH]; simpl; intros Hl.
  - by repeat constructor.
  - apply StronglySorted_inv in Hl as [Hl Hy].
    destruct (isPositive (cmp x y)) eqn:Hxy.
    + constructor; [by apply IH|].
      rewrite insertSorted_perm. constructor; [by apply cmp_total|done].
    + constructor; [by constructor|].
      constructor; [done|].
      eapply Forall_impl; [exact Hy|]. intros z Hz.
      by apply (cmp_trans x y z).
Qed.

Lemma sort_sorted (l : list A) : StronglySorted (notAfter cmp) (sort cmp l).
Proof.
  induction l as [|x l IH]; simpl; [constructor|].
  by apply insertSorted_sorted.
Qed.

(** The same for a comparator that is consistent on the elements that
    satisfy [P] only, against an order [R] it decides there. *)
Variables (P : A -> Prop) (R : A -> A -> Prop).
Hypothesis cmp_after : forall a b,
  P a -> P b -> isPositive (cmp a b) = true -> R b a.
Hypothesis cmp_before : forall a b,
  P a -> P b -> isPositive (cmp a b) = false -> R a b.
Hypothesis R_trans : forall a b c, P a -> P b -> P c -> R a b -> R b c -> R a c.



End SortFacts.


(** ** The query *)

Section QueryFacts.

Context `{Host}.
Import Trends JsString.

Lemma effectiveLimit_clamp (requested : option Z) :
  effectiveLimit requested
  = Spec.clamp (default DEFAULT_LIMIT requested) 1 MAX_LIMIT.
Proof.
  unfold effectiveLimit, Spec.clamp, MAX_LIMIT.
  destruct (Z.ltb_spec (default DEFAULT_LIMIT requested) 1);
    destruct (Z.ltb_spec 200 (default DEFAULT_LIMIT requested)); lia.
Qed.

Lemma effectiveLimit_range (requested : option Z) :
  1 <= effectiveLimit requested <= 200.
Proof. unfold effectiveLimit, MAX_LIMIT. lia. Qed.

(** The result of a query, by the size of the dataset. *)
Lemma query_empty (dir : Directory) (filters : AirfareTrendFilters) :
  rows (loadTrendDataset dir) = [] ->
  queryAirfareTrends dir filters
  = {| result_rows := [];
       available_files := availableFiles (loadTrendDataset dir);
       filters := AsGiven filters;
       total_rows := 0; matched_rows := 0; rows_returned := 0;
       trend_data_dir := resolved dir |}.
Proof.
  unfold queryAirfareTrends. destruct (loadTrendDataset dir) as [rs fs].
  simpl. by intros ->.
Qed.

Lemma query_nonempty (dir : Directory) (filters : AirfareTrendFilters) :
  rows (loadTrendDataset dir) <> [] ->
  queryAirfareTrends dir filters
  = let sortedRows :=
      sortRows (filterRows filters (rows (loadTrendDataset dir))) in
    let limitedRows :=
      take (Z.to_nat (effectiveLimit (limit filters))) sortedRows in
    {| result_rows := limitedRows;
       available_files := availableFiles (loadTrendDataset dir);
       filters := Normalized (Spec.normalizedEcho filters);
       total_rows := length (rows (loadTrendDataset dir));
       matched_rows := length sortedRows;
       rows_returned := length limitedRows;
       trend_data_dir := resolved dir |}.
Proof.
  unfold queryAirfareTrends. destruct (loadTrendDataset dir) as [rs fs].
  simpl. intros Hrs. destruct rs as [|r rs]; [done|]. simpl.
  unfold Spec.normalizedEcho. by rewrite effectiveLimit_clamp.
Qed.

Lemma result_rows_query (dir : Directory) (filters : AirfareTrendFilters) :
  result_rows (queryAirfareTrends dir filters)
  = take (Z.to_nat (effectiveLimit (limit filters)))
      (sortRows (filterRows filters (rows (loadTrendDataset dir)))).
Proof.
  destruct (rows (loadTrendDataset dir)) as [|r rs] eqn:Hrows.
  - rewrite query_empty by done. simpl.
    unfold filterRows, sortRows. simpl. by rewrite take_nil.
  - rewrite query_nonempty by (by rewrite Hrows). simpl. by rewrite Hrows.
Qed.

(** C3: the effective limit is the requested limit, or 25 when there is
    none, clamped into 1..200, and the rows returned are the first
    effective-limit rows of the sorted matched rows; so at most 200 rows
    come back whatever the limit (1000 among them), and at most one for a
    limit of 0 or less. *)
Theorem C3_limit_is_clamped_and_slices_the_sorted_rows (dir : Directory) (filters : AirfareTrendFilters) :
  effectiveLimit (limit filters)
    = Spec.clamp (default DEFAULT_LIMIT (limit filters)) 1 MAX_LIMIT /\
  result_rows (queryAirfareTrends dir filters)
    = take (Z.to_nat (effectiveLimit (limit filters)))
        (sortRows (filterRows filters (rows (loadTrendDataset dir)))) /\
  (length (result_rows (queryAirfareTrends dir filters)) <= 200)%nat /\
  effectiveLimit (Some 1000) = 200 /\
  (forall n, limit filters = Some n -> n <= 0 ->
     effectiveLimit (limit filters) = 1 /\
     (length (result_rows (queryAirfareTrends dir filters)) <= 1)%nat).
Proof.
  split; [apply effectiveLimit_clamp|].
  split; [apply result_rows_query|].
  pose proof (effectiveLimit_range (limit filters)) as Hrange.
  split; [|split; [done|]].
  - rewrite result_rows_query, length_take. lia.
  - intros n Hn Hle. rewrite result_rows_query, length_take, Hn.
    unfold effectiveLimit, MAX_LIMIT. simpl. split; lia.
Qed.

(** The three counts of a result, for every dataset. *)
Lemma query_counts (dir : Directory) (filters : AirfareTrendFilters) :
  total_rows (queryAirfareTrends dir filters)
    = length (rows (loadTrendDataset dir)) /\
  matched_rows (queryAirfareTrends dir filters)
    = length (filterRows filters (rows (loadTrendDataset dir))) /\
  rows_returned (queryAirfareTrends dir filters)
    = length (result_rows (queryAirfareTrends dir filters)).
Proof.
  destruct (rows (loadTrendDataset dir)) as [|r rs] eqn:Hrows.
  - by rewrite query_empty.
  - rewrite query_nonempty by (by rewrite Hrows). simpl.
    rewrite Hrows. unfold sortRows. by rewrite sort_length.
Qed.

(** On a dataset that is not empty the echo is the criteria as applied,
    with the clamped limit. *)
Lemma query_echo_nonempty (dir : Directory) (filters : AirfareTrendFilters) :
  rows (loadTrendDataset dir) <> [] ->
  Trends.filters (queryAirfareTrends dir filters)
  = Normalized (Spec.normalizedEcho filters).
Proof. intros Hrows. by rewrite query_nonempty. Qed.

(** On an empty dataset the echo is the caller's object, untouched. *)
Lemma query_echo_empty (dir : Directory) (filters : AirfareTrendFilters) :
  rows (loadTrendDataset dir) = [] ->
  Trends.filters (queryAirfareTrends dir filters) = AsGiven filters.
Proof. intros Hrows. by rewrite query_empty. Qed.

Lemma parseIsoDate_fails (s : string) :
  matchDate (trim s) = None ->
  matchWeek (trim s) = None ->
  dateParse (trim s) = None ->
  parseIsoDate (Some s) = None.
Proof.
  intros Hd Hw Hp. unfold parseIsoDate.
  destruct (nonEmpty s); [|done]. simpl.
  destruct (nonEmpty (trim s)); [|done]. simpl.
  by rewrite Hd, Hw, Hp.
Qed.

(** C10: when the snapshot-date string of the criteria is present and
    fails the exact-date pattern, the ISO-week pattern and the free-form
    parse, every row passes the snapshot-date test, and the query returns
    what it returns without that filter: the same rows and the same
    counts. *)
Theorem C10_unparseable_snapshot_date_restricts_nothing (dir : Directory) (filters : AirfareTrendFilters) (s : string) :
  snapshotDate filters = Some s ->
  matchDate (trim s) = None ->
  matchWeek (trim s) = None ->
  dateParse (trim s) = None ->
  (forall routeFilter originFilter destinationFilter airlineFilter
          seasonFilter notableFilter row,
     keepRow (JsDate.toISOString <$> parseIsoDate (snapshotDate filters))
       routeFilter originFilter destinationFilter airlineFilter seasonFilter
       notableFilter row
     = keepRow None routeFilter originFilter destinationFilter airlineFilter
         seasonFilter notableFilter row) /\
  (forall rows,
     filterRows filters rows
     = filterRows (Spec.withoutSnapshotDate filters) rows) /\
  result_rows (queryAirfareTrends dir filters)
    = result_rows (queryAirfareTrends dir (Spec.withoutSnapshotDate filters)) /\
  matched_rows (queryAirfareTrends dir filters)
    = matched_rows (queryAirfareTrends dir (Spec.withoutSnapshotDate filters)) /\
  rows_returned (queryAirfareTrends dir filters)
    = rows_returned (queryAirfareTrends dir (Spec.withoutSnapshotDate filters)).
Proof.
  intros Hs Hd Hw Hp.
  assert (parseIsoDate (snapshotDate filters) = None) as Hnone
    by (rewrite Hs; by apply parseIsoDate_fails).
  assert (forall rows, filterRows filters rows
                       = filterRows (Spec.withoutSnapshotDate filters) rows)
    as Hfilter.
  { intros rs. unfold filterRows. by rewrite Hnone. }
  split; [by rewrite Hnone|]. split; [exact Hfilter|].
  destruct (query_counts dir filters) as (_ & Hm & Hr).
  destruct (query_counts dir (Spec.withoutSnapshotDate filters))
    as (_ & Hm' & Hr').
  assert (result_rows (queryAirfareTrends dir filters)
          = result_rows (queryAirfareTrends dir (Spec.withoutSnapshotDate filters)))
    as Hrows by (by rewrite !result_rows_query, Hfilter).
  split; [exact Hrows|]. split.
  - by rewrite Hm, Hm', Hfilter.
  - by rewrite Hr, Hr', Hrows.
Qed.

End QueryFacts.

(** ** The order of the rows *)

Section RowOrder.

Context `{Host} `{!Spec.CollationPreorder}.
Import Trends JsString.



(** The route-or-query values of [a] and [b] are the same string if the
    collation takes them for equal. *)
Local Abbreviation apart a b :=
  (localeCompare (routeKey a) (routeKey b) = 0 -> routeKey a = routeKey b).









End RowOrder.

(** ** The query on the reference platform *)

Section QueryExamples.

#[local] Existing Instance Reference.host.
Import Trends JsString.

Lemma compareStrings_le (a b : string) :
  Reference.compareStrings a b <= 0 <-> String.le a b.
Proof.
  unfold Reference.compareStrings, String.le, String.leb.
  destruct (String.compare a b); simpl; split; (done || lia).
Qed.

Lemma reference_collation : Spec.CollationPreorder.
Proof.
  split; simpl.
  - intros a b. unfold Reference.compareStrings.
    rewrite (String.compare_antisym a b).
    by destruct (String.compare b a).
  - intros a b c. rewrite !compareStrings_le. apply transitivity.
Qed.



(** The five fare rows come back by date descending, the undated row
    last, ties by route and then by airline, the empty airline first. *)
Example fares_sorted :
  (fun row => (row !! "snapshot_date", row !! "route", row !! "airline"))
    <$> result_rows (queryAirfareTrends Reference.faresDir Reference.noFilters)
  = [ (Some (JStr "2024-08-26"), Some (JStr "BOS-DUB"), Some (JStr "Emerald"));
      (Some (JStr "2024-08-19"), Some (JStr "JFK-LHR"), None);
      (Some (JStr "2024-08-19"), Some (JStr "JFK-LHR"), Some (JStr "Acme Air"));
      (Some (JStr "2024-W34"), Some (JStr "LAX-NRT"), Some (JStr "Zen Air"));
      (Some (JStr "unknown"), Some (JStr "SFO-CDG"), Some (JStr "Gallic")) ].
Proof. vm_compute. reflexivity. Qed.


(** C8 fails on an empty dataset: over a directory with no supported
    file, a query with no limit echoes the criteria as they came, with no
    limit, and a query with limit 1000 echoes the limit 1000, where the
    echo of the criteria as applied holds the effective limits 25 and
    200. The three counts are all 0, as claimed. *)
Lemma C8_empty_dataset_echoes_the_criteria_as_given :
  rows (loadTrendDataset Reference.emptyDir) = [] /\
  (Trends.filters (queryAirfareTrends Reference.emptyDir Reference.noFilters)
     = AsGiven Reference.noFilters /\
   limit Reference.noFilters = None /\
   Echo.limit (Spec.normalizedEcho Reference.noFilters) = 25) /\
  (Trends.filters (queryAirfareTrends Reference.emptyDir (Reference.withLimit 1000))
     = AsGiven (Reference.withLimit 1000) /\
   limit (Reference.withLimit 1000) = Some 1000 /\
   Echo.limit (Spec.normalizedEcho (Reference.withLimit 1000)) = 200) /\
  total_rows (queryAirfareTrends Reference.emptyDir Reference.noFilters) = 0%nat /\
  matched_rows (queryAirfareTrends Reference.emptyDir Reference.noFilters) = 0%nat /\
  rows_returned (queryAirfareTrends Reference.emptyDir Reference.noFilters) = 0%nat.
Proof. repeat split; vm_compute; reflexivity. Qed.

(** On the five fare rows the same criteria are echoed with the limit
    clamped to 200. *)
Example fares_echo_is_normalized :
  Trends.filters (queryAirfareTrends Reference.faresDir (Reference.withLimit 1000))
    = Normalized (Spec.normalizedEcho (Reference.withLimit 1000)) /\
  Echo.limit (Spec.normalizedEcho (Reference.withLimit 1000)) = 200.
Proof. split; vm_compute; reflexivity. Qed.

(** C10 at the snapshot date "next week", which no format reads. *)
Lemma C10_unparseable_witness :
  (snapshotDate (Reference.withSnapshotDate "next week") = Some "next week" /\
   matchDate (trim "next week") = None /\
   matchWeek (trim "next week") = None /\
   dateParse (trim "next week") = None) /\
  result_rows
    (queryAirfareTrends Reference.faresDir
       (Reference.withSnapshotDate "next week"))
  = result_rows
      (queryAirfareTrends Reference.faresDir
         (Spec.withoutSnapshotDate (Reference.withSnapshotDate "next week"))).
Proof.
  split; [repeat split|].
  exact (proj1 (proj2 (proj2
           (C10_unparseable_snapshot_date_restricts_nothing
              Reference.faresDir (Reference.withSnapshotDate "next week")
              "next week" eq_refl eq_refl eq_refl eq_refl)))).
Defined.

(** A snapshot date that parses does restrict: only the rows of that day
    stay. *)
Example fares_of_one_day :
  (fun row => row !! "route")
    <$> result_rows
          (queryAirfareTrends Reference.faresDir
             (Reference.withSnapshotDate "2024-08-26"))
  = [Some (JStr "BOS-DUB")].
Proof. vm_compute. reflexivity. Qed.

End QueryExamples.

(** ** The query on a collation with ties *)

Section CollationExamples.

Import Trends JsString.

Lemma ignoring_collation :
  Spec.CollationPreorder (H := Reference.ignoringHost).
Proof.
  split; simpl.
  - intros a b.
    apply (Spec.compare_antisym (H := Reference.host)
             (CollationPreorder := reference_collation)).
  - intros a b c.
    apply (Spec.compare_trans (H := Reference.host)
             (CollationPreorder := reference_collation)).
Qed.


End CollationExamples.

(** ** The dataset *)

Section DatasetFacts.

Context `{Host}.
Import Trends JsString.

Lemma aggregate_rows (dir : Directory) (entries : list string)
    (acc : list TrendRow) :
  fold_left
    (fun aggregatedRows filePath =>
       match suffixOf filePath with
       | None => aggregatedRows
       | Some suffix =>
           match loadTrendRowsFromFile dir filePath suffix with
           | Some rows => aggregatedRows ++ rows
           | None => aggregatedRows
           end
       end) entries acc
  = acc ++ flat_map (Spec.fileRows dir) entries.
Proof.
  revert acc. induction entries as [|f entries IH]; intros acc; simpl.
  - by rewrite app_nil_r.
  - rewrite IH. unfold Spec.fileRows at 2.
    destruct (suffixOf f) as [suffix|]; simpl; [|done].
    destruct (loadTrendRowsFromFile dir f suffix); simpl; [|done].
    by rewrite <- app_assoc.
Qed.


Lemma rows_of_dataset (dir : Directory) :
  rows (loadTrendDataset dir)
  = flat_map (Spec.fileRows dir) (availableFiles (loadTrendDataset dir)).
Proof.
  unfold loadTrendDataset. destruct (readdir dir) as [dirents|]; [|done].
  simpl. by rewrite aggregate_rows.
Qed.


(** A directory that cannot be listed yields the empty dataset. *)
Lemma unlistable_directory (dir : Directory) :
  readdir dir = None ->
  loadTrendDataset dir = {| rows := []; availableFiles := [] |}.
Proof. intros Hdir. unfold loadTrendDataset. by rewrite Hdir. Qed.

End DatasetFacts.

Section DatasetExamples.

#[local] Existing Instance Reference.host.
Import Trends JsString.



End DatasetExamples.

(** ** Dates *)

Section DateFacts.

Import JsString JsDate.

Lemma jan4Checked_all : forallb jan4Checked (yearsFrom 0 400) = true.
Proof. vm_compute. reflexivity. Qed.

(** The calendar repeats every 400 years, which are 146097 days. *)
Lemma daysFromCivil_shift (y m d k : Z) :
  daysFromCivil (y + 400 * k) m d = daysFromCivil y m d + 146097 * k.
Proof.
  unfold daysFromCivil. cbv zeta.
  destruct (m <=? 2).
  - replace (y + 400 * k - 1) with (y - 1 + k * 400) by lia.
    rewrite Z.div_add by lia.
    replace (y - 1 + k * 400 - ((y - 1) / 400 + k) * 400)
      with (y - 1 - (y - 1) / 400 * 400) by lia.
    lia.
  - replace (y + 400 * k) with (y + k * 400) by lia.
    rewrite Z.div_add by lia.
    replace (y + k * 400 - (y / 400 + k) * 400) with (y - y / 400 * 400)
      by lia.
    lia.
Qed.

Lemma civilFromDays_shift (z k : Z) :
  civilFromDays (z + 146097 * k)
  = ((civilFromDays z).1.1 + 400 * k, (civilFromDays z).1.2, (civilFromDays z).2).
Proof.
  unfold civilFromDays. cbv zeta.
  replace (z + 146097 * k + 719468) with (z + 719468 + k * 146097) by lia.
  rewrite Z.div_add by lia.
  set (era := (z + 719468) / 146097).
  replace (z + 719468 + k * 146097 - (era + k) * 146097)
    with (z + 719468 - era * 146097) by lia.
  set (doe := z + 719468 - era * 146097).
  set (yoe := (doe - doe / 1460 + doe / 36524 - doe / 146096) / 365).
  set (doy := doe - (365 * yoe + yoe / 4 - yoe / 100)).
  set (mp := (5 * doy + 2) / 153).
  cbn [fst snd].
  destruct (_ <=? 2); f_equal; f_equal; lia.
Qed.

Lemma jan4_roundtrip (y : Z) :
  100 <= y <= 9999 ->
  civilFromDays (daysFromCivil y 1 4) = (y, 1, 4)
  /\ Z.abs (daysFromCivil y 1 4) <= 4000000.
Proof.
  intros Hy. pose proof jan4Checked_all as Hall.
  rewrite forallb_forall in Hall.
  specialize (Hall (y mod 400)). unfold jan4Checked in Hall.
  pose proof (Z.mod_pos_bound y 400) as Hmod.
  assert (In (y mod 400) (yearsFrom 0 400)) as Hin.
  { apply in_map_iff. exists (Z.to_nat (y mod 400)). split; [lia|].
    apply in_seq. lia. }
  apply Hall in Hin. clear Hall.
  assert (y = y mod 400 + 400 * (y / 400)) as Hsplit
    by (pose proof (Z.div_mod y 400); lia).
  assert (0 <= y / 400 <= 24) as Hk.
  { split; [apply Z.div_pos; lia|].
    apply Z.lt_succ_r, Z.div_lt_upper_bound; lia. }
  rewrite Hsplit at 1 3. rewrite daysFromCivil_shift, civilFromDays_shift.
  destruct (civilFromDays (daysFromCivil (y mod 400) 1 4)) as [[y' m] d].
  rewrite !andb_true_iff, !Z.eqb_eq, !Z.leb_le in Hin.
  destruct Hin as [[[[-> ->] ->] Hlo] Hhi]. cbn [fst snd].
  split; [f_equal; f_equal; lia|lia].
Qed.

Lemma daysFromCivil_january (y d : Z) :
  daysFromCivil y 1 d = daysFromCivil y 1 4 + (d - 4).
Proof. unfold daysFromCivil. simpl. lia. Qed.

Lemma Day_of_days (n : Z) : Day (n * msPerDay) = n.
Proof. unfold Day, msPerDay. by rewrite Z.div_mul. Qed.

Lemma TimeWithinDay_of_days (n : Z) : TimeWithinDay (n * msPerDay) = 0.
Proof. unfold TimeWithinDay, msPerDay. by rewrite Z.mod_mul. Qed.

Lemma TimeClip_of_days (n : Z) :
  Z.abs n <= 5000000 -> TimeClip (n * msPerDay) = Some (n * msPerDay).
Proof.
  intros Hn. unfold TimeClip, msPerDay.
  destruct (Z.leb_spec (Z.abs (n * 86400000)) 8640000000000000); [done|lia].
Qed.

Lemma MakeDay_january (y d : Z) :
  MakeDay y 0 d = daysFromCivil y 1 4 + (d - 4).
Proof.
  unfold MakeDay. change (0 / 12) with 0. change (0 mod 12 + 1) with 1.
  rewrite Z.add_0_r, (daysFromCivil_january y 1). lia.
Qed.

Lemma UTC_jan4 (y : Z) :
  100 <= y <= 9999 -> UTC y 0 4 = Some (daysFromCivil y 1 4 * msPerDay).
Proof.
  intros Hy. destruct (jan4_roundtrip y Hy) as [_ Hb].
  unfold UTC, MakeDate.
  destruct (Z.leb_spec 0 y); [|lia].
  destruct (Z.leb_spec y 99); [lia|]. cbn [andb].
  rewrite MakeDay_january, Z.add_0_r, Z.add_0_r.
  apply TimeClip_of_days. lia.
Qed.

(** The week branch computes the Jan-4 anchor formula for the years from
    100 on. *)
Lemma weekMonday_anchor (y w : Z) :
  100 <= y <= 9999 -> 0 <= w <= 99 ->
  Trends.weekMonday y w = Some (Spec.jan4AnchorMonday y w).
Proof.
  intros Hy Hw. destruct (jan4_roundtrip y Hy) as [Hrt Hb].
  unfold Trends.weekMonday. rewrite (UTC_jan4 y Hy). cbn [mbind option_bind].
  unfold getUTCDay, WeekDay, getUTCDate, DateFromTime, setUTCDate,
    YearFromTime, MonthFromTime.
  rewrite !Day_of_days, TimeWithinDay_of_days, Hrt. cbn [fst snd].
  change (1 - 1) with 0.
  unfold Spec.jan4AnchorMonday, MakeDate.
  rewrite MakeDay_january, Z.add_0_r.
  set (D := daysFromCivil y 1 4) in *.
  set (wd := if (D + 4) mod 7 =? 0 then 7 else (D + 4) mod 7).
  assert (1 <= wd <= 7) as Hwd.
  { unfold wd. pose proof (Z.mod_pos_bound (D + 4) 7).
    destruct (Z.eqb_spec ((D + 4) mod 7) 0); lia. }
  replace (D + (4 + (1 - wd) + (w - 1) * 7 - 4))
    with (D + (1 - wd) + (w - 1) * 7) by lia.
  apply TimeClip_of_days. lia.
Qed.

Lemma UTC_two_digit_year (y m d : Z) :
  0 <= y <= 99 -> UTC y m d = UTC (1900 + y) m d.
Proof.
  intros Hy. unfold UTC.
  destruct (Z.leb_spec 0 y); [|lia]. destruct (Z.leb_spec y 99); [|lia].
  destruct (Z.leb_spec 0 (1900 + y)); [|lia].
  destruct (Z.leb_spec (1900 + y) 99); [lia|]. done.
Qed.

(** A year below 100 is read as a year of the twentieth century. *)
Lemma weekMonday_two_digit_year (y w : Z) :
  0 <= y <= 99 -> 0 <= w <= 99 ->
  Trends.weekMonday y w = Some (Spec.jan4AnchorMonday (1900 + y) w).
Proof.
  intros Hy Hw. rewrite <- weekMonday_anchor by lia.
  unfold Trends.weekMonday. by rewrite UTC_two_digit_year.
Qed.

(** So the week branch always yields a valid date for four year digits
    and two week digits. *)
Lemma weekMonday_valid (y w : Z) :
  0 <= y <= 9999 -> 0 <= w <= 99 -> is_Some (Trends.weekMonday y w).
Proof.
  intros Hy Hw. destruct (Z.lt_ge_cases y 100).
  - rewrite weekMonday_two_digit_year by lia. by eexists.
  - rewrite weekMonday_anchor by lia. by eexists.
Qed.

Lemma digit_not_space (c : ascii) : isDigit c = true -> isWhitespace c = false.
Proof. by destruct c as [[] [] [] [] [] [] [] []]. Qed.

Lemma digitValue_range (c : ascii) : 0 <= digitValue c <= 9.
Proof. destruct c as [[] [] [] [] [] [] [] []]; vm_compute; split; discriminate. Qed.

End DateFacts.

Section WeekStrings.

Context `{Host}.
Import Trends JsString.

Lemma parseIsoDate_week (y1 y2 y3 y4 w w1 w2 : ascii) :
  isDigit y1 = true -> isDigit y2 = true -> isDigit y3 = true ->
  isDigit y4 = true -> isDigit w1 = true -> isDigit w2 = true ->
  Ascii.eqb w "W" || Ascii.eqb w "w" = true ->
  parseIsoDate (Some (Spec.isoWeekString y1 y2 y3 y4 w w1 w2))
  = weekMonday (Spec.year4 y1 y2 y3 y4) (Spec.week2 w1 w2).
Proof.
  intros Hy1 Hy2 Hy3 Hy4 Hw1 Hw2 Hw.
  unfold parseIsoDate, Spec.isoWeekString. cbn [nonEmpty negb].
  rewrite trim_fixed; cycle 1.
  { cbn [headOk]. by rewrite (digit_not_space y1 Hy1). }
  { unfold lastOk. cbn. by rewrite (digit_not_space w2 Hw2). }
  cbn [nonEmpty negb matchDate matchWeek].
  rewrite Hy1, Hy2, Hy3, Hy4, Hw1, Hw2, Hw. cbn [andb Ascii.eqb Bool.eqb].
  f_equal; unfold parseDigits, Spec.year4, Spec.week2; cbn [parseDigitsGo]; lia.
Qed.

Lemma year4_range (y1 y2 y3 y4 : ascii) : 0 <= Spec.year4 y1 y2 y3 y4 <= 9999.
Proof.
  unfold Spec.year4.
  pose proof (digitValue_range y1). pose proof (digitValue_range y2).
  pose proof (digitValue_range y3). pose proof (digitValue_range y4). lia.
Qed.

Lemma week2_range (w1 w2 : ascii) : 0 <= Spec.week2 w1 w2 <= 99.
Proof.
  unfold Spec.week2.
  pose proof (digitValue_range w1). pose proof (digitValue_range w2). lia.
Qed.

Lemma keepRow_snapshot_only (iso : string) (row : TrendRow) :
  JsDate.toISOString <$> rowSnapshotTime row = Some iso ->
  keepRow (Some iso) "" "" "" "" "" "" row = true.
Proof.
  intros Hrow. unfold keepRow. rewrite Hrow. cbn [truthy].
  rewrite bool_decide_eq_false_2 by (by intros []).
  by rewrite andb_false_r.
Qed.

(** C4, as amended: a string YYYY-Www whose year is 0100 or later
    resolves to the day of the Jan-4 anchor formula (January 4 of that
    year, its weekday with Sunday as 7, plus (1 - weekday) + (week - 1) * 7
    days); a year from 0000 to 0099 is read as the year 1900 later, and
    the formula is applied to that year. The date "2024-08-19" is the
    Monday the formula gives for week 34 of 2024, and a row whose
    snapshot date is "2024-W34" passes a snapshot-date filter naming it. *)
Theorem C4_iso_week_resolves_by_the_jan4_anchor (y1 y2 y3 y4 w w1 w2 : ascii) :
  isDigit y1 = true -> isDigit y2 = true -> isDigit y3 = true ->
  isDigit y4 = true -> isDigit w1 = true -> isDigit w2 = true ->
  Ascii.eqb w "W" || Ascii.eqb w "w" = true ->
  (100 <= Spec.year4 y1 y2 y3 y4 ->
   parseIsoDate (Some (Spec.isoWeekString y1 y2 y3 y4 w w1 w2))
   = Some (Spec.jan4AnchorMonday (Spec.year4 y1 y2 y3 y4) (Spec.week2 w1 w2))) /\
  (Spec.year4 y1 y2 y3 y4 < 100 ->
   parseIsoDate (Some (Spec.isoWeekString y1 y2 y3 y4 w w1 w2))
   = Some (Spec.jan4AnchorMonday (1900 + Spec.year4 y1 y2 y3 y4)
             (Spec.week2 w1 w2))) /\
  parseIsoDate (Some "2024-08-19") = Some (Spec.jan4AnchorMonday 2024 34) /\
  (forall row,
     row !! "snapshot_date" = Some (JStr "2024-W34") ->
     filterRows (Reference.withSnapshotDate "2024-08-19") [row] = [row]).
Proof.
  intros Hy1 Hy2 Hy3 Hy4 Hw1 Hw2 Hw.
  pose proof (year4_range y1 y2 y3 y4) as Hyear.
  pose proof (week2_range w1 w2) as Hweek.
  rewrite (parseIsoDate_week y1 y2 y3 y4 w w1 w2) by done.
  split; [intros; apply weekMonday_anchor; lia|].
  split; [intros; apply weekMonday_two_digit_year; lia|].
  split; [vm_compute; reflexivity|].
  intros row Hrow. unfold filterRows.
  replace (JsDate.toISOString <$>
             parseIsoDate (snapshotDate (Reference.withSnapshotDate "2024-08-19")))
    with (Some "2024-08-19T00:00:00.000Z") by (vm_compute; reflexivity).
  change (normalizeFilter _) with "". cbn [List.filter].
  rewrite keepRow_snapshot_only; [done|].
  unfold rowSnapshotTime. rewrite Hrow. vm_compute. reflexivity.
Qed.

End WeekStrings.

Section WeekExamples.

#[local] Existing Instance Reference.host.
Import Trends JsString.

(** C4, as stated, fails: "0050-W01" resolves to Monday 2 January 1950,
    where the formula on January 4 of the year 50 gives 3 January 0050. *)
Lemma C4_two_digit_year_is_read_as_19xx :
  JsDate.toISOString <$> parseIsoDate (Some "0050-W01")
    = Some "1950-01-02T00:00:00.000Z" /\
  JsDate.toISOString (Spec.jan4AnchorMonday 50 1) = "0050-01-03T00:00:00.000Z" /\
  Spec.isoWeekString "0" "0" "5" "0" "W" "0" "1" = "0050-W01".
Proof. repeat split; vm_compute; reflexivity. Qed.

(** C4 at "2024-W34". *)
Lemma C4_week34_witness :
  (isDigit "2" = true /\ isDigit "0" = true /\ isDigit "4" = true
   /\ isDigit "3" = true /\ Ascii.eqb "W" "W" || Ascii.eqb "W" "w" = true
   /\ 100 <= Spec.year4 "2" "0" "2" "4") /\
  parseIsoDate (Some (Spec.isoWeekString "2" "0" "2" "4" "W" "3" "4"))
  = Some (Spec.jan4AnchorMonday (Spec.year4 "2" "0" "2" "4")
            (Spec.week2 "3" "4")).
Proof.
  split; [repeat split; vm_compute; congruence|].
  assert (100 <= Spec.year4 "2" "0" "2" "4") as Hyear
    by (vm_compute; congruence).
  exact (proj1 (C4_iso_week_resolves_by_the_jan4_anchor
                  "2" "0" "2" "4" "W" "3" "4"
                  eq_refl eq_refl eq_refl eq_refl eq_refl eq_refl eq_refl)
               Hyear).
Defined.

End WeekExamples.

(** ** The bearer-token gate *)

Section GateFacts.

Context `{Auth.AuthHost}.
Import Auth JsString.

Lemma missingScopes_spec (scopes : list string) (s : string) :
  s ∈ missingScopes scopes <-> s ∈ REQUIRED_SCOPES /\ s ∉ scopes.
Proof.
  unfold missingScopes.
  rewrite list_elem_of_In, filter_In, <- list_elem_of_In.
  rewrite negb_true_iff, bool_decide_eq_false. done.
Qed.

Lemma ensureRequiredScopes_throws (scopes : list string) :
  missingScopes scopes <> [] ->
  ensureRequiredScopes scopes
  = inl (AuthorizationError
           ("Missing required scopes: " +:+ join ", " (missingScopes scopes))
           403).
Proof.
  intros Hm. unfold ensureRequiredScopes.
  by destruct (missingScopes scopes).
Qed.

Lemma ensureRequiredScopes_status (scopes : list string) (message : string)
    (status : Z) :
  ensureRequiredScopes scopes = inl (AuthorizationError message status) ->
  status = 403 /\ missingScopes scopes <> []
  /\ message = "Missing required scopes: " +:+ join ", " (missingScopes scopes).
Proof.
  unfold ensureRequiredScopes.
  destruct (missingScopes scopes) as [|s l] eqn:Hm; simpl; [done|].
  by intros [= <- <-].
Qed.

Lemma verifyBearerToken_status (token message : string) (status : Z) :
  verifyBearerToken token = inl (AuthorizationError message status) ->
  (status = 401 /\ message = "Missing bearer token") \/
  (status = 403 /\
   exists payload,
     jwtVerify token = Some payload /\
     missingScopes (extractScopes payload) <> [] /\
     message = "Missing required scopes: "
               +:+ join ", " (missingScopes (extractScopes payload))).
Proof.
  unfold verifyBearerToken.
  destruct (nonEmpty token); simpl; [|intros [= <- <-]; by left].
  destruct (jwtVerify token) as [payload|]; [|done].
  destruct (ensureRequiredScopes (extractScopes payload)) as [thrown|[]] eqn:He;
    [|done].
  intros [= ->]. apply ensureRequiredScopes_status in He. right.
  destruct He as (-> & Hm & ->). split; [done|]. by exists payload.
Qed.

(** C2: a token that verifies and whose extracted scopes lack a required
    scope fails with an [AuthorizationError] of status 403, which the
    server answers with 403, and whose message lists the missing scopes,
    those being exactly the required scopes that are not among the
    token's; a missing token, a missing or repeated header and a header
    that is no Bearer token fail with status 401; and every
    [AuthorizationError] a request meets has status 401 unless it is the
    403 of missing scopes. *)
Theorem C2_missing_scopes_are_403_and_other_failures_401 (token : string) (payload : RawRecord) :
  nonEmpty token = true ->
  jwtVerify token = Some payload ->
  missingScopes (extractScopes payload) <> [] ->
  (verifyBearerToken token
   = inl (AuthorizationError
            ("Missing required scopes: "
               +:+ join ", " (missingScopes (extractScopes payload)))
            403) /\
   (errorResponse
      (AuthorizationError
         ("Missing required scopes: "
            +:+ join ", " (missingScopes (extractScopes payload)))
         403)).1 = 403 /\
   (forall s, s ∈ missingScopes (extractScopes payload)
              <-> s ∈ REQUIRED_SCOPES /\ s ∉ extractScopes payload)) /\
  verifyBearerToken "" = inl (AuthorizationError "Missing bearer token" 401) /\
  (forall headers,
     headers !! "authorization" = None -> headers !! "Authorization" = None ->
     authenticateRequest headers
     = inl (AuthorizationError "Missing Authorization header" 401)) /\
  (forall headers values,
     headers !! "authorization" = Some (Several values) ->
     authenticateRequest headers
     = inl (AuthorizationError "Missing Authorization header" 401)) /\
  (forall headers header,
     headers !! "authorization" = Some (Single header) ->
     startsWith (toLowerCase (trim header)) "bearer " = false ->
     exists message,
       authenticateRequest headers = inl (AuthorizationError message 401)) /\
  (forall headers message status,
     authenticateRequest headers = inl (AuthorizationError message status) ->
     status = 401 \/
     (status = 403 /\
      exists scopes,
        missingScopes scopes <> [] /\
        message = "Missing required scopes: "
                  +:+ join ", " (missingScopes scopes))).
Proof.
  intros Htoken Hverify Hmissing.
  refine (conj (conj _ (conj _ _)) (conj _ (conj _ (conj _ (conj _ _))))).
  - unfold verifyBearerToken. rewrite Htoken, Hverify. simpl.
    by rewrite ensureRequiredScopes_throws.
  - done.
  - intros s. apply missingScopes_spec.
  - done.
  - intros headers H1 H2. unfold authenticateRequest. by rewrite H1, H2.
  - intros headers values H1. unfold authenticateRequest. by rewrite H1.
  - intros headers header H1 Hprefix. unfold authenticateRequest.
    rewrite H1, Hprefix. destruct (nonEmpty header); by eexists.
  - intros headers message status. unfold authenticateRequest.
    destruct (match headers !! "authorization" with
              | Some h => Some h
              | None => headers !! "Authorization"
              end) as [[header|values]|];
      [|intros [= <- <-]; by left..].
    destruct (nonEmpty header); simpl; [|intros [= <- <-]; by left].
    destruct (startsWith _ _); simpl; [|intros [= <- <-]; by left].
    intros Hv. apply verifyBearerToken_status in Hv
      as [[-> _]|[-> (p & _ & Hm & ->)]]; [by left|right].
    split; [done|]. by exists (extractScopes p).
Qed.

End GateFacts.

Section GateExamples.

#[local] Existing Instance Reference.authHost.
Import Auth JsString.

(** A request whose token carries [openid] and [profile] is refused with
    403, and the message names [email] alone. *)
Example gate_refuses_token_without_email :
  authenticateRequest
    (<["authorization" := Single "Bearer token-without-email"]> ∅)
  = inl (AuthorizationError "Missing required scopes: email" 403).
Proof. vm_compute. reflexivity. Qed.

Example scopes_from_text :
  extractScopes (<["scope" := JStr " openid,profile  email,"]> ∅)
  = ["openid"; "profile"; "email"].
Proof. vm_compute. reflexivity. Qed.

Example scopes_from_array :
  extractScopes (<["scp" := JArr [JStr " openid "; JNull; JStr ""; JStr "email"]]> ∅)
  = ["openid"; "email"].
Proof. vm_compute. reflexivity. Qed.

(** C2 at the token whose scopes lack [email]. *)
Lemma C2_gate_witness :
  (nonEmpty "token-without-email" = true /\
   missingScopes
     (extractScopes (<["scope" := JStr "openid profile"]>
                       (<["sub" := JStr "user-1"]> ∅))) = ["email"]) /\
  verifyBearerToken "token-without-email"
  = inl (AuthorizationError
           ("Missing required scopes: "
              +:+ join ", "
                    (missingScopes
                       (extractScopes (<["scope" := JStr "openid profile"]>
                                         (<["sub" := JStr "user-1"]> ∅)))))
           403).
Proof.
  assert (missingScopes
            (extractScopes (<["scope" := JStr "openid profile"]>
                              (<["sub" := JStr "user-1"]> ∅))) = ["email"])
    as Hm by (vm_compute; reflexivity).
  split; [split; [reflexivity|exact Hm]|].
  refine (proj1 (proj1 (C2_missing_scopes_are_403_and_other_failures_401
                          "token-without-email" _ eq_refl eq_refl _))).
  rewrite Hm. discriminate.
Defined.

End GateExamples.

(** * Further properties of the code *)

(** ** Rows and where they come from *)

Section BuiltRows.

Context `{Host}.
Import Trends JsString.

Ltac not_in := by apply (bool_decide_unpack _); vm_compute.

Lemma buildRow_source_file (raw : RawRecord) (sf fmt : string) :
  buildRow raw sf fmt !! "source_file" = Some (JStr sf).
Proof.
  rewrite buildRow_lookup_initial by not_in.
  unfold initialRow. cbn [fold_left fst snd].
  rewrite !lookup_setField_ne by done. by rewrite lookup_setField_eq.
Qed.

Lemma buildRow_source_format (raw : RawRecord) (sf fmt : string) :
  buildRow raw sf fmt !! "source_format" = Some (JStr fmt).
Proof.
  rewrite buildRow_lookup_initial by not_in.
  unfold initialRow. cbn [fold_left fst snd].
  by rewrite lookup_setField_eq.
Qed.

Lemma buildRow_region (raw : RawRecord) (sf fmt : string) :
  buildRow raw sf fmt !! "region"
  = Some (JStr (Spec.presentText raw ["region"; "region_name"; "geo"])).
Proof.
  rewrite buildRow_lookup_initial by not_in.
  unfold initialRow. cbn [fold_left fst snd].
  rewrite !lookup_setField_ne by done.
  by rewrite lookup_setField_eq, chainText_3.
Qed.

Lemma chainText_5 (raw : RawRecord) (a b c d e : string) :
  chainText (raw !! a ?? raw !! b ?? raw !! c ?? raw !! d ?? raw !! e)
  = Spec.presentText raw [a; b; c; d; e].
Proof.
  unfold chainText, Spec.presentText. simpl.
  destruct (raw !! a) as [[]|]; try done;
  destruct (raw !! b) as [[]|]; try done;
  destruct (raw !! c) as [[]|]; try done;
  destruct (raw !! d) as [[]|]; try done;
  by destruct (raw !! e) as [[]|].
Qed.

(** What the blocks before [setNotableDriver] leave under
    [notable_event] and [notable_driver]. *)
Lemma before_notableDriver (raw : RawRecord) (sf fmt : string) (r : TrendRow) :
  r = setFares raw
        (setNonEmpty "season" (Some (chainText (raw !! "season")))
           (setNonEmpty "airline" (Some (chainText (raw !! "airline")))
              (setRoute (chainText (raw !! "route"))
                 (copyOptionalKeys raw (initialRow raw sf fmt))))) ->
  r !! "notable_event"
    = Some (JStr (Spec.presentText raw
                    ["notable_driver"; "notable_event"; "notes";
                     "channel_checks"; "processing_notes"]))
  /\ r !! "notable_driver" = None.
Proof.
  intros ->.
  rewrite !lookup_setFares by not_in.
  rewrite !lookup_setNonEmpty_ne by done.
  rewrite !lookup_setRoute by not_in.
  rewrite !lookup_copyOptionalKeys by not_in.
  split.
  - unfold initialRow. cbn [fold_left fst snd].
    rewrite !lookup_setField_ne by done.
    by rewrite lookup_setField_eq, chainText_5.
  - apply lookup_initialRow_other. not_in.
Qed.

Lemma buildRow_notable (raw : RawRecord) (sf fmt : string) :
  (nonEmpty (Spec.presentText raw ["notable_driver"]) = true ->
   buildRow raw sf fmt !! "notable_driver"
     = Some (JStr (Spec.presentText raw ["notable_driver"])) /\
   buildRow raw sf fmt !! "notable_event"
     = Some (JStr (Spec.presentText raw ["notable_driver"]))) /\
  (nonEmpty (Spec.presentText raw ["notable_driver"]) = false ->
   buildRow raw sf fmt !! "notable_driver" = None /\
   buildRow raw sf fmt !! "notable_event"
     = Some (JStr (Spec.presentText raw
                     ["notable_driver"; "notable_event"; "notes";
                      "channel_checks"; "processing_notes"]))).
Proof.
  unfold buildRow. cbv zeta.
  edestruct before_notableDriver as [Hevent Hdriver]; [reflexivity|].
  unfold setNotableDriver. rewrite chainText_1.
  split; intros Hne; rewrite Hne.
  - by rewrite lookup_insert_ne, !lookup_insert_eq.
  - by rewrite Hevent, Hdriver.
Qed.

End BuiltRows.

Section LoadedRows.

Context `{Host}.
Import Trends JsString.

Lemma tabular_rows_built (dir : Directory) (f delimiter : string) :
  Forall (Shape.builtFor f (if String.eqb delimiter tab then "tsv" else "csv"))
         (default [] (loadTabularRows dir f delimiter)).
Proof.
  unfold loadTabularRows. destruct (readFile dir f) as [content|]; [|done].
  cbn [mbind option_bind].
  destruct (fold_left _ _ _) as [headerLine dataLines].
  destruct (length dataLines =? 0)%nat; [done|].
  destruct (parseCsv _ _) as [records|]; [|done]. cbn [mbind option_bind default].
  apply Forall_forall. intros row Hrow.
  apply list_elem_of_In, in_map_iff in Hrow as (raw & <- & _). by exists raw.
Qed.

Lemma ingest_built (f : string) (data defaults : RawRecord) (row : TrendRow) :
  ingest f data defaults = Some row -> Shape.builtFor f "json" row.
Proof.
  unfold ingest. cbv zeta. destruct (buildRowThrows _); [done|].
  intros [= <-]. by eexists.
Qed.

Lemma ingestEntries_built (f : string) (entries : list Json)
    (defaults : RawRecord) (rows : list TrendRow) :
  ingestEntries f entries defaults = Some rows ->
  Forall (Shape.builtFor f "json") rows.
Proof.
  unfold ingestEntries. intros Hrows. apply mapM_Some in Hrows.
  induction Hrows as [|entry row l k Hrow _ IH]; constructor; [|done].
  by apply ingest_built in Hrow.
Qed.

Lemma json_rows_built (dir : Directory) (f : string) :
  Forall (Shape.builtFor f "json") (default [] (loadJsonRows dir f)).
Proof.
  unfold loadJsonRows. destruct (readFile dir f) as [content|]; [|done].
  cbn [mbind option_bind].
  destruct (jsonParse content) as [payload|]; [|done].
  cbn [mbind option_bind].
  assert (forall data defaults,
            Forall (Shape.builtFor f "json")
              (default [] (row ← ingest f data defaults; Some [row]))) as Hone.
  { intros data defaults.
    destruct (ingest f data defaults) as [row|] eqn:Hrow; [|done].
    constructor; [by apply ingest_built in Hrow|done]. }
  assert (forall entries defaults,
            Forall (Shape.builtFor f "json")
              (default [] (ingestEntries f entries defaults))) as Hmany.
  { intros entries defaults.
    destruct (ingestEntries f entries defaults) as [rows|] eqn:Hrows; [|done].
    by apply ingestEntries_built in Hrows. }
  destruct payload as [| | | |items|fields]; [done..|apply Hmany|].
  destruct (asRecord (JObj fields) !! "regions") as [regions|]; [|apply Hone].
  destruct (isObjectLike regions); [|apply Hone].
  destruct (mapM _ _) as [rowsOfRegions|] eqn:Hmap; [|done].
  cbn [mbind option_bind default].
  apply mapM_Some in Hmap.
  induction Hmap as [|[regionName regionPayload] rs l k Hrs _ IH]; [done|].
  cbn [concat]. apply Forall_app. split; [|exact IH].
  destruct (isObjectLike regionPayload); cbn [negb] in Hrs;
    [|by injection Hrs as <-].
  destruct (asRecord regionPayload !! "top_queries") as [[| | | |topQueries|]|];
    try (specialize (Hone (asRecord regionPayload)
                       (setField "channel_checks"
                          (asRecord regionPayload !! "channel_checks")
                          (setField "week" (asRecord (JObj fields) !! "week")
                             (<["region" := JStr regionName]> ∅))));
         by rewrite Hrs in Hone).
  by apply ingestEntries_built in Hrs.
Qed.

Lemma loaded_rows_built (dir : Directory) (f : string) (suffix : Suffix) :
  Forall (Shape.builtFor f (Shape.formatName suffix))
         (default [] (loadTrendRowsFromFile dir f suffix)).
Proof.
  destruct suffix; simpl.
  - apply (tabular_rows_built dir f ",").
  - apply (tabular_rows_built dir f tab).
  - apply json_rows_built.
Qed.

Lemma built_row_fields (f fmt : string) (row : TrendRow) :
  Shape.builtFor f fmt row ->
  row !! "source_file" = Some (JStr f) /\
  row !! "source_format" = Some (JStr fmt) /\
  Shape.holdsText row "query" /\ Shape.holdsText row "date" /\
  Shape.holdsText row "snapshot_date" /\ Shape.holdsText row "region" /\
  Shape.holdsText row "notable_event".
Proof.
  intros [raw ->]. unfold Shape.holdsText.
  split; [apply buildRow_source_file|].
  split; [apply buildRow_source_format|].
  assert (forall k, k ∉ laterKeys ->
            (exists text, initialRow raw f fmt !! k = Some (JStr text)) ->
            exists text, buildRow raw f fmt !! k = Some (JStr text)) as Hinit.
  { intros k Hk. by rewrite buildRow_lookup_initial. }
  repeat split.
  - apply Hinit; [by apply (bool_decide_unpack _); vm_compute|].
    rewrite lookup_initialRow_query. by eexists.
  - apply Hinit; [by apply (bool_decide_unpack _); vm_compute|].
    rewrite lookup_initialRow_date. by eexists.
  - apply Hinit; [by apply (bool_decide_unpack _); vm_compute|].
    rewrite lookup_initialRow_snapshot_date. by eexists.
  - rewrite buildRow_region. by eexists.
  - destruct (buildRow_notable raw f fmt) as [Hyes Hno].
    destruct (nonEmpty (Spec.presentText raw ["notable_driver"])) eqn:Hd.
    + destruct (Hyes eq_refl) as [_ ->]. by eexists.
    + destruct (Hno eq_refl) as [_ ->]. by eexists.
Qed.

(** X1: every row a file loads into, whatever its format, names that file
    as its [source_file] and the file's format as its [source_format],
    and holds a string under each of [query], [date], [snapshot_date],
    [region] and [notable_event]. *)
Theorem X1_loaded_rows_carry_their_source (dir : Directory) (f : string) (suffix : Suffix) :
  Forall
    (fun row =>
       row !! "source_file" = Some (JStr f) /\
       row !! "source_format" = Some (JStr (Shape.formatName suffix)) /\
       Shape.holdsText row "query" /\ Shape.holdsText row "date" /\
       Shape.holdsText row "snapshot_date" /\ Shape.holdsText row "region" /\
       Shape.holdsText row "notable_event")
    (default [] (loadTrendRowsFromFile dir f suffix)).
Proof.
  eapply Forall_impl; [apply loaded_rows_built|].
  intros row. apply built_row_fields.
Qed.

(** X2: every row of the dataset names one of [availableFiles] as its
    [source_file]. *)
Theorem X2_dataset_rows_name_an_available_file (dir : Directory) :
  Forall
    (fun row =>
       exists f, f ∈ availableFiles (loadTrendDataset dir)
                 /\ row !! "source_file" = Some (JStr f))
    (rows (loadTrendDataset dir)).
Proof.
  rewrite rows_of_dataset. apply Forall_forall. intros row Hrow.
  apply list_elem_of_In, in_flat_map in Hrow as (f & Hf & Hrow).
  exists f. split; [by apply list_elem_of_In|].
  unfold Spec.fileRows in Hrow. destruct (suffixOf f) as [suffix|]; [|done].
  cbn [mbind option_bind] in Hrow.
  pose proof (loaded_rows_built dir f suffix) as Hbuilt.
  rewrite Forall_forall in Hbuilt.
  by apply list_elem_of_In, Hbuilt, built_row_fields in Hrow as [-> _].
Qed.

End LoadedRows.

(** ** Counts and rows of a result *)

Section ResultFacts.

Context `{Host}.
Import Trends JsString.

Lemma filterRows_sublist (filters : AirfareTrendFilters) (rs : list TrendRow) :
  sublist (filterRows filters rs) rs.
Proof.
  unfold filterRows. generalize (keepRow
    (JsDate.toISOString <$> parseIsoDate (snapshotDate filters))
    (normalizeFilter (routeContains filters))
    (normalizeFilter (originAirport filters))
    (normalizeFilter (destinationAirport filters))
    (normalizeFilter (airlineContains filters))
    (normalizeFilter (seasonContains filters))
    (normalizeFilter (notableContains filters))) as keep.
  intros keep. induction rs as [|r rs IH]; simpl; [constructor|].
  destruct (keep r); by constructor.
Qed.

(** X3: in every result [rows_returned] is the smaller of [matched_rows]
    and the effective limit, so [rows_returned <= matched_rows <=
    total_rows] and [rows_returned <= 200]; [available_files] and
    [trend_data_dir] are those of the dataset and of the directory, with
    or without rows. *)
Theorem X3_counts_are_ordered (dir : Directory) (filters : AirfareTrendFilters) :
  rows_returned (queryAirfareTrends dir filters)
    = Nat.min (Z.to_nat (effectiveLimit (limit filters)))
              (matched_rows (queryAirfareTrends dir filters)) /\
  (rows_returned (queryAirfareTrends dir filters)
     <= matched_rows (queryAirfareTrends dir filters))%nat /\
  (matched_rows (queryAirfareTrends dir filters)
     <= total_rows (queryAirfareTrends dir filters))%nat /\
  (rows_returned (queryAirfareTrends dir filters) <= 200)%nat /\
  available_files (queryAirfareTrends dir filters)
    = availableFiles (loadTrendDataset dir) /\
  trend_data_dir (queryAirfareTrends dir filters) = resolved dir.
Proof.
  destruct (query_counts dir filters) as (Ht & Hm & Hr).
  pose proof (effectiveLimit_range (limit filters)) as Hrange.
  pose proof (sublist_length _ _
                (filterRows_sublist filters (rows (loadTrendDataset dir))))
    as Hsub.
  assert (rows_returned (queryAirfareTrends dir filters)
          = Nat.min (Z.to_nat (effectiveLimit (limit filters)))
                    (matched_rows (queryAirfareTrends dir filters))) as Hmin.
  { rewrite Hr, Hm, result_rows_query, length_take.
    unfold sortRows. by rewrite sort_length. }
  split; [exact Hmin|]. rewrite Hmin at 1 2. rewrite Ht, Hm.
  repeat split; try lia.
  - destruct (rows (loadTrendDataset dir)) eqn:Hrows.
    + by rewrite query_empty.
    + by rewrite query_nonempty by (by rewrite Hrows).
  - destruct (rows (loadTrendDataset dir)) eqn:Hrows.
    + by rewrite query_empty.
    + by rewrite query_nonempty by (by rewrite Hrows).
Qed.

(** X4: the rows of a result together with the rows the limit cut off are
    a rearrangement of the rows of the dataset that pass the filters: no
    row is invented, repeated, altered or lost before the cut; so every
    returned row is a row of the dataset, and when the matched rows fit
    the limit the result holds them all. *)
Theorem X4_result_rows_rearrange_the_matched_rows (dir : Directory) (filters : AirfareTrendFilters) :
  Permutation
    (result_rows (queryAirfareTrends dir filters)
       ++ drop (Z.to_nat (effectiveLimit (limit filters)))
            (sortRows (filterRows filters (rows (loadTrendDataset dir)))))
    (filterRows filters (rows (loadTrendDataset dir))) /\
  Forall (fun row => row ∈ filterRows filters (rows (loadTrendDataset dir))
                     /\ row ∈ rows (loadTrendDataset dir))
         (result_rows (queryAirfareTrends dir filters)) /\
  ((length (filterRows filters (rows (loadTrendDataset dir)))
      <= Z.to_nat (effectiveLimit (limit filters)))%nat ->
   Permutation (result_rows (queryAirfareTrends dir filters))
               (filterRows filters (rows (loadTrendDataset dir)))).
Proof.
  rewrite result_rows_query.
  set (matched := filterRows filters (rows (loadTrendDataset dir))).
  set (n := Z.to_nat (effectiveLimit (limit filters))).
  assert (Permutation (sortRows matched) matched) as Hperm
    by apply sort_perm.
  split; [by rewrite take_drop|]. split.
  - apply Forall_forall. intros row Hrow.
    assert (row ∈ matched) as Hin.
    { rewrite <- Hperm. by eapply subseteq_take. }
    split; [done|].
    by eapply (sublist_subseteq _ _ (filterRows_sublist _ _)).
  - intros Hfit. rewrite take_ge; [done|].
    unfold sortRows. rewrite sort_length. done.
Qed.

Lemma keepRow_no_filter (row : TrendRow) :
  keepRow None "" "" "" "" "" "" row = true.
Proof. done. Qed.

(** X5: a filter that is absent, empty or all white space, and a snapshot
    date that does not parse, restrict nothing: with such criteria every
    row of the dataset is matched. *)
Theorem X5_blank_filters_match_every_row (filters : AirfareTrendFilters) (rs : list TrendRow) :
  parseIsoDate (snapshotDate filters) = None ->
  trim (default "" (routeContains filters)) = "" ->
  trim (default "" (originAirport filters)) = "" ->
  trim (default "" (destinationAirport filters)) = "" ->
  trim (default "" (airlineContains filters)) = "" ->
  trim (default "" (seasonContains filters)) = "" ->
  trim (default "" (notableContains filters)) = "" ->
  filterRows filters rs = rs.
Proof.
  intros Hd Hr Ho Hde Ha Hs Hn. unfold filterRows, normalizeFilter.
  rewrite Hd, Hr, Ho, Hde, Ha, Hs, Hn. cbn [fmap option_fmap option_map toLowerCase].
  induction rs as [|r rs IH]; [done|].
  cbn [List.filter]. rewrite keepRow_no_filter. by rewrite IH.
Qed.

Lemma toLowerCase_idempotent (s : string) :
  toLowerCase (toLowerCase s) = toLowerCase s.
Proof.
  induction s as [|c s IH]; [done|]. cbn [toLowerCase]. rewrite IH. f_equal.
  by destruct c as [[] [] [] [] [] [] [] []].
Qed.

Lemma isWhitespace_lowerChar (c : ascii) :
  isWhitespace (lowerChar c) = isWhitespace c.
Proof. by destruct c as [[] [] [] [] [] [] [] []]. Qed.

Lemma toLowerCase_append (s t : string) :
  toLowerCase (s +:+ t) = toLowerCase s +:+ toLowerCase t.
Proof.
  induction s as [|c s IH]; [done|].
  rewrite app_cons. cbn [toLowerCase]. by rewrite IH, app_cons.
Qed.

Lemma toLowerCase_rev (s : string) :
  toLowerCase (String.rev s) = String.rev (toLowerCase s).
Proof.
  induction s as [|c s IH]; [done|].
  cbn [toLowerCase]. by rewrite !rev_cons, toLowerCase_append, IH.
Qed.

Lemma toLowerCase_trimStart (s : string) :
  toLowerCase (trimStart s) = trimStart (toLowerCase s).
Proof.
  induction s as [|c s IH]; [done|].
  cbn [toLowerCase trimStart]. rewrite isWhitespace_lowerChar.
  by destruct (isWhitespace c).
Qed.

Lemma toLowerCase_trim (s : string) :
  toLowerCase (trim s) = trim (toLowerCase s).
Proof.
  unfold trim, trimEnd.
  by rewrite toLowerCase_rev, toLowerCase_trimStart, toLowerCase_rev,
    toLowerCase_trimStart.
Qed.

Lemma nonEmpty_toLowerCase (s : string) :
  nonEmpty (toLowerCase s) = nonEmpty s.
Proof. by destruct s. Qed.

Lemma keepRow_origin_only (o : string) (r : TrendRow) :
  nonEmpty o = true ->
  keepRow None "" o "" "" "" "" r
  = String.eqb (toLowerCase (String_ (r !! "origin_airport" ?? emptyLit))) o.
Proof.
  intros Ho. unfold keepRow. cbn [truthy andb].
  change (nonEmpty "") with false. rewrite Ho. cbn [andb].
  by destruct (String.eqb _ _).
Qed.

Lemma filterRows_onlyOrigin (origin : string) (rs : list TrendRow) :
  nonEmpty (trim origin) = true ->
  filterRows (Shape.onlyOrigin origin) rs
  = List.filter
      (fun row =>
         String.eqb
           (toLowerCase (String_ (row !! "origin_airport" ?? emptyLit)))
           (toLowerCase (trim origin)))
      rs.
Proof.
  intros Hne.
  assert (nonEmpty (toLowerCase (trim origin)) = true) as Hlow
    by (by rewrite nonEmpty_toLowerCase).
  unfold filterRows, Shape.onlyOrigin, normalizeFilter.
  cbn [snapshotDate routeContains originAirport destinationAirport
       airlineContains seasonContains notableContains default parseIsoDate
       fmap option_fmap option_map].
  change (toLowerCase (trim "")) with "".
  induction rs as [|r rs IH]; [done|]. cbn [List.filter].
  by rewrite IH, keepRow_origin_only.
Qed.

(** X6: with the origin filter alone, a row is matched exactly when its
    [origin_airport], lower-cased, is the trimmed and lower-cased filter
    value; a row without [origin_airport] is never matched, and the
    letter case of the filter value does not matter. *)
Theorem X6_origin_filter_is_exact_and_ignores_case (origin : string) (rs : list TrendRow) :
  nonEmpty (trim origin) = true ->
  filterRows (Shape.onlyOrigin origin) rs
    = List.filter
        (fun row =>
           String.eqb
             (toLowerCase (String_ (row !! "origin_airport" ?? emptyLit)))
             (toLowerCase (trim origin)))
        rs /\
  Forall (fun row => is_Some (row !! "origin_airport"))
         (filterRows (Shape.onlyOrigin origin) rs) /\
  filterRows (Shape.onlyOrigin (toLowerCase origin)) rs
    = filterRows (Shape.onlyOrigin origin) rs.
Proof.
  intros Hne.
  split; [by apply filterRows_onlyOrigin|]. split.
  - rewrite filterRows_onlyOrigin by done.
    apply Forall_forall. intros row Hrow.
    apply list_elem_of_In, filter_In in Hrow as [_ Hrow].
    destruct (row !! "origin_airport") as [v|] eqn:Hv; [by eexists|].
    rewrite <- nonEmpty_toLowerCase in Hne.
    cbn in Hrow. by destruct (toLowerCase (trim origin)).
  - rewrite !filterRows_onlyOrigin;
      rewrite <- ?toLowerCase_trim, ?nonEmpty_toLowerCase; [|done..].
    by rewrite toLowerCase_idempotent.
Qed.

End ResultFacts.

(** ** More of the row *)

Section RowColumns.

Context `{Host}.
Import Trends JsString.

Ltac not_in := by apply (bool_decide_unpack _); vm_compute.

(** X7: when the trimmed [notable_driver] of a raw record is not empty,
    the row holds it under [notable_driver] and under [notable_event],
    whatever the other aliases say; when it is empty the row has no
    [notable_driver], and [notable_event] is the trimmed text of the first
    of [notable_driver], [notable_event], [notes], [channel_checks],
    [processing_notes] that is present, so a driver that is present and
    blank leaves [notable_event] empty. *)
Theorem X7_notable_driver_overrides_notable_event (raw : RawRecord) (sourceFile sourceFormat : string) :
  (nonEmpty (Spec.presentText raw ["notable_driver"]) = true ->
   buildRow raw sourceFile sourceFormat !! "notable_driver"
     = Some (JStr (Spec.presentText raw ["notable_driver"])) /\
   buildRow raw sourceFile sourceFormat !! "notable_event"
     = Some (JStr (Spec.presentText raw ["notable_driver"]))) /\
  (nonEmpty (Spec.presentText raw ["notable_driver"]) = false ->
   buildRow raw sourceFile sourceFormat !! "notable_driver" = None /\
   buildRow raw sourceFile sourceFormat !! "notable_event"
     = Some (JStr (Spec.presentText raw
                     ["notable_driver"; "notable_event"; "notes";
                      "channel_checks"; "processing_notes"]))) /\
  (forall v, raw !! "notable_driver" = Some (JStr v) -> trim v = "" ->
     buildRow raw sourceFile sourceFormat !! "notable_event"
       = Some (JStr "")).
Proof.
  destruct (buildRow_notable raw sourceFile sourceFormat) as [Hyes Hno].
  split; [exact Hyes|]. split; [exact Hno|].
  intros v Hv Hblank.
  assert (Spec.presentText raw ["notable_driver"] = "") as Hd.
  { unfold Spec.presentText. cbn [Spec.firstPresent]. rewrite Hv.
    change (ToString (JStr v)) with v. exact Hblank. }
  destruct Hno as [_ ->]; [by rewrite Hd|].
  unfold Spec.presentText. cbn [Spec.firstPresent]. rewrite Hv.
  change (ToString (JStr v)) with v. by rewrite Hblank.
Qed.

Lemma coerceFloat_finite (v : option Json) (n : number) :
  coerceFloat v = Some n -> isFinite n = true /\ isBlank v = false.
Proof.
  unfold coerceFloat. destruct (isBlank v); [done|].
  destruct (isFinite _) eqn:Hf; [|done]. by intros [= <-].
Qed.

Lemma coerceInt_finite (v : option Json) (n : number) :
  coerceInt v = Some n -> isFinite n = true /\ isBlank v = false.
Proof.
  unfold coerceInt. destruct (isBlank v); [done|].
  destruct (isFinite _) eqn:Hf; [|done]. by intros [= <-].
Qed.

Lemma lookup_setField_fresh (key : string) (v : option Json) (row : TrendRow) :
  row !! key = None -> setField key v row !! key = v.
Proof.
  intros Hrow. destruct v as [x|]; cbn [setField]; [|done].
  apply lookup_insert_eq.
Qed.

Lemma before_fares (raw : RawRecord) (sf fmt k : string) :
  k ∈ ["avg_fare_usd"; "premium_fare_usd"; "fare_yoy_pct";
       "advance_purchase_days"; "load_factor_pct"; "ancillary_revenue_pct"] ->
  setNonEmpty "season" (Some (chainText (raw !! "season")))
    (setNonEmpty "airline" (Some (chainText (raw !! "airline")))
       (setRoute (chainText (raw !! "route"))
          (copyOptionalKeys raw (initialRow raw sf fmt)))) !! k = None.
Proof.
  intros Hk.
  rewrite !lookup_setNonEmpty_ne by set_solver.
  rewrite lookup_setRoute, lookup_copyOptionalKeys by set_solver.
  apply lookup_initialRow_other. set_solver.
Qed.

Ltac fare_column :=
  unfold buildRow; cbv zeta;
  rewrite lookup_setNotableDriver by set_solver;
  unfold setFares;
  rewrite ?lookup_setField_ne by done;
  rewrite lookup_setField_fresh; [done|];
  rewrite ?lookup_setField_ne by done;
  apply before_fares; set_solver.

Lemma buildRow_fares (raw : RawRecord) (sf fmt : string) :
  Forall (fun k => buildRow raw sf fmt !! k = JNum <$> coerceFloat (raw !! k))
    ["avg_fare_usd"; "premium_fare_usd"; "fare_yoy_pct"; "load_factor_pct";
     "ancillary_revenue_pct"] /\
  buildRow raw sf fmt !! "advance_purchase_days"
    = JNum <$> coerceInt (raw !! "advance_purchase_days").
Proof.
  split; [repeat constructor|]; fare_column.
Qed.

Lemma buildRow_indices (raw : RawRecord) (sf fmt : string) :
  buildRow raw sf fmt !! "search_index"
    = JNum <$> coerceInt (raw !! "search_index" ?? raw !! "index"
                            ?? raw !! "score") /\
  buildRow raw sf fmt !! "branding_mix"
    = JNum <$> coerceFloat (raw !! "branding_mix" ?? raw !! "mix_share"
                              ?? raw !! "implied_unit_sales_impact"
                              ?? raw !! "metric").
Proof.
  split; rewrite buildRow_lookup_initial by not_in;
    unfold initialRow; cbn [fold_left fst snd];
    rewrite ?lookup_setField_ne by done;
    (rewrite lookup_setField_fresh; [done|]);
    rewrite ?lookup_setField_ne by done; apply lookup_empty.
Qed.

(** X8: the six fare columns of a row are read from the raw field of the
    same name and nowhere else: a column is present exactly when that
    field is neither absent, null nor the empty string and the platform's
    parser gives a finite number for its text, and it then holds that
    number; [search_index] and [branding_mix] are read the same way from
    the first of their aliases that is present. No numeric column ever
    holds NaN or an infinity. *)
Theorem X8_numeric_columns_hold_finite_numbers_or_are_left_out
    (raw : RawRecord) (sourceFile sourceFormat : string) :
  let row := buildRow raw sourceFile sourceFormat in
  Forall (fun k => row !! k = JNum <$> coerceFloat (raw !! k))
    ["avg_fare_usd"; "premium_fare_usd"; "fare_yoy_pct"; "load_factor_pct";
     "ancillary_revenue_pct"] /\
  row !! "advance_purchase_days"
    = JNum <$> coerceInt (raw !! "advance_purchase_days") /\
  row !! "search_index"
    = JNum <$> coerceInt (raw !! "search_index" ?? raw !! "index"
                            ?? raw !! "score") /\
  row !! "branding_mix"
    = JNum <$> coerceFloat (raw !! "branding_mix" ?? raw !! "mix_share"
                              ?? raw !! "implied_unit_sales_impact"
                              ?? raw !! "metric") /\
  Forall (fun k =>
            (isBlank (raw !! k) = true -> row !! k = None) /\
            (forall v, row !! k = Some v ->
               exists n, v = JNum n /\ isFinite n = true))
    ["avg_fare_usd"; "premium_fare_usd"; "fare_yoy_pct";
     "advance_purchase_days"; "load_factor_pct"; "ancillary_revenue_pct"] /\
  Forall (fun k =>
            forall v, row !! k = Some v ->
              exists n, v = JNum n /\ isFinite n = true)
    ["search_index"; "branding_mix"].
Proof.
  intros row. subst row.
  destruct (buildRow_fares raw sourceFile sourceFormat) as [Hf Hi].
  destruct (buildRow_indices raw sourceFile sourceFormat) as [Hs Hb].
  assert (forall v x, JNum <$> coerceFloat v = Some x ->
            exists n, x = JNum n /\ isFinite n = true) as Hfl.
  { intros v x Hx. destruct (coerceFloat v) as [n|] eqn:Hn; [|done].
    injection Hx as <-. exists n. split; [done|].
    by apply (coerceFloat_finite v). }
  assert (forall v x, JNum <$> coerceInt v = Some x ->
            exists n, x = JNum n /\ isFinite n = true) as Hin.
  { intros v x Hx. destruct (coerceInt v) as [n|] eqn:Hn; [|done].
    injection Hx as <-. exists n. split; [done|].
    by apply (coerceInt_finite v). }
  assert (forall v, isBlank v = true -> JNum <$> coerceFloat v = None) as Hbf
    by (intros v Hv; unfold coerceFloat; by rewrite Hv).
  assert (forall v, isBlank v = true -> JNum <$> coerceInt v = None) as Hbi
    by (intros v Hv; unfold coerceInt; by rewrite Hv).
  split; [exact Hf|]. split; [exact Hi|]. split; [exact Hs|].
  split; [exact Hb|].
  rewrite !Forall_cons in Hf. destruct Hf as (H1 & H2 & H3 & H4 & H5 & _).
  split; repeat apply Forall_cons_2; try apply Forall_nil_2;
    rewrite ?H1, ?H2, ?H3, ?H4, ?H5, ?Hi, ?Hs, ?Hb; eauto.
Qed.

Lemma lookup_copyOptionalKeys_go (raw : RawRecord) (keys : list string)
    (k : string) (r : TrendRow) :
  k ∈ keys ->
  fold_left
    (fun row key =>
       let value := raw !! key in
       if isBlank value then row else setField key value row) keys r !! k
  = if isBlank (raw !! k) then r !! k else raw !! k.
Proof.
  revert r. induction keys as [|key keys IH]; intros r Hk; [set_solver|].
  cbn [fold_left]. cbv zeta.
  destruct (decide (k ∈ keys)) as [Hin|Hout].
  - rewrite IH by done. destruct (isBlank (raw !! k)) eqn:Hb; [|done].
    destruct (isBlank (raw !! key)) eqn:Hb'; [done|].
    rewrite lookup_setField_ne; [done|]. intros ->. congruence.
  - assert (k = key) as -> by set_solver.
    assert (forall r', fold_left
      (fun row key0 => let value := raw !! key0 in
         if isBlank value then row else setField key0 value row) keys r' !! key
      = r' !! key) as ->.
    { clear -Hout. induction keys as [|k' keys IH]; intros r'; [done|].
      cbn [fold_left]. cbv zeta. rewrite IH by set_solver.
      destruct (isBlank (raw !! k')); [done|].
      apply lookup_setField_ne. set_solver. }
    destruct (isBlank (raw !! key)) eqn:Hb; [done|].
    destruct (raw !! key) as [v|] eqn:Hv; [|done].
    cbn [setField]. apply lookup_insert_eq.
Qed.

(** X9: each of the pass-through columns [linked_tickers], [provider],
    [collection_window], [query_count] and [week_id] is copied from the raw
    field of the same name as it is (whatever kind of value it is, not
    trimmed, not converted), and is left out of the row when the raw
    field is absent, null or the empty string. *)
Theorem X9_optional_columns_are_copied_verbatim_or_left_out
    (raw : RawRecord) (sourceFile sourceFormat : string) :
  Forall (fun k =>
            buildRow raw sourceFile sourceFormat !! k
            = if isBlank (raw !! k) then None else raw !! k)
    OPTIONAL_COPY_KEYS.
Proof.
  apply Forall_forall. intros k Hk.
  unfold buildRow. cbv zeta.
  pose proof Hk as Hk'.
  rewrite lookup_setNotableDriver, lookup_setFares
    by (unfold OPTIONAL_COPY_KEYS in Hk'; set_solver).
  rewrite !lookup_setNonEmpty_ne
    by (unfold OPTIONAL_COPY_KEYS in Hk'; set_solver).
  rewrite lookup_setRoute by (unfold OPTIONAL_COPY_KEYS in Hk'; set_solver).
  unfold copyOptionalKeys. rewrite lookup_copyOptionalKeys_go by done.
  destruct (isBlank (raw !! k)); [|done].
  apply lookup_initialRow_other. unfold OPTIONAL_COPY_KEYS in Hk'. set_solver.
Qed.

End RowColumns.

(** ** Tabular files *)

Section TabularFiles.

Context `{Host}.
Import Trends JsString.

Lemma includes_nonEmpty (s d : string) :
  nonEmpty d = true -> includes s d = true -> nonEmpty s = true.
Proof. by destruct s, d. Qed.

Lemma headerCandidate_truthy (d line header : string) :
  nonEmpty d = true ->
  Shape.headerCandidate d line = Some header -> truthy (Some header) = true.
Proof.
  intros Hd. unfold Shape.headerCandidate.
  destruct (nonEmpty (trim line) && startsWith (trim line) "#"); [|done].
  cbn [andb]. destruct (includes _ d) eqn:Hi; [|done].
  intros [= <-]. cbn [truthy]. by apply (includes_nonEmpty _ d).
Qed.

(** The loop over the lines: the header is the first comment that holds
    the delimiter, the data lines are kept as they are and in order. *)
Lemma scan_lines (d : string) (lines : list string) (h : option string)
    (acc : list string) :
  nonEmpty d = true ->
  h = None \/ truthy h = true ->
  fold_left (scanLine d) lines (h, acc)
  = (if truthy h then h else Shape.firstHeader d lines,
     acc ++ List.filter Shape.isDataLine lines).
Proof.
  intros Hd. revert h acc.
  induction lines as [|line lines IH]; intros h acc Hh.
  - cbn [fold_left List.filter Shape.firstHeader]. rewrite app_nil_r.
    destruct Hh as [Hh|Hh]; by rewrite Hh.
  - cbn [fold_left List.filter Shape.firstHeader].
    unfold scanLine at 2, Shape.isDataLine at 1, Shape.headerCandidate at 1.
    destruct (nonEmpty (trim line)); cbn [negb andb]; [|by rewrite IH].
    destruct (startsWith (trim line) "#"); cbn [negb andb].
    + destruct Hh as [Hh|Hh].
      * rewrite Hh. cbn [truthy negb andb].
        destruct (includes (trim (slice1 (trim line))) d) eqn:Hi;
          [|by rewrite IH; auto].
        rewrite IH by (right; by apply (includes_nonEmpty _ d)).
        cbn [truthy]. by rewrite (includes_nonEmpty _ d Hd Hi).
      * rewrite Hh. cbn [negb andb]. rewrite IH by auto. by rewrite Hh.
    + rewrite IH by done. by rewrite <- app_assoc.
Qed.

(** X10: what a tabular file hands to the CSV parser. The data lines
    are the lines that are neither blank nor comments (a line whose first
    character after white space is [#]), untouched and in order. With no
    data line the file gives no rows and the parser is not consulted.
    Otherwise the parser receives the data lines joined by line feeds,
    preceded by the text of the first comment line that holds the
    delimiter (without its [#], trimmed), if there is one; wherever that
    comment stands in the file, and the records it returns are built
    into rows one by one. *)
Theorem X10_tabular_header_is_recovered_from_the_first_comment
    (dir : Directory) (fileName delimiter content : string) :
  nonEmpty delimiter = true ->
  readFile dir fileName = Some content ->
  loadTabularRows dir fileName delimiter
  = match List.filter Shape.isDataLine (splitLines content) with
    | [] => Some []
    | dataLines =>
        List.map
          (fun record =>
             buildRow record fileName
               (if String.eqb delimiter tab then "tsv" else "csv"))
        <$> parseCsv
              (match Shape.firstHeader delimiter (splitLines content) with
               | Some header => header +:+ newline
               | None => ""
               end +:+ join newline dataLines)
              delimiter
    end.
Proof.
  intros Hd Hread. unfold loadTabularRows. rewrite Hread. cbn [mbind option_bind].
  rewrite scan_lines by auto. cbn [truthy app].
  destruct (List.filter Shape.isDataLine (splitLines content)) as [|l ls] eqn:Hdata;
    [done|].
  cbn [length Nat.eqb].
  destruct (Shape.firstHeader delimiter (splitLines content)) as [header|] eqn:Hh.
  - assert (truthy (Some header) = true) as ->.
    { clear -Hh Hd. induction (splitLines content) as [|line lines IH]; [done|].
      cbn [Shape.firstHeader] in Hh.
      destruct (Shape.headerCandidate delimiter line) eqn:Hc; [|auto].
      injection Hh as ->. by apply (headerCandidate_truthy delimiter line). }
    cbn [default]. by destruct (parseCsv _ _).
  - cbn [truthy]. by destruct (parseCsv _ _).
Qed.

End TabularFiles.

(** ** JSON files *)

Section JsonFiles.

Context `{Host}.
Import Trends JsString.

(** A loop whose body throws on some elements: it returns the results
    of all, or throws. *)
Lemma mapM_checked {A B : Type} (throws : A -> bool) (g : A -> B) (l : list A) :
  mapM (fun x => if throws x then None else Some (g x)) l
  = if existsb throws l then None else Some (List.map g l).
Proof.
  induction l as [|x l IH]; [done|].
  cbn [mapM existsb List.map]. rewrite IH.
  destruct (throws x); [done|]. cbn [orb mbind option_bind].
  by destruct (existsb throws l).
Qed.

Lemma ingestEntries_checked (f : string) (items : list Json)
    (defaults : RawRecord) :
  ingestEntries f items defaults
  = if existsb buildRowThrows
         ((fun entry => asRecord entry ∪ defaults)
            <$> List.filter isObjectLike items)
    then None
    else Some (List.map (fun merged => buildRow merged f "json")
                 ((fun entry => asRecord entry ∪ defaults)
                    <$> List.filter isObjectLike items)).
Proof.
  unfold ingestEntries, ingest. cbv zeta.
  rewrite (mapM_checked (fun entry => buildRowThrows (asRecord entry ∪ defaults))
             (fun entry => buildRow (asRecord entry ∪ defaults) f "json")).
  generalize (List.filter isObjectLike items) as l.
  induction l as [|x l IH]; [done|].
  cbn [existsb fmap list_fmap List.map].
  destruct (buildRowThrows (asRecord x ∪ defaults)); [done|]. cbn [orb].
  destruct (existsb _ l), (existsb _ (_ <$> l)); try done.
  by injection IH as ->.
Qed.

(** The values [String] is given are values of the record. *)
Lemma throwsOn_coalesce (a b : option Json) :
  throwsOn a = false -> throwsOn b = false -> throwsOn (a ?? b) = false.
Proof. unfold coalesce. by destruct (nullish a). Qed.

Lemma plain_stringThrows : forall v, Shape.plain v = true -> stringThrows v = false.
Proof.
  fix IH 1. intros [| | | |items|fields]; try done.
  - cbn [Shape.plain stringThrows].
    induction items as [|x items IHitems]; [done|].
    cbn [forallb existsb]. intros [Hx Hitems]%andb_prop.
    by rewrite (IH x Hx), IHitems.
  - cbn [Shape.plain stringThrows]. intros [Hk _]%andb_prop.
    by apply negb_true_iff in Hk.
Qed.

Lemma plainRecord_no_throw (raw : RawRecord) :
  Shape.plainRecord raw -> buildRowThrows raw = false.
Proof.
  intros Hraw.
  assert (forall k, throwsOn (raw !! k) = false) as Hs.
  { intros k. destruct (raw !! k) as [x|] eqn:Hx; [|done].
    apply plain_stringThrows. by apply (Hraw k). }
  unfold buildRowThrows. cbv zeta.
  repeat match goal with
         | |- context [throwsOn ?v] =>
             replace (throwsOn v) with false
               by (symmetry;
                   repeat first [apply Hs | apply throwsOn_coalesce | reflexivity])
         end.
  by rewrite ?andb_false_r.
Qed.


Lemma objectRecord_lookup_In (fields : list (string * Json)) (k : string)
    (x : Json) :
  objectRecord fields !! k = Some x -> In (k, x) fields.
Proof.
  unfold objectRecord.
  assert (forall acc : RawRecord,
            fold_left (fun m kv => <[kv.1 := kv.2]> m) fields acc !! k = Some x ->
            In (k, x) fields \/ acc !! k = Some x) as Hfold.
  { induction fields as [|[k' v'] fields IH]; intros acc Hx; [by right|].
    cbn [fold_left fst snd] in Hx. apply IH in Hx as [Hin|Hx]; [left; by right|].
    rewrite lookup_insert in Hx. case_decide as Hk; [|by right].
    left. left. injection Hx as <-. by rewrite Hk. }
  intros Hx. by apply Hfold in Hx as [Hin|Hx].
Qed.

Lemma plain_elements (items : list Json) (x : Json) :
  forallb Shape.plain items = true -> x ∈ items -> Shape.plain x = true.
Proof.
  intros Hall Hx. rewrite forallb_forall in Hall.
  by apply Hall, list_elem_of_In.
Qed.

Lemma plain_entries (regions : Json) (k : string) (x : Json) :
  Shape.plain regions = true -> In (k, x) (entriesOf regions) ->
  Shape.plain x = true.
Proof.
  destruct regions as [| | | |items|fields]; try done; cbn [Shape.plain entriesOf].
  - intros Hall Hin. apply list_elem_of_In, elem_of_lookup_imap in Hin
      as (i & y & [= _ ->] & Hy).
    apply (plain_elements items); [done|]. by eapply list_elem_of_lookup_2.
  - intros [_ Hall]%andb_prop Hin. rewrite forallb_forall in Hall.
    by apply Hall in Hin.
Qed.

Lemma plainRecord_asRecord (v : Json) :
  Shape.plain v = true -> Shape.plainRecord (asRecord v).
Proof.
  intros Hv k x Hx. apply (plain_entries v k); [done|].
  destruct v as [| | | |items|fields]; try done;
    by apply objectRecord_lookup_In in Hx.
Qed.

Lemma plainRecord_union (a b : RawRecord) :
  Shape.plainRecord a -> Shape.plainRecord b -> Shape.plainRecord (a ∪ b).
Proof.
  intros Ha Hb k x Hx. apply lookup_union_Some_raw in Hx as [Hx|[_ Hx]].
  - by apply (Ha k).
  - by apply (Hb k).
Qed.

Lemma plainRecord_empty : Shape.plainRecord ∅.
Proof. intros k x Hx. by rewrite lookup_empty in Hx. Qed.

Lemma plainRecord_regionDefaults (n : string) (w c : option Json) :
  (forall x, w = Some x -> Shape.plain x = true) ->
  (forall x, c = Some x -> Shape.plain x = true) ->
  Shape.plainRecord (Shape.regionDefaults n w c).
Proof.
  intros Hw Hc k x. unfold Shape.regionDefaults.
  destruct c as [xc|], w as [xw|]; cbn [setField];
    rewrite ?lookup_insert; repeat case_decide;
    rewrite ?lookup_empty; try done; intros [= <-]; auto.
Qed.

Lemma ingest_plain (f : string) (data defaults : RawRecord) :
  Shape.plainRecord data -> Shape.plainRecord defaults ->
  is_Some (ingest f data defaults).
Proof.
  intros Hdata Hdefaults. unfold ingest. cbv zeta.
  rewrite plainRecord_no_throw by (by apply plainRecord_union). by eexists.
Qed.

Lemma ingestEntries_plain (f : string) (items : list Json)
    (defaults : RawRecord) :
  forallb Shape.plain items = true -> Shape.plainRecord defaults ->
  is_Some (ingestEntries f items defaults).
Proof.
  intros Hitems Hdefaults. unfold ingestEntries.
  apply mapM_is_Some, Forall_forall. intros entry Hentry.
  apply list_elem_of_In, filter_In in Hentry as [Hentry _].
  unfold compose.
  apply (ingest_plain f (asRecord entry) defaults); [|done].
  apply plainRecord_asRecord, (plain_elements items); [done|].
  by apply list_elem_of_In.
Qed.

Lemma is_Some_singleton {A : Type} (m : option A) :
  is_Some m -> is_Some (x ← m; Some [x]).
Proof. intros [x ->]. by eexists. Qed.

Lemma ingest_alone (f : string) (data : RawRecord) :
  (row ← ingest f data ∅; Some [row])
  = if buildRowThrows data then None else Some [buildRow data f "json"].
Proof.
  unfold ingest. cbv zeta. rewrite (right_id_L ∅ (∪)).
  by destruct (buildRowThrows data).
Qed.

Lemma ingestEntries_alone (f : string) (items : list Json) :
  ingestEntries f items ∅
  = if existsb (fun entry => buildRowThrows (asRecord entry))
         (List.filter isObjectLike items)
    then None
    else Some (List.map (fun entry => buildRow (asRecord entry) f "json")
                        (List.filter isObjectLike items)).
Proof.
  unfold ingestEntries, ingest. cbv zeta.
  rewrite <- (mapM_checked (fun entry => buildRowThrows (asRecord entry))
                (fun entry => buildRow (asRecord entry) f "json")).
  apply mapM_ext. intros entry. by rewrite (right_id_L ∅ (∪)).
Qed.

(** The loop over the regions. *)
Lemma region_rows (f : string) (fields : list (string * Json))
    (entries : list (string * Json)) :
  (rowsOfRegions ←
     mapM
       (fun '(regionName, regionPayload) =>
          if negb (isObjectLike regionPayload) then Some []
          else
            let defaults : RawRecord :=
              setField "channel_checks"
                (asRecord regionPayload !! "channel_checks")
                (setField "week" (objectRecord fields !! "week")
                   (<["region" := JStr regionName]> ∅)) in
            match asRecord regionPayload !! "top_queries" with
            | Some (JArr topQueries) => ingestEntries f topQueries defaults
            | _ =>
                row ← ingest f (asRecord regionPayload) defaults;
                Some [row]
            end)
       entries;
   Some (concat rowsOfRegions))
  = let records :=
      flat_map
        (fun '(regionName, regionPayload) =>
           if isObjectLike regionPayload then
             (fun data =>
                data ∪ Shape.regionDefaults regionName
                         (objectRecord fields !! "week")
                         (asRecord regionPayload !! "channel_checks"))
             <$> Shape.regionEntries regionPayload
           else [])
        entries in
    if existsb buildRowThrows records then None
    else Some (List.map (fun merged => buildRow merged f "json") records).
Proof.
  cbv zeta. induction entries as [|[regionName regionPayload] entries IH];
    [done|].
  cbn [mapM flat_map]. rewrite existsb_app, map_app.
  set (rest := mapM _ entries) in *.
  set (defaults := setField "channel_checks" _ _).
  fold (Shape.regionDefaults regionName (objectRecord fields !! "week")
          (asRecord regionPayload !! "channel_checks")) in defaults.
  assert ((if negb (isObjectLike regionPayload) then Some []
           else match asRecord regionPayload !! "top_queries" with
                | Some (JArr topQueries) => ingestEntries f topQueries defaults
                | _ => row ← ingest f (asRecord regionPayload) defaults;
                       Some [row]
                end)
          = let records :=
              if isObjectLike regionPayload then
                (fun data => data ∪ defaults)
                <$> Shape.regionEntries regionPayload
              else [] in
            if existsb buildRowThrows records then None
            else Some (List.map (fun merged => buildRow merged f "json")
                                records)) as ->.
  { cbv zeta. destruct (isObjectLike regionPayload); cbn [negb]; [|done].
    unfold Shape.regionEntries.
    destruct (asRecord regionPayload !! "top_queries")
      as [[| | | |topQueries|]|];
      try (unfold ingest; cbv zeta; cbn [fmap list_fmap existsb List.map];
           rewrite orb_false_r;
           by destruct (buildRowThrows (asRecord regionPayload ∪ defaults))).
    rewrite ingestEntries_checked.
    assert ((fun data => data ∪ defaults)
              <$> (asRecord <$> List.filter isObjectLike topQueries)
            = (fun entry => asRecord entry ∪ defaults)
                <$> List.filter isObjectLike topQueries) as ->; [|done].
    generalize (List.filter isObjectLike topQueries) as l.
    induction l as [|x l IHl]; [done|]. cbn [fmap list_fmap]. by f_equal. }
  cbv zeta. subst defaults.
  destruct (existsb buildRowThrows
              (if isObjectLike regionPayload then _ else []));
    cbn [orb mbind option_bind]; [done|].
  destruct rest as [rowsOfRegions|]; cbn [mbind option_bind] in *.
  - destruct (existsb buildRowThrows _); [done|].
    injection IH as IH. by rewrite <- IH.
  - by destruct (existsb buildRowThrows _).
Qed.

(** X11: reading a JSON file fails when the file cannot be read, when
    its text is not JSON, and when building a row throws, which happens
    only where [String] is given an object with a property named
    [toString] (or an array holding one); a document in which no object
    has such a property always loads, whatever its shape. A string, a
    number, a boolean or [null] gives no rows; an array gives one row for
    each of its entries that is an object or an array, in order, built
    from that entry alone, the other entries being skipped; an object
    without a [regions] property that is an object or an array gives
    exactly one row, built from the object itself. *)
Theorem X11_json_load_fails_only_on_read_parse_or_text_conversion
    (dir : Directory) (fileName : string) :
  (is_Some (loadJsonRows dir fileName) ->
   exists content, readFile dir fileName = Some content
                   /\ is_Some (jsonParse content)) /\
  (forall content payload,
     readFile dir fileName = Some content ->
     jsonParse content = Some payload ->
     Shape.plain payload = true ->
     is_Some (loadJsonRows dir fileName)) /\
  (forall content payload,
     readFile dir fileName = Some content ->
     jsonParse content = Some payload ->
     match payload with
     | JArr items =>
         loadJsonRows dir fileName
         = if existsb (fun entry => buildRowThrows (asRecord entry))
                (List.filter isObjectLike items)
           then None
           else Some (List.map
                        (fun entry => buildRow (asRecord entry) fileName "json")
                        (List.filter isObjectLike items))
     | JObj fields =>
         match objectRecord fields !! "regions" with
         | Some (JArr _) | Some (JObj _) => True
         | _ =>
             loadJsonRows dir fileName
             = if buildRowThrows (objectRecord fields) then None
               else Some [buildRow (objectRecord fields) fileName "json"]
         end
     | _ => loadJsonRows dir fileName = Some []
     end).
Proof.
  split; [|split].
  - unfold loadJsonRows.
    destruct (readFile dir fileName) as [content|]; [|by intros [? ?]].
    cbn [mbind option_bind].
    destruct (jsonParse content) as [payload|] eqn:Hp; [|by intros [? ?]].
    intros _. exists content. by rewrite Hp.
  - intros content payload Hread Hparse Hplain. unfold loadJsonRows.
    rewrite Hread. cbn [mbind option_bind]. rewrite Hparse.
    cbn [mbind option_bind].
    destruct payload as [| | | |items|fields]; try by eexists.
    + apply ingestEntries_plain; [done|apply plainRecord_empty].
    + pose proof (plainRecord_asRecord _ Hplain) as Hrecord.
      assert (is_Some (row ← ingest fileName (asRecord (JObj fields)) ∅;
                       Some [row])) as Hone
        by (apply is_Some_singleton, ingest_plain;
            [done|apply plainRecord_empty]).
      destruct (asRecord (JObj fields) !! "regions") as [regions|] eqn:Hregions;
        [|exact Hone].
      destruct (isObjectLike regions); [|exact Hone].
      assert (Shape.plain regions = true) as Hr by (by apply (Hrecord "regions")).
      cbv zeta.
      match goal with
      | |- is_Some (?m ≫= _) =>
          assert (is_Some m) as [rowsOfRegions ->]; [|by eexists]
      end.
      apply mapM_is_Some, Forall_forall.
      intros [regionName regionPayload] Hentry.
      apply list_elem_of_In in Hentry. cbn.
      destruct (isObjectLike regionPayload); cbn [negb]; [|by eexists].
      assert (Shape.plain regionPayload = true) as Hp
        by (by apply (plain_entries regions regionName)).
      pose proof (plainRecord_asRecord _ Hp) as Hpayload.
      fold (Shape.regionDefaults regionName (asRecord (JObj fields) !! "week")
              (asRecord regionPayload !! "channel_checks")).
      assert (Shape.plainRecord
                (Shape.regionDefaults regionName
                   (asRecord (JObj fields) !! "week")
                   (asRecord regionPayload !! "channel_checks"))) as Hdefaults.
      { apply plainRecord_regionDefaults; intros x Hx.
        - by apply (Hrecord "week").
        - by apply (Hpayload "channel_checks"). }
      destruct (asRecord regionPayload !! "top_queries")
        as [[| | | |topQueries|]|] eqn:Htop;
        try (apply is_Some_singleton;
             by apply (ingest_plain fileName (asRecord regionPayload))).
      apply ingestEntries_plain; [|done].
      by apply (Hpayload "top_queries") in Htop.
  - intros content payload Hread Hparse. unfold loadJsonRows.
    rewrite Hread. cbn [mbind option_bind]. rewrite Hparse.
    cbn [mbind option_bind].
    destruct payload as [| | | |items|fields]; try done.
    + apply ingestEntries_alone.
    + cbn [asRecord].
      destruct (objectRecord fields !! "regions") as [[]|];
        cbn [isObjectLike]; by rewrite ?ingest_alone.
Qed.

Lemma lookup_regionDefaults_region (n : string) (w c : option Json) :
  Shape.regionDefaults n w c !! "region" = Some (JStr n).
Proof.
  unfold Shape.regionDefaults.
  rewrite !lookup_setField_ne by done. apply lookup_insert_eq.
Qed.

Lemma lookup_regionDefaults_week (n : string) (w c : option Json) :
  Shape.regionDefaults n w c !! "week" = w.
Proof.
  unfold Shape.regionDefaults.
  rewrite lookup_setField_ne by done.
  destruct w as [x|]; cbn [setField]; [apply lookup_insert_eq|].
  by rewrite lookup_insert_ne.
Qed.

Lemma lookup_regionDefaults_other (n k : string) (w c : option Json) :
  k ∉ ["region"; "week"; "channel_checks"] ->
  Shape.regionDefaults n w c !! k = None.
Proof.
  intros Hk. unfold Shape.regionDefaults.
  rewrite !lookup_setField_ne by set_solver.
  rewrite lookup_insert_ne by set_solver. apply lookup_empty.
Qed.

Lemma lookup_merged (data defaults : RawRecord) (k : string) :
  (data ∪ defaults) !! k
  = match data !! k with Some v => Some v | None => defaults !! k end.
Proof.
  rewrite lookup_union. destruct (data !! k), (defaults !! k); done.
Qed.

(** The region of a row built over a region's defaults. *)
Lemma merged_region (f n : string) (w c : option Json) (data : RawRecord) :
  buildRow (data ∪ Shape.regionDefaults n w c) f "json" !! "region"
  = Some (JStr (match data !! "region" with
                | None => trim n
                | Some _ =>
                    Spec.presentText data ["region"; "region_name"; "geo"]
                end)).
Proof.
  rewrite buildRow_region. do 2 f_equal.
  unfold Spec.presentText. cbn [Spec.firstPresent].
  rewrite !lookup_merged, lookup_regionDefaults_region.
  rewrite !lookup_regionDefaults_other by set_solver.
  destruct (data !! "region") as [[]|]; try done;
    destruct (data !! "region_name") as [[]|]; try done;
    destruct (data !! "geo") as [[]|]; done.
Qed.

(** The date of a row built over a region's defaults, when the entry
    itself has none. *)
Lemma merged_week (f n w : string) (c : option Json) (data : RawRecord) :
  data !! "snapshot_date" = None -> data !! "date" = None ->
  data !! "week" = None ->
  buildRow (data ∪ Shape.regionDefaults n (Some (JStr w)) c) f "json" !! "date"
  = Some (JStr (trim w)).
Proof.
  intros Hs Hd Hw.
  rewrite buildRow_lookup_initial by (by apply (bool_decide_unpack _); vm_compute).
  rewrite lookup_initialRow_date. do 2 f_equal.
  unfold dateValue, snapshotDateValue.
  rewrite !lookup_merged, Hs, Hd, Hw, lookup_regionDefaults_week.
  rewrite !lookup_regionDefaults_other by set_solver.
  done.
Qed.

(** X12: in a document with [regions], the rows are built, in order,
    from the entries of each region that is an object or an array (the
    object-like entries of its [top_queries] when that is an array, else
    the region itself), each merged over that region's defaults (its name
    as [region], the document's [week], the region's [channel_checks]),
    the entry's own properties winning; the load fails when one of
    these records makes [buildRow] throw. For every entry so merged, the
    row's [region] is the trimmed region name when the entry has no
    [region] property; when it has one, even [null], the region name is
    not used and the row's region is the trimmed first of the entry's
    [region], [region_name], [geo] that is present. An entry without
    [snapshot_date], [date] and [week] takes the document's [week] as its
    [date]. *)
Theorem X12_region_rows_are_the_entries_over_the_region_defaults
    (dir : Directory) (fileName content : string)
    (fields : list (string * Json)) (regions : Json) :
  readFile dir fileName = Some content ->
  jsonParse content = Some (JObj fields) ->
  objectRecord fields !! "regions" = Some regions ->
  isObjectLike regions = true ->
  loadJsonRows dir fileName
    = (if existsb buildRowThrows (Shape.regionRecords fields regions)
       then None
       else Some (List.map (fun merged => buildRow merged fileName "json")
                    (Shape.regionRecords fields regions))) /\
  (forall regionName weekValue channelChecks data,
     buildRow (data ∪ Shape.regionDefaults regionName weekValue channelChecks)
       fileName "json" !! "region"
     = Some (JStr (match data !! "region" with
                   | None => trim regionName
                   | Some _ =>
                       Spec.presentText data ["region"; "region_name"; "geo"]
                   end))) /\
  (forall regionName week channelChecks data,
     data !! "snapshot_date" = None -> data !! "date" = None ->
     data !! "week" = None ->
     buildRow (data ∪ Shape.regionDefaults regionName (Some (JStr week))
                        channelChecks)
       fileName "json" !! "date"
     = Some (JStr (trim week))).
Proof.
  intros Hread Hparse Hregions Hobj.
  split; [|split; [intros; apply merged_region|intros; by apply merged_week]].
  unfold loadJsonRows.
  rewrite Hread. cbn [mbind option_bind]. rewrite Hparse.
  cbn [mbind option_bind asRecord]. rewrite Hregions, Hobj.
  cbv zeta. apply (region_rows fileName fields (entriesOf regions)).
Qed.

End JsonFiles.

(** ** The gate, further *)

Section GateFurther.

Context `{Auth.AuthHost}.
Import Auth JsString.

Lemma noChar_append (p : ascii -> bool) (s t : string) :
  Shape.noChar p (s +:+ t) = Shape.noChar p s && Shape.noChar p t.
Proof.
  induction s as [|c s IH]; [done|].
  rewrite app_cons. cbn [Shape.noChar]. rewrite IH. by destruct (p c).
Qed.

Lemma noChar_rev (p : ascii -> bool) (s : string) :
  Shape.noChar p (String.rev s) = Shape.noChar p s.
Proof.
  induction s as [|c s IH]; [done|].
  rewrite rev_cons, noChar_append, IH. cbn [Shape.noChar].
  by destruct (p c), (Shape.noChar p s).
Qed.

Lemma splitRunsGo_noChar (p : ascii -> bool) (s cur : string) (inRun : bool) :
  Shape.noChar p cur = true ->
  Forall (fun piece => Shape.noChar p piece = true) (splitRunsGo p inRun cur s).
Proof.
  revert cur inRun. induction s as [|a s IH]; intros cur inRun Hcur.
  - cbn [splitRunsGo]. constructor; [by rewrite noChar_rev|done].
  - cbn [splitRunsGo]. destruct (p a) eqn:Ha.
    + destruct inRun; [by apply IH|].
      constructor; [by rewrite noChar_rev|by apply IH].
    + apply IH. cbn [Shape.noChar]. by rewrite Ha, Hcur.
Qed.

Lemma noChar_separator_headOk (s : string) :
  Shape.noChar isScopeSeparator s = true -> headOk s = true.
Proof.
  destruct s as [|c s]; [done|]. cbn [Shape.noChar headOk].
  unfold isScopeSeparator. by destruct (isWhitespace c).
Qed.

Lemma noChar_separator_trim (s : string) :
  Shape.noChar isScopeSeparator s = true -> trim s = s.
Proof.
  intros Hs. apply trim_fixed; [by apply noChar_separator_headOk|].
  unfold lastOk. apply noChar_separator_headOk. by rewrite noChar_rev.
Qed.

Lemma kept_scopes_trimmed {A} (f : A -> string) (l : list A) :
  (forall x, trim (f x) = f x) ->
  Forall (fun s => nonEmpty s = true /\ trim s = s)
         (List.filter nonEmpty (List.map f l)).
Proof.
  intros Hf. apply Forall_forall. intros s Hs.
  apply list_elem_of_In, filter_In in Hs as [Hs Hn]. split; [done|].
  apply in_map_iff in Hs as (x & <- & _). apply Hf.
Qed.

(** X13: the scopes read from a token payload are non-empty and carry
    no white space at either end; read from a string claim they hold no
    white space and no comma at all. The claim read is [scope], and [scp]
    only when [scope] is absent or [null]: a [scope] that is present,
    even as the empty string, decides alone. *)
Theorem X13_scopes_are_non_empty_trimmed_words (payload : RawRecord) :
  Forall (fun s => nonEmpty s = true /\ trim s = s) (extractScopes payload) /\
  (forall text,
     payload !! "scope" ?? payload !! "scp" = Some (JStr text) ->
     Forall (fun s => Shape.noChar isScopeSeparator s = true)
            (extractScopes payload)) /\
  (forall v, payload !! "scope" = Some v -> nullish (Some v) = false ->
     extractScopes payload = extractScopes (<["scope" := v]> ∅)) /\
  (payload !! "scope" = Some (JStr "") -> extractScopes payload = []).
Proof.
  split; [|split; [|split]].
  - unfold extractScopes. cbv zeta.
    destruct (falsy _); [done|].
    destruct (payload !! "scope" ?? payload !! "scp") as [[| | |text|items|]|];
      try done.
    + apply kept_scopes_trimmed. intros x. apply trim_trim.
    + apply kept_scopes_trimmed. intros [| | |item| |]; try done.
      apply trim_trim.
  - intros text Htext. unfold extractScopes. cbv zeta. rewrite Htext.
    destruct (falsy _); [done|].
    apply Forall_forall. intros s Hs.
    apply list_elem_of_In, filter_In in Hs as [Hs _].
    apply in_map_iff in Hs as (piece & <- & Hpiece).
    pose proof (splitRunsGo_noChar isScopeSeparator text "" false eq_refl) as Hall.
    rewrite Forall_forall in Hall.
    apply list_elem_of_In, Hall in Hpiece.
    by rewrite noChar_separator_trim.
  - intros v Hv Hnull. unfold extractScopes. cbv zeta.
    rewrite lookup_insert_eq, lookup_insert_ne, lookup_empty, Hv by done.
    unfold coalesce. by rewrite Hnull.
  - intros Hv. unfold extractScopes. cbv zeta. by rewrite Hv.
Qed.

Lemma ensureRequiredScopes_passes (scopes : list string) :
  ensureRequiredScopes scopes = inr tt <-> missingScopes scopes = [].
Proof.
  unfold ensureRequiredScopes. by destruct (missingScopes scopes).
Qed.

Lemma missingScopes_none (scopes : list string) :
  missingScopes scopes = [] <-> forall s, s ∈ REQUIRED_SCOPES -> s ∈ scopes.
Proof.
  split.
  - intros Hm s Hs. destruct (decide (s ∈ scopes)) as [|Hout]; [done|].
    assert (s ∈ missingScopes scopes) as Hin by (by apply missingScopes_spec).
    rewrite Hm in Hin. by apply elem_of_nil in Hin.
  - intros Hall. destruct (missingScopes scopes) as [|s l] eqn:Hm; [done|].
    assert (s ∈ missingScopes scopes) as Hin by (rewrite Hm; left).
    apply missingScopes_spec in Hin as [Hreq Hout]. by apply Hall in Hreq.
Qed.

(** X14: verification succeeds exactly when the token is not empty, the
    library accepts it and every required scope is among the scopes of
    its payload. The information returned then carries the token as
    given, the payload as its claims, those scopes, the client
    identifier [azp] if it is a string, else [client_id] if it is a
    string, else [unknown_client], and as resource the URL resolved from
    the payload, else the configured one; a string [aud] that is not a
    URL gives the configured one whatever the [resource] claim says. *)
Theorem X14_verified_tokens_carry_every_required_scope (token : string) :
  (forall info, verifyBearerToken token = inr info ->
     nonEmpty token = true /\
     Auth.token info = token /\
     jwtVerify token = Some (claims info) /\
     scopes info = extractScopes (claims info) /\
     (forall s, s ∈ REQUIRED_SCOPES -> s ∈ scopes info) /\
     clientId info
       = default (default "unknown_client"
                          (asString (claims info !! "client_id")))
                 (asString (claims info !! "azp")) /\
     Auth.resource info
       = default resourceServerUrl (resolveResource (claims info)) /\
     (forall aud, claims info !! "aud" = Some (JStr aud) ->
        newURL aud = None -> Auth.resource info = resourceServerUrl)) /\
  (forall payload,
     nonEmpty token = true -> jwtVerify token = Some payload ->
     (forall s, s ∈ REQUIRED_SCOPES -> s ∈ extractScopes payload) ->
     exists info, verifyBearerToken token = inr info).
Proof.
  split.
  - intros info. unfold verifyBearerToken.
    destruct (nonEmpty token); cbn [negb]; [|done].
    destruct (jwtVerify token) as [payload|]; [|done].
    cbn [REQUIRED_SCOPES length Nat.ltb Nat.leb]. cbv zeta.
    destruct (ensureRequiredScopes (extractScopes payload)) as [|[]] eqn:He;
      [done|].
    intros [= <-]. cbn [Auth.token claims scopes clientId Auth.resource].
    split; [done|]. split; [done|]. split; [done|]. split; [done|].
    split; [by apply missingScopes_none, ensureRequiredScopes_passes|].
    split; [by destruct (asString (payload !! "azp"))|].
    split; [done|].
    intros aud Haud Hurl. unfold resolveResource. rewrite Haud.
    cbn [tryParseUrl]. rewrite Hurl. by destruct (nonEmpty aud).
  - intros payload Htoken Hverify Hscopes. unfold verifyBearerToken.
    rewrite Htoken, Hverify. cbn [negb REQUIRED_SCOPES length Nat.ltb Nat.leb].
    cbv zeta.
    apply missingScopes_none, ensureRequiredScopes_passes in Hscopes.
    rewrite Hscopes. by eexists.
Qed.

Lemma app_empty_l (s : string) : "" +:+ s = s.
Proof. done. Qed.

Lemma substring_all (s : string) :
  String.substring 0 (String.length s) s = s.
Proof. induction s as [|c s IH]; [done|]. cbn. by rewrite IH. Qed.

Lemma lowerChar_space (c : ascii) : lowerChar c = " "%char -> c = " "%char.
Proof. by destruct c as [[] [] [] [] [] [] [] []]. Qed.

(** A header that passes the test of the scheme: six characters that
    read [bearer] in lower case, a space, and the rest, which
    [slice(7)] returns. *)
Lemma bearer_split (trimmed : string) :
  startsWith (toLowerCase trimmed) "bearer " = true ->
  exists scheme rest,
    trimmed = scheme +:+ " " +:+ rest /\
    toLowerCase scheme = "bearer" /\
    String.substring 7 (String.length trimmed - 7) trimmed = rest.
Proof.
  unfold startsWith.
  destruct trimmed as [|c1 [|c2 [|c3 [|c4 [|c5 [|c6 [|c7 rest]]]]]]];
    cbn [toLowerCase String.prefix]; try done;
    repeat match goal with
           | |- context [ascii_dec ?a ?b] => destruct (ascii_dec a b); try done
           end.
  intros _. exists (String c1 (String c2 (String c3 (String c4 (String c5
                     (String c6 "")))))), rest.
  assert (c7 = " "%char) as -> by (by apply lowerChar_space).
  split; [done|]. split; [cbn [toLowerCase]; congruence|].
  cbn [String.length Nat.sub String.substring].
  rewrite Nat.sub_0_r. apply substring_all.
Qed.

Lemma bearer_rest_nonEmpty (scheme rest : string) :
  toLowerCase scheme = "bearer" ->
  lastOk (scheme +:+ " " +:+ rest) = true -> nonEmpty rest = true.
Proof.
  intros Hs. destruct rest; [|done].
  unfold lastOk. rewrite rev_append. by cbn.
Qed.

Lemma bearer_headOk (scheme : string) :
  toLowerCase scheme = "bearer" -> headOk scheme = true /\ nonEmpty scheme = true.
Proof.
  destruct scheme as [|c s]; [done|]. cbn [toLowerCase headOk nonEmpty].
  intros [= Hc _]. split; [|done].
  rewrite <- isWhitespace_lowerChar, Hc. done.
Qed.

(** The header the gate reads. *)
Lemma authenticateRequest_single (headers : gmap string HeaderValue)
    (header : string) :
  headers !! "authorization" = Some (Single header) \/
  (headers !! "authorization" = None /\
   headers !! "Authorization" = Some (Single header)) ->
  authenticateRequest headers
  = if negb (nonEmpty header) then
      inl (AuthorizationError401 "Missing Authorization header")
    else if negb (startsWith (toLowerCase (trim header)) "bearer ") then
      inl (AuthorizationError401 "Authorization header must be a Bearer token")
    else verifyBearerToken
           (String.substring 7 (String.length (trim header) - 7) (trim header)).
Proof.
  unfold authenticateRequest. by intros [->|[-> ->]].
Qed.

Lemma bearer_header_accepted (scheme token : string) :
  toLowerCase scheme = "bearer" ->
  nonEmpty token = true -> lastOk token = true ->
  nonEmpty (scheme +:+ " " +:+ token) = true /\
  trim (scheme +:+ " " +:+ token) = scheme +:+ " " +:+ token /\
  startsWith (toLowerCase (scheme +:+ " " +:+ token)) "bearer " = true /\
  String.substring 7 (String.length (scheme +:+ " " +:+ token) - 7)
    (scheme +:+ " " +:+ token) = token.
Proof.
  intros Hs Hn Hl.
  destruct (bearer_headOk scheme Hs) as [Hh Hne].
  assert (startsWith (toLowerCase (scheme +:+ " " +:+ token)) "bearer " = true)
    as Hstart.
  { rewrite !toLowerCase_append, Hs. unfold startsWith.
    change (toLowerCase " ") with " ".
    rewrite !app_cons, !app_empty_l. cbn [String.prefix].
    repeat (destruct (ascii_dec _ _); [|congruence]).
    by destruct (toLowerCase token). }
  split; [by apply nonEmpty_append_l|].
  split.
  { apply trim_fixed; [by apply headOk_append|].
    apply lastOk_append; [done|]. by apply lastOk_append. }
  split; [done|].
  destruct scheme as [|c1 [|c2 [|c3 [|c4 [|c5 [|c6 [|c7 s]]]]]]]; try done.
  rewrite !app_cons, !app_empty_l.
  cbn [String.length Nat.sub String.substring].
  rewrite Nat.sub_0_r. apply substring_all.
Qed.

Lemma verifyBearerToken_not_missing (token : string) (status : Z) :
  nonEmpty token = true ->
  verifyBearerToken token
  <> inl (AuthorizationError "Missing bearer token" status).
Proof.
  intros Hn. unfold verifyBearerToken. rewrite Hn. cbn [negb].
  destruct (jwtVerify token) as [payload|]; [|done].
  cbn [REQUIRED_SCOPES length Nat.ltb Nat.leb]. cbv zeta.
  unfold ensureRequiredScopes.
  destruct (0 <? length (missingScopes (extractScopes payload)))%nat; [|done].
  by intros [= Hm _].
Qed.

(** X15: what the gate does with the headers of a request. It answers
    [Missing Authorization header], or [Authorization header must be a
    Bearer token], or it verifies a token; the token it verifies is what
    follows the seven characters of the scheme in the trimmed header, and
    it is never empty, so the gate itself never answers [Missing bearer
    token]. *)
Theorem X15_the_gate_never_verifies_an_empty_token
    (headers : gmap string HeaderValue) :
  (authenticateRequest headers
     = inl (AuthorizationError401 "Missing Authorization header") \/
   authenticateRequest headers
     = inl (AuthorizationError401 "Authorization header must be a Bearer token") \/
   exists header scheme token,
     (headers !! "authorization" = Some (Single header) \/
      (headers !! "authorization" = None /\
       headers !! "Authorization" = Some (Single header))) /\
     trim header = scheme +:+ " " +:+ token /\
     toLowerCase scheme = "bearer" /\
     nonEmpty token = true /\
     authenticateRequest headers = verifyBearerToken token) /\
  (forall status,
     authenticateRequest headers
     <> inl (AuthorizationError "Missing bearer token" status)).
Proof.
  assert (forall header,
            headers !! "authorization" = Some (Single header) \/
            (headers !! "authorization" = None /\
             headers !! "Authorization" = Some (Single header)) ->
            (authenticateRequest headers
               = inl (AuthorizationError401 "Missing Authorization header") \/
             authenticateRequest headers
               = inl (AuthorizationError401
                        "Authorization header must be a Bearer token") \/
             exists header scheme token,
               (headers !! "authorization" = Some (Single header) \/
                (headers !! "authorization" = None /\
                 headers !! "Authorization" = Some (Single header))) /\
               trim header = scheme +:+ " " +:+ token /\
               toLowerCase scheme = "bearer" /\
               nonEmpty token = true /\
               authenticateRequest headers = verifyBearerToken token)) as Hsingle.
  { intros header Hheader.
    rewrite (authenticateRequest_single headers header Hheader).
    destruct (nonEmpty header); cbn [negb]; [|by left].
    destruct (startsWith (toLowerCase (trim header)) "bearer ") eqn:Hstart;
      cbn [negb]; [|by right; left].
    right; right.
    destruct (bearer_split _ Hstart) as (scheme & token & Htrim & Hscheme & ->).
    exists header, scheme, token.
    split; [done|]. split; [done|]. split; [done|]. split; [|done].
    apply (bearer_rest_nonEmpty scheme); [done|].
    rewrite <- Htrim. apply trim_lastOk. }
  assert (authenticateRequest headers
            = inl (AuthorizationError401 "Missing Authorization header") \/
          authenticateRequest headers
            = inl (AuthorizationError401
                     "Authorization header must be a Bearer token") \/
          exists header scheme token,
            (headers !! "authorization" = Some (Single header) \/
             (headers !! "authorization" = None /\
              headers !! "Authorization" = Some (Single header))) /\
            trim header = scheme +:+ " " +:+ token /\
            toLowerCase scheme = "bearer" /\
            nonEmpty token = true /\
            authenticateRequest headers = verifyBearerToken token) as Hcases.
  { destruct (headers !! "authorization") as [[header|values]|] eqn:Hlower.
    - apply (Hsingle header). by left.
    - left. unfold authenticateRequest. by rewrite Hlower.
    - destruct (headers !! "Authorization") as [[header|values]|] eqn:Hupper.
      + apply (Hsingle header). by right.
      + left. unfold authenticateRequest. by rewrite Hlower, Hupper.
      + left. unfold authenticateRequest. by rewrite Hlower, Hupper. }
  split; [exact Hcases|].
  intros status.
  destruct Hcases as [->|[->|(header & scheme & token & _ & _ & _ & Hn & ->)]];
    [done|done|].
  by apply verifyBearerToken_not_missing.
Qed.

Lemma bearer_token_verified (headers : gmap string HeaderValue)
    (header scheme token : string) :
  headers !! "authorization" = Some (Single header) \/
  (headers !! "authorization" = None /\
   headers !! "Authorization" = Some (Single header)) ->
  trim header = scheme +:+ " " +:+ token ->
  toLowerCase scheme = "bearer" ->
  authenticateRequest headers = verifyBearerToken token.
Proof.
  intros Hheader Htrim Hscheme.
  rewrite (authenticateRequest_single headers header Hheader).
  assert (nonEmpty header = true) as ->.
  { destruct header; [|done]. by destruct scheme. }
  cbn [negb]. rewrite Htrim.
  assert (lastOk (scheme +:+ " " +:+ token) = true) as Hlast
    by (rewrite <- Htrim; apply trim_lastOk).
  pose proof (bearer_rest_nonEmpty scheme token Hscheme Hlast) as Hn.
  assert (lastOk token = true) as Hl.
  { revert Hlast. unfold lastOk. rewrite !rev_append.
    destruct token as [|c token]; [done|]. rewrite rev_cons.
    destruct (String.rev token); by rewrite ?app_cons. }
  destruct (bearer_header_accepted scheme token Hscheme Hn Hl)
    as (_ & _ & -> & ->).
  done.
Qed.

(** X16: the scheme of the Authorization header is matched without
    regard to letter case and after the header is trimmed: when the
    trimmed header is a word that reads [bearer] in lower case, one space
    and a rest, the gate verifies that rest as the token, as it stands
    (white space that follows the one space stays part of it). The header
    is read under [authorization], and under [Authorization] only when
    the former is absent. *)
Theorem X16_bearer_scheme_is_matched_without_regard_to_case
    (headers : gmap string HeaderValue) (header scheme token : string) :
  headers !! "authorization" = Some (Single header) \/
  (headers !! "authorization" = None /\
   headers !! "Authorization" = Some (Single header)) ->
  trim header = scheme +:+ " " +:+ token ->
  toLowerCase scheme = "bearer" ->
  authenticateRequest headers = verifyBearerToken token /\
  nonEmpty token = true.
Proof.
  intros Hheader Htrim Hscheme.
  split; [by apply (bearer_token_verified headers header scheme)|].
  apply (bearer_rest_nonEmpty scheme); [done|].
  rewrite <- Htrim. apply trim_lastOk.
Qed.

(** X17: a Bearer token that the verification library rejects (bad
    signature, issuer, audience or expiry) does not raise an
    authorization error: the request is answered with status 500 and the
    JSON-RPC error -32603, [Internal server error], not with 401. *)
Theorem X17_a_token_the_library_rejects_is_answered_500
    (headers : gmap string HeaderValue) (header scheme token : string) :
  headers !! "authorization" = Some (Single header) ->
  trim header = scheme +:+ " " +:+ token ->
  toLowerCase scheme = "bearer" ->
  jwtVerify token = None ->
  exists error,
    authenticateRequest headers = inl error /\
    errorResponse error = (500, (-32603, "Internal server error")).
Proof.
  intros Hheader Htrim Hscheme Hverify.
  rewrite (bearer_token_verified headers header scheme token) by auto.
  exists OtherError. split; [|done].
  unfold verifyBearerToken. rewrite Hverify.
  assert (nonEmpty token = true) as ->; [|done].
  apply (bearer_rest_nonEmpty scheme); [done|].
  rewrite <- Htrim. apply trim_lastOk.
Qed.

End GateFurther.

(** ** Criteria and dates *)

Section CriteriaFacts.

Context `{Host}.
Import Trends JsString JsDate.

Lemma parseIsoDate_trim (s : string) :
  parseIsoDate (Some (trim s)) = parseIsoDate (Some s).
Proof.
  unfold parseIsoDate. rewrite trim_trim.
  destruct (nonEmpty (trim s)) eqn:Ht; cbn [negb].
  - assert (nonEmpty s = true) as -> by (by destruct s). done.
  - by destruct (nonEmpty s).
Qed.

Lemma normalizeFilter_normalized (v : option string) :
  normalizeFilter ((fun text => toLowerCase (trim text)) <$> v)
  = normalizeFilter v.
Proof.
  unfold normalizeFilter. destruct v as [text|]; [|done]. cbn [fmap option_fmap option_map default].
  unfold id.
  by rewrite (toLowerCase_trim (toLowerCase (trim text))),
    toLowerCase_idempotent, <- (toLowerCase_trim (trim text)), trim_trim.
Qed.

Lemma filterRows_normalized (filters : AirfareTrendFilters) (rs : list TrendRow) :
  filterRows (Shape.normalizedFilters filters) rs = filterRows filters rs.
Proof.
  unfold filterRows, Shape.normalizedFilters.
  cbn [snapshotDate routeContains originAirport destinationAirport
       airlineContains seasonContains notableContains].
  rewrite !normalizeFilter_normalized.
  assert (parseIsoDate (trim <$> snapshotDate filters)
          = parseIsoDate (snapshotDate filters)) as ->; [|done].
  destruct (snapshotDate filters) as [s|]; [|done]. apply parseIsoDate_trim.
Qed.

(** X18: the criteria are applied without regard to letter case and to
    white space around them: white space around the snapshot date and
    around each text filter, and the letter case of each text filter,
    change neither the rows that match, nor the rows returned, nor the
    counts. *)
Theorem X18_criteria_are_read_trimmed_and_in_lower_case
    (dir : Directory) (filters : AirfareTrendFilters) (rs : list TrendRow) :
  filterRows (Shape.normalizedFilters filters) rs = filterRows filters rs /\
  result_rows (queryAirfareTrends dir (Shape.normalizedFilters filters))
    = result_rows (queryAirfareTrends dir filters) /\
  matched_rows (queryAirfareTrends dir (Shape.normalizedFilters filters))
    = matched_rows (queryAirfareTrends dir filters) /\
  rows_returned (queryAirfareTrends dir (Shape.normalizedFilters filters))
    = rows_returned (queryAirfareTrends dir filters).
Proof.
  split; [apply filterRows_normalized|].
  assert (result_rows (queryAirfareTrends dir (Shape.normalizedFilters filters))
          = result_rows (queryAirfareTrends dir filters)) as Hrows.
  { rewrite !result_rows_query. by rewrite filterRows_normalized. }
  split; [exact Hrows|].
  destruct (query_counts dir filters) as (_ & -> & ->).
  destruct (query_counts dir (Shape.normalizedFilters filters)) as (_ & -> & ->).
  by rewrite filterRows_normalized, Hrows.
Qed.

(** The day number of the first of a month stays far inside the range
    of time values for every year the patterns can write. *)
Lemma daysFromCivil_bound (y m : Z) :
  -1 <= y <= 10010 -> 1 <= m <= 12 ->
  -900000 <= daysFromCivil y m 1 <= 3300000.
Proof.
  intros Hy Hm. unfold daysFromCivil. cbv zeta.
  destruct (Z.leb_spec m 2), (Z.ltb_spec 2 m); try lia;
    Z.div_mod_to_equations; lia.
Qed.

Lemma UTC_valid (year month day : Z) :
  0 <= year <= 9999 -> -1 <= month <= 98 -> 0 <= day <= 99 ->
  is_Some (UTC year month day).
Proof.
  intros Hy Hm Hd. unfold UTC, MakeDate, MakeDay. cbv zeta.
  rewrite Z.add_0_r.
  set (yr := if (0 <=? year) && (year <=? 99) then 1900 + year else year).
  assert (100 <= yr <= 9999) as Hyr.
  { subst yr. destruct (Z.leb_spec 0 year), (Z.leb_spec year 99);
      cbn [andb]; lia. }
  assert (-1 <= yr + month / 12 <= 10010) as Hym
    by (Z.div_mod_to_equations; lia).
  assert (1 <= month mod 12 + 1 <= 12) as Hmn
    by (Z.div_mod_to_equations; lia).
  pose proof (daysFromCivil_bound _ _ Hym Hmn) as Hdays.
  rewrite TimeClip_of_days by lia. by eexists.
Qed.

Lemma parseIsoDate_date (y1 y2 y3 y4 s1 m1 m2 s2 d1 d2 : ascii) :
  isDigit y1 = true -> isDigit y2 = true -> isDigit y3 = true ->
  isDigit y4 = true -> isDigit m1 = true -> isDigit m2 = true ->
  isDigit d1 = true -> isDigit d2 = true ->
  Ascii.eqb s1 "-" || Ascii.eqb s1 "/" = true ->
  Ascii.eqb s2 "-" || Ascii.eqb s2 "/" = true ->
  parseIsoDate (Some (Shape.dateString y1 y2 y3 y4 s1 m1 m2 s2 d1 d2))
  = UTC (Spec.year4 y1 y2 y3 y4) (Shape.twoDigits m1 m2 - 1)
        (Shape.twoDigits d1 d2).
Proof.
  intros Hy1 Hy2 Hy3 Hy4 Hm1 Hm2 Hd1 Hd2 Hs1 Hs2.
  pose proof (year4_range y1 y2 y3 y4) as Hyear.
  assert (is_Some (UTC (Spec.year4 y1 y2 y3 y4) (Shape.twoDigits m1 m2 - 1)
                       (Shape.twoDigits d1 d2))) as [t Ht].
  { apply UTC_valid; [done| |]; unfold Shape.twoDigits;
      pose proof (digitValue_range m1); pose proof (digitValue_range m2);
      pose proof (digitValue_range d1); pose proof (digitValue_range d2); lia. }
  rewrite Ht.
  unfold parseIsoDate, Shape.dateString. cbn [nonEmpty negb].
  rewrite trim_fixed; cycle 1.
  { cbn [headOk]. by rewrite (digit_not_space y1 Hy1). }
  { unfold lastOk. cbn. by rewrite (digit_not_space d2 Hd2). }
  cbn [nonEmpty negb matchDate].
  rewrite Hy1, Hy2, Hy3, Hy4, Hm1, Hm2, Hd1, Hd2, Hs1, Hs2. cbn [andb].
  replace (parseDigits (String y1 (String y2 (String y3 (String y4 "")))))
    with (Spec.year4 y1 y2 y3 y4)
    by (unfold parseDigits, Spec.year4; cbn [parseDigitsGo]; lia).
  replace (parseDigits (String m1 (String m2 "")))
    with (Shape.twoDigits m1 m2)
    by (unfold parseDigits, Shape.twoDigits; cbn [parseDigitsGo]; lia).
  replace (parseDigits (String d1 (String d2 "")))
    with (Shape.twoDigits d1 d2)
    by (unfold parseDigits, Shape.twoDigits; cbn [parseDigitsGo]; lia).
  by rewrite Ht.
Qed.

(** X19: a string of the form YYYY-MM-DD, with [-] or [/] at either
    separator, always parses to a date: the one [Date.UTC] gives for the
    year, the month less one and the day its digits write, whichever of
    the two separators it uses. The month and the day are not checked
    against the calendar: a month from 00 to 99 and a day from 00 to 99
    all give a date, carried over by [Date.UTC]; the platform's free-form
    parser is never asked about such a string. *)
Theorem X19_dates_in_digits_always_parse
    (y1 y2 y3 y4 s1 m1 m2 s2 d1 d2 : ascii) :
  isDigit y1 = true -> isDigit y2 = true -> isDigit y3 = true ->
  isDigit y4 = true -> isDigit m1 = true -> isDigit m2 = true ->
  isDigit d1 = true -> isDigit d2 = true ->
  Ascii.eqb s1 "-" || Ascii.eqb s1 "/" = true ->
  Ascii.eqb s2 "-" || Ascii.eqb s2 "/" = true ->
  parseIsoDate (Some (Shape.dateString y1 y2 y3 y4 s1 m1 m2 s2 d1 d2))
    = UTC (Spec.year4 y1 y2 y3 y4) (Shape.twoDigits m1 m2 - 1)
          (Shape.twoDigits d1 d2) /\
  is_Some (parseIsoDate (Some (Shape.dateString y1 y2 y3 y4 s1 m1 m2 s2 d1 d2))) /\
  parseIsoDate (Some (Shape.dateString y1 y2 y3 y4 s1 m1 m2 s2 d1 d2))
    = parseIsoDate (Some (Shape.dateString y1 y2 y3 y4 "-" m1 m2 "-" d1 d2)).
Proof.
  intros Hy1 Hy2 Hy3 Hy4 Hm1 Hm2 Hd1 Hd2 Hs1 Hs2.
  rewrite !parseIsoDate_date by done.
  split; [done|]. split; [|done].
  pose proof (year4_range y1 y2 y3 y4) as Hyear.
  apply UTC_valid; [done| |]; unfold Shape.twoDigits;
    pose proof (digitValue_range m1); pose proof (digitValue_range m2);
    pose proof (digitValue_range d1); pose proof (digitValue_range d2); lia.
Qed.

End CriteriaFacts.

(** ** The [search] tool, the configuration, and content text *)

Section SearchFacts.

Context `{Server.SearchHost}.
Import Server JsString.

Lemma length_append (s t : string) :
  String.length (s +:+ t) = (String.length s + String.length t)%nat.
Proof.
  induction s as [|c s IH]; [done|]. rewrite app_cons. cbn [String.length].
  by rewrite IH.
Qed.

Lemma length_sliceTo (n : nat) (s : string) :
  (String.length (sliceTo n s) <= n)%nat.
Proof.
  unfold sliceTo. revert s. induction n as [|n IH]; intros [|c s]; cbn; try lia.
  specialize (IH s). lia.
Qed.

Lemma snippet_bounds (text : string) :
  nonEmpty (snippet text) = true /\ (String.length (snippet text) <= 203)%nat.
Proof.
  unfold snippet. destruct (Nat.ltb_spec 200 (String.length text)) as [Hlong|Hshort].
  - split.
    + destruct text as [|c text]; [cbn in Hlong; lia|]. done.
    + rewrite length_append. pose proof (length_sliceTo 200 text).
      change (String.length "...") with 3%nat. lia.
  - destruct text as [|c text]; cbn [nonEmpty]; (split; [done|]);
      [cbn; lia|lia].
Qed.

(** X20: the [search] tool answers a query that is empty or white
    space with no results, without looking at the configuration or
    calling the store. When it answers with results, there is one for
    each item of the response's [data], and each has a text that is not
    empty and of at most 203 characters (the first 200 of the collected
    text and an ellipsis, the text itself, or [No content available]) and
    the storage URL of its [id]. *)
Theorem X20_search_results_carry_bounded_snippets (query : string) :
  (trim query = "" -> search query = Results []) /\
  (forall results, search query = Results results ->
     Forall
       (fun result =>
          nonEmpty (text result) = true /\
          (String.length (text result) <= 203)%nat /\
          url result
            = "https://platform.openai.com/storage/files/" +:+ id result)
       results) /\
  (forall results, search query = Results results ->
     nonEmpty (trim query) = true ->
     exists store response,
       vectorStoreId = Some store /\
       vectorStoreSearch store (trim query) = inr response /\
       length results
       = length (match objectRecord response !! "data" with
                 | Some (JArr data) => data
                 | _ => []
                 end)).
Proof.
  split; [|split].
  - intros Hblank. unfold search. by rewrite Hblank.
  - intros results. unfold search. cbv zeta.
    destruct (nonEmpty (trim query)); cbn [negb]; [|by intros [= <-]].
    destruct vectorStoreId as [store|]; [|done].
    destruct (nonEmpty store); cbn [negb]; [|done].
    destruct (vectorStoreSearch store (trim query)) as [|response]; [done|].
    destruct (mapM _ _) as [found|] eqn:Hmap; [|done]. intros [= <-].
    apply mapM_Some in Hmap.
    induction Hmap as [|[index item] result l k Hresult _ IH]; [done|].
    constructor; [|exact IH].
    unfold searchResult in Hresult.
    destruct item; try done; injection Hresult as <-;
      cbn [text url id]; (split; [apply snippet_bounds|]);
      (split; [apply snippet_bounds|done]).
  - intros results Hresults Hquery. unfold search in Hresults.
    cbv zeta in Hresults. rewrite Hquery in Hresults. cbn [negb] in Hresults.
    destruct vectorStoreId as [store|]; [|done].
    destruct (nonEmpty store); cbn [negb] in Hresults; [|done].
    destruct (vectorStoreSearch store (trim query)) as [|response] eqn:Hs;
      [done|].
    destruct (mapM _ _) as [found|] eqn:Hmap; [|done].
    injection Hresults as <-.
    exists store, response. split; [done|]. split; [done|].
    apply mapM_Some, Forall2_length in Hmap.
    by rewrite length_imap in Hmap.
Qed.

End SearchFacts.

Section ConfigFacts.

Context `{Host} `{Config.UrlHost}.
Import Config JsString.

Lemma noChar_trimStart (p : ascii -> bool) (s : string) :
  Shape.noChar p s = true -> Shape.noChar p (trimStart s) = true.
Proof.
  induction s as [|c s IH]; [done|]. cbn [Shape.noChar trimStart].
  destruct (isWhitespace c); [|done].
  intros Hs. apply IH. by destruct (p c).
Qed.

Lemma noChar_trim (p : ascii -> bool) (s : string) :
  Shape.noChar p s = true -> Shape.noChar p (trim s) = true.
Proof.
  intros Hs. unfold trim, trimEnd.
  rewrite noChar_rev. apply noChar_trimStart.
  rewrite noChar_rev. by apply noChar_trimStart.
Qed.

Lemma splitChar_noChar (c : ascii) (s : string) :
  Forall (fun piece => Shape.noChar (fun a => Ascii.eqb a c) piece = true)
         (splitChar c s).
Proof.
  induction s as [|a s IH]; [by repeat constructor|].
  cbn [splitChar]. destruct (Ascii.eqb a c) eqn:Ha.
  - by constructor.
  - destruct (splitChar c s) as [|p ps].
    + constructor; [|done]. cbn [Shape.noChar]. by rewrite Ha.
    + apply Forall_cons in IH as [Hp Hps].
      constructor; [|done]. cbn [Shape.noChar]. by rewrite Ha.
Qed.

Lemma listedAudiences_trimmed (raw : Env) :
  Forall (fun a => nonEmpty a = true /\ trim a = a /\
                   Shape.noChar (fun c => Ascii.eqb c ",") a = true)
         (listedAudiences raw).
Proof.
  unfold listedAudiences. apply Forall_forall. intros a Ha.
  apply list_elem_of_In, filter_In in Ha as [Ha Hn].
  apply in_map_iff in Ha as (piece & <- & Hpiece).
  split; [done|]. split; [apply trim_trim|].
  apply noChar_trim.
  pose proof (splitChar_noChar "," (default "" (JWT_AUDIENCES raw))) as Hall.
  rewrite Forall_forall in Hall. by apply Hall, list_elem_of_In.
Qed.

Lemma endsWith_slash (s : string) : endsWith (s +:+ "/") "/" = true.
Proof.
  unfold endsWith. rewrite rev_append.
  change (String.rev "/") with "/". rewrite app_cons.
  cbn [String.prefix]. destruct (ascii_dec _ _); [|congruence].
  by destruct ("" +:+ String.rev s).
Qed.

(** X21: the configuration the module exports. The module throws
    (after the schema) exactly when the port text does not parse to an
    integer or when [new URL] refuses the resource server URL, which is
    RESOURCE_SERVER_URL or else http://localhost: followed by the port.
    Otherwise the issuer ends with a slash, [resourceServerUrl] is the URL
    of that text, and the expected audiences are never empty: they are
    the comma-separated pieces of JWT_AUDIENCES, trimmed, the empty ones
    dropped, or, when none is left, the text of the resource server URL
    alone (the text as configured, not the URL's [href]); so the
    verification is always given an audience. *)
Theorem X21_configuration_always_names_an_audience
    (defaultTrendDataDir : string) (raw : Env) :
  (config defaultTrendDataDir raw = None <->
   isNaN (parseInt (default DEFAULT_PORT (PORT raw))) = true \/
   parseUrl (resourceServerText raw
               (parseInt (default DEFAULT_PORT (PORT raw)))) = None) /\
  (forall cfg, config defaultTrendDataDir raw = Some cfg ->
     port cfg = parseInt (default DEFAULT_PORT (PORT raw)) /\
     isNaN (port cfg) = false /\
     endsWith (auth0Issuer cfg) "/" = true /\
     (endsWith (AUTH0_ISSUER raw) "/" = true ->
      auth0Issuer cfg = AUTH0_ISSUER raw) /\
     parseUrl (resourceServerText raw (port cfg))
       = Some (resourceServerUrl cfg) /\
     expectedAudiences cfg
       = (if decide (listedAudiences raw = [])
          then [resourceServerText raw (port cfg)]
          else listedAudiences raw) /\
     expectedAudiences cfg <> [] /\
     Forall (fun a => a = resourceServerText raw (port cfg) \/
                      (nonEmpty a = true /\ trim a = a /\
                       Shape.noChar (fun c => Ascii.eqb c ",") a = true))
            (expectedAudiences cfg) /\
     Auth.audienceOption (expectedAudiences cfg) <> Auth.NoAudience).
Proof.
  unfold config. cbv zeta.
  destruct (isNaN (parseInt (default DEFAULT_PORT (PORT raw)))) eqn:Hport.
  { split; [split; [by left|done]|]. by intros cfg. }
  destruct (parseUrl _) as [href|] eqn:Hurl; cbn [mbind option_bind].
  2: { split; [split; [by right|done]|]. by intros cfg. }
  split; [split; [done|by intros [?|?]]|].
  intros cfg [= <-].
  cbn [auth0Issuer resourceServerUrl expectedAudiences port].
  pose proof (listedAudiences_trimmed raw) as Hlisted.
  split; [done|]. split; [done|].
  split.
  { unfold normalizedIssuer.
    destruct (endsWith (AUTH0_ISSUER raw) "/") eqn:He; [done|].
    apply endsWith_slash. }
  split.
  { intros He. unfold normalizedIssuer. by rewrite He. }
  split; [done|].
  destruct (listedAudiences raw) as [|a l] eqn:Hl.
  - cbn [length Nat.eqb app]. rewrite decide_True by done.
    split; [done|]. split; [done|]. split; [|done].
    constructor; [by left|done].
  - cbn [length Nat.eqb]. rewrite decide_False by done.
    split; [done|]. split; [done|]. split.
    + eapply Forall_impl; [exact Hlisted|]. intros x Hx. by right.
    + by destruct l.
Qed.

End ConfigFacts.

Section ContentText.

Import Trends JsString.

Lemma walk_strings (l : list string) :
  flat_map walk (JStr <$> l) = List.filter nonEmpty l.
Proof.
  induction l as [|s l IH]; [done|].
  cbn [fmap list_fmap flat_map List.filter walk]. rewrite <- IH.
  by destruct (nonEmpty s).
Qed.

(** What [walk] takes from the property [key] of an object whose
    property names are distinct. *)
Lemma walk_property (key : string) (fields : list (string * Json))
    (acc : RawRecord) :
  NoDup fields.*1 ->
  (fix go (fs : list (string * Json)) : list string :=
     match fs with
     | [] => []
     | (k, v) :: fs' => (if String.eqb k key then walk v else []) ++ go fs'
     end) fields
  = if decide (key ∈ fields.*1)
    then from_option walk []
           (fold_left (fun m kv => <[kv.1 := kv.2]> m) fields acc !! key)
    else [].
Proof.
  revert acc. induction fields as [|[k v] fields IH]; intros acc Hnd; [done|].
  cbn [fmap list_fmap fst] in Hnd. apply NoDup_cons in Hnd as [Hk Hnd].
  cbn [fold_left fst snd]. rewrite (IH (<[k:=v]> acc) Hnd).
  destruct (String.eqb_spec k key) as [->|Hne].
  - destruct (decide (key ∈ fields.*1)) as [|_]; [done|].
    destruct (decide (key ∈ ((key, v) :: fields).*1)) as [_|Hout];
      [|cbn in Hout; set_solver].
    rewrite app_nil_r.
    assert (forall m : RawRecord,
              fold_left (fun m kv => <[kv.1 := kv.2]> m) fields m !! key
              = m !! key) as ->.
    { clear -Hk. induction fields as [|[k' v'] fields IH]; intros m; [done|].
      cbn [fold_left fst snd]. rewrite IH by (cbn in Hk; set_solver).
      apply lookup_insert_ne. cbn in Hk. set_solver. }
    by rewrite lookup_insert_eq.
  - cbn [app].
    destruct (decide (key ∈ fields.*1)) as [Hin|Hout];
      destruct (decide (key ∈ ((k, v) :: fields).*1)) as [Hin'|Hout'];
      cbn in *; try done; set_solver.
Qed.

(** X22: the text collected from a content value. Nothing, [null],
    [false], a number or the empty string give the empty text; a string
    gives itself; an array of strings gives its non-empty strings joined
    by line feeds; an object gives, in this order whatever the order of
    its properties, its [text] if that is a string, what its [data]
    gives and what its [contents] gives, and no other property of it is
    read. *)
Theorem X22_content_text_is_read_from_text_data_and_contents
    (text : string) (texts : list string) (fields : list (string * Json)) :
  collectTextFromContent None = "" /\
  collectTextFromContent (Some JNull) = "" /\
  collectTextFromContent (Some (JStr text)) = text /\
  collectTextFromContent (Some (JArr (JStr <$> texts)))
    = join newline (List.filter nonEmpty texts) /\
  (NoDup fields.*1 ->
   walk (JObj fields)
   = match asString (objectRecord fields !! "text") with
     | Some text => [text]
     | None => []
     end
     ++ from_option walk [] (objectRecord fields !! "data")
     ++ from_option walk [] (objectRecord fields !! "contents")) /\
  (NoDup fields.*1 ->
   forall key value,
     key ∉ ["text"; "data"; "contents"] ->
     key ∉ fields.*1 ->
     walk (JObj (fields ++ [(key, value)])) = walk (JObj fields)).
Proof.
  assert (forall fs : list (string * Json), NoDup fs.*1 ->
            walk (JObj fs)
            = match asString (objectRecord fs !! "text") with
              | Some text => [text]
              | None => []
              end
              ++ from_option walk [] (objectRecord fs !! "data")
              ++ from_option walk [] (objectRecord fs !! "contents")) as Hobj.
  { intros fs Hnd. cbn [walk]. f_equal.
    rewrite (walk_property "data" fs ∅ Hnd).
    rewrite (walk_property "contents" fs ∅ Hnd).
    fold (objectRecord fs).
    assert (forall key, key ∉ fs.*1 -> objectRecord fs !! key = None) as Habsent.
    { intros key Hkey. unfold objectRecord.
      assert (forall m : RawRecord,
                fold_left (fun m kv => <[kv.1 := kv.2]> m) fs m !! key
                = m !! key) as ->; [|done].
      clear -Hkey. induction fs as [|[k' v'] fs IH]; intros m; [done|].
      cbn [fold_left fst snd]. rewrite IH by (cbn in Hkey; set_solver).
      apply lookup_insert_ne. cbn in Hkey. set_solver. }
    destruct (decide ("data" ∈ fs.*1)) as [|Hd];
      destruct (decide ("contents" ∈ fs.*1)) as [|Hc];
      rewrite ?(Habsent _ Hd), ?(Habsent _ Hc); done. }
  split; [done|]. split; [done|].
  split.
  { unfold collectTextFromContent. cbn [walk]. by destruct text. }
  split.
  { unfold collectTextFromContent. cbn [walk]. by rewrite walk_strings. }
  split; [apply Hobj|].
  intros Hnd key value Hkey Hfresh.
  assert (NoDup (fields ++ [(key, value)]).*1) as Hnd'.
  { rewrite fmap_app. apply NoDup_app. split; [done|].
    split; [|by apply NoDup_singleton].
    intros k Hk. cbn. set_solver. }
  rewrite (Hobj _ Hnd'), (Hobj _ Hnd).
  assert (forall k, k <> key ->
            objectRecord (fields ++ [(key, value)]) !! k
            = objectRecord fields !! k) as Hsame.
  { intros k Hk. unfold objectRecord. rewrite fold_left_app.
    cbn [fold_left fst snd]. by rewrite lookup_insert_ne. }
  rewrite !Hsame by set_solver. done.
Qed.

End ContentText.

(** ** The files of the dataset *)

Section FileOrder.

Context `{Host} `{!Spec.CollationPreorder}.
Import Trends JsString.

Lemma StronglySorted_impl {A : Type} (R R' : A -> A -> Prop) (l : list A) :
  (forall a b, R a b -> R' a b) -> StronglySorted R l -> StronglySorted R' l.
Proof.
  intros HR. induction 1 as [|a l Hl IH Ha]; constructor; [done|].
  eapply Forall_impl; [exact Ha|]. intros b. apply HR.
Qed.

(** X23: [availableFiles] is in the order of the platform's collation
    of the file names, for every platform whose [localeCompare] is the
    comparison of a total preorder (two different names may compare as
    equal, and then keep the order of the listing); it holds the
    supported regular files of the listing, each as often as the listing
    has it; and the rows of the dataset are the rows of those files, file
    after file in that order. *)
Theorem X23_files_are_taken_in_collation_order (dir : Directory) :
  StronglySorted (fun a b => localeCompare a b <= 0)
                 (availableFiles (loadTrendDataset dir)) /\
  (forall dirents, readdir dir = Some dirents ->
     Permutation
       (availableFiles (loadTrendDataset dir))
       (List.filter (fun filePath => bool_decide (is_Some (suffixOf filePath)))
          (List.map name (List.filter isFile dirents)))) /\
  rows (loadTrendDataset dir)
  = flat_map (Spec.fileRows dir) (availableFiles (loadTrendDataset dir)).
Proof.
  split; [|split; [|apply rows_of_dataset]].
  - unfold loadTrendDataset. destruct (readdir dir) as [dirents|]; [|constructor].
    cbn [availableFiles].
    apply (StronglySorted_impl
             (notAfter (fun a b => Fin (localeCompare a b)))).
    { intros a b. unfold notAfter. cbn [isPositive]. lia. }
    apply sort_sorted.
    + intros a b. unfold notAfter. cbn [isPositive].
      pose proof (Spec.compare_antisym a b) as Hab.
      pose proof (Z.sgn_spec (localeCompare a b)).
      pose proof (Z.sgn_spec (localeCompare b a)). lia.
    + intros a b c. unfold notAfter. cbn [isPositive].
      pose proof (Spec.compare_trans a b c). lia.
  - intros dirents Hread. unfold loadTrendDataset. rewrite Hread.
    cbn [availableFiles]. apply sort_perm.
Qed.

End FileOrder.

Section Suffixes.

Import Trends JsString.

Lemma lowerChar_dot (c : ascii) :
  Ascii.eqb (lowerChar c) "." = Ascii.eqb c ".".
Proof. by destruct c as [[] [] [] [] [] [] [] []]. Qed.

Lemma lastDotSuffix_lower (s : string) :
  lastDotSuffix (toLowerCase s) = toLowerCase <$> lastDotSuffix s.
Proof.
  induction s as [|c s IH]; [done|].
  cbn [toLowerCase lastDotSuffix]. rewrite IH.
  destruct (lastDotSuffix s); [done|]. cbn [fmap option_fmap option_map].
  rewrite lowerChar_dot. by destruct (Ascii.eqb c ".").
Qed.

Lemma extname_lower (f : string) :
  extname (toLowerCase f) = toLowerCase (extname f).
Proof.
  destruct f as [|c f]; [done|]. cbn [toLowerCase extname].
  assert (String.eqb (String (lowerChar c) (toLowerCase f)) ".."
          = String.eqb (String c f) "..") as ->.
  { destruct f as [|c' [|c'' f]]; cbn [toLowerCase String.eqb];
      rewrite ?lowerChar_dot; done. }
  destruct (String.eqb (String c f) ".."); [done|].
  rewrite lastDotSuffix_lower. by destruct (lastDotSuffix f).
Qed.

(** X24: the format of a file is read from its extension without
    regard to letter case: a name and its lower-case form are taken for
    the same format, or both for none. The extension is what follows the
    last dot that is not the first character of the name, so a name
    without such a dot has no format. *)
Theorem X24_file_suffix_is_read_without_regard_to_case (fileName : string) :
  suffixOf (toLowerCase fileName) = suffixOf fileName /\
  (lastDotSuffix (Trends.slice1 fileName) = None ->
   suffixOf fileName = None).
Proof.
  split.
  - unfold suffixOf. by rewrite extname_lower, toLowerCase_idempotent.
  - intros Hdot. unfold suffixOf, extname.
    destruct fileName as [|c f]; [done|]. cbn [Trends.slice1] in Hdot.
    rewrite Hdot. by destruct (String.eqb _ _).
Qed.

End Suffixes.

(** ** The text columns of a row *)

Section TextColumns.

Context `{Host}.
Import Trends JsString.

Lemma written_text (text : string) (v : Json) :
  Spec.written (trim text) = Some v ->
  exists t, v = JStr t /\ nonEmpty t = true /\ trim t = t.
Proof.
  unfold Spec.written. destruct (nonEmpty (trim text)) eqn:Hn; [|done].
  intros [= <-]. exists (trim text). by rewrite trim_trim.
Qed.

Lemma presentText_trimmed (raw : RawRecord) (keys : list string) :
  trim (Spec.presentText raw keys) = Spec.presentText raw keys.
Proof. apply trim_fixed; [apply presentText_headOk|apply presentText_lastOk]. Qed.

Lemma buildRow_airline_season (raw : RawRecord) (sf fmt : string) :
  buildRow raw sf fmt !! "airline"
    = Spec.written (Spec.presentText raw ["airline"]) /\
  buildRow raw sf fmt !! "season"
    = Spec.written (Spec.presentText raw ["season"]).
Proof.
  unfold buildRow. cbv zeta. rewrite !chainText_1.
  rewrite !lookup_setNotableDriver, !lookup_setFares by set_solver.
  split.
  - rewrite lookup_setNonEmpty_ne by done. apply lookup_setNonEmpty_eq.
    rewrite lookup_setRoute, lookup_copyOptionalKeys
      by (unfold OPTIONAL_COPY_KEYS; set_solver).
    apply lookup_initialRow_other. set_solver.
  - apply lookup_setNonEmpty_eq. rewrite lookup_setNonEmpty_ne by done.
    rewrite lookup_setRoute, lookup_copyOptionalKeys
      by (unfold OPTIONAL_COPY_KEYS; set_solver).
    apply lookup_initialRow_other. set_solver.
Qed.

(** The three columns of the route, by the shape of the route. *)
Lemma buildRow_route_columns (raw : RawRecord) (sf fmt : string) :
  let route := Spec.presentText raw ["route"] in
  buildRow raw sf fmt !! "route" = Spec.written route /\
  buildRow raw sf fmt !! "origin_airport"
    = (if includesChar route "-"
       then Spec.written (trim (Spec.upTo "-" route)) else None) /\
  buildRow raw sf fmt !! "destination_airport"
    = (if includesChar route "-"
       then Spec.written (trim (Spec.upTo "-" (Spec.after "-" route)))
       else None).
Proof.
  cbv zeta. rewrite !buildRow_lookup_route_block by set_solver.
  unfold setRoute, Spec.written at 1.
  destruct (includesChar (Spec.presentText raw ["route"]) "-") eqn:Hdash.
  - rewrite (includesChar_nonEmpty _ _ Hdash), (split_two _ _ Hdash).
    cbn [List.map lookup list_lookup]. cbv zeta. repeat split.
    + by rewrite !lookup_setNonEmpty_ne, lookup_insert_eq.
    + rewrite lookup_setNonEmpty_ne by done.
      apply lookup_setNonEmpty_eq. by rewrite lookup_insert_ne.
    + apply lookup_setNonEmpty_eq.
      by rewrite lookup_setNonEmpty_ne, lookup_insert_ne.
  - destruct (nonEmpty (Spec.presentText raw ["route"])).
    + by rewrite lookup_insert_eq, !lookup_insert_ne.
    + by rewrite !lookup_empty.
Qed.

(** X25: the text columns that a row may lack are never empty when it
    has them: [route], [origin_airport], [destination_airport],
    [airline], [season] and [notable_driver], when present, hold a string
    that is not empty and has no white space at either end. A row has an
    [origin_airport] or a [destination_airport] only if it has a [route],
    and that route holds a [-]. *)
Theorem X25_text_columns_are_never_empty
    (raw : RawRecord) (sourceFile sourceFormat : string) :
  let row := buildRow raw sourceFile sourceFormat in
  Forall (fun k =>
            forall v, row !! k = Some v ->
              exists text, v = JStr text /\ nonEmpty text = true
                           /\ trim text = text)
    ["route"; "origin_airport"; "destination_airport"; "airline"; "season";
     "notable_driver"] /\
  (is_Some (row !! "origin_airport") \/ is_Some (row !! "destination_airport") ->
   exists route,
     row !! "route" = Some (JStr route) /\ includesChar route "-" = true).
Proof.
  cbv zeta.
  destruct (buildRow_route_columns raw sourceFile sourceFormat)
    as (Hroute & Horigin & Hdest).
  destruct (buildRow_airline_season raw sourceFile sourceFormat)
    as (Hairline & Hseason).
  destruct (buildRow_notable raw sourceFile sourceFormat) as [Hyes Hno].
  assert (forall keys v,
            Spec.written (Spec.presentText raw keys) = Some v ->
            exists text, v = JStr text /\ nonEmpty text = true
                         /\ trim text = text) as Hpresent.
  { intros keys v Hv. apply (written_text (Spec.presentText raw keys)).
    by rewrite presentText_trimmed. }
  split.
  - repeat apply Forall_cons_2; try apply Forall_nil_2; intros v.
    + rewrite Hroute. apply Hpresent.
    + rewrite Horigin. destruct (includesChar _ _); [|done].
      apply written_text.
    + rewrite Hdest. destruct (includesChar _ _); [|done].
      apply written_text.
    + rewrite Hairline. apply Hpresent.
    + rewrite Hseason. apply Hpresent.
    + destruct (nonEmpty (Spec.presentText raw ["notable_driver"])) eqn:Hd.
      * destruct (Hyes eq_refl) as [-> _]. intros [= <-].
        exists (Spec.presentText raw ["notable_driver"]).
        split; [done|]. split; [done|]. apply presentText_trimmed.
      * by destruct (Hno eq_refl) as [-> _].
  - rewrite Horigin, Hdest, Hroute.
    destruct (includesChar (Spec.presentText raw ["route"]) "-") eqn:Hdash;
      [|by intros [[? ?]|[? ?]]].
    intros _. exists (Spec.presentText raw ["route"]). split; [|done].
    unfold Spec.written. by rewrite (includesChar_nonEmpty _ _ Hdash).
Qed.

End TextColumns.

(** ** The further properties on the reference platforms *)

Section FurtherExamples.

#[local] Existing Instance Reference.host.
#[local] Existing Instance Reference.authHost.
Import Trends Auth JsString.

(** X5 at criteria of blanks, over the five fare rows. *)
Lemma X5_blank_filters_witness :
  (parseIsoDate (snapshotDate Reference.blankFilters) = None /\
   trim (default "" (routeContains Reference.blankFilters)) = "" /\
   trim (default "" (originAirport Reference.blankFilters)) = "" /\
   trim (default "" (destinationAirport Reference.blankFilters)) = "" /\
   trim (default "" (airlineContains Reference.blankFilters)) = "" /\
   trim (default "" (seasonContains Reference.blankFilters)) = "" /\
   trim (default "" (notableContains Reference.blankFilters)) = "") /\
  filterRows Reference.blankFilters (rows (loadTrendDataset Reference.faresDir))
  = rows (loadTrendDataset Reference.faresDir).
Proof.
  assert (parseIsoDate (snapshotDate Reference.blankFilters) = None) as Hd
    by (vm_compute; reflexivity).
  split; [by repeat split|].
  exact (X5_blank_filters_match_every_row Reference.blankFilters
           (rows (loadTrendDataset Reference.faresDir))
           Hd eq_refl eq_refl eq_refl eq_refl eq_refl eq_refl).
Defined.

(** X6 at the origin filter " JFK ", over the five fare rows. *)
Lemma X6_origin_filter_witness :
  nonEmpty (trim " JFK ") = true /\
  filterRows (Shape.onlyOrigin " JFK ") (rows (loadTrendDataset Reference.faresDir))
  = List.filter
      (fun row =>
         String.eqb
           (toLowerCase (String_ (row !! "origin_airport" ?? emptyLit)))
           (toLowerCase (trim " JFK ")))
      (rows (loadTrendDataset Reference.faresDir)).
Proof.
  split; [reflexivity|].
  exact (proj1 (X6_origin_filter_is_exact_and_ignores_case " JFK "
                  (rows (loadTrendDataset Reference.faresDir)) eq_refl)).
Defined.

(** The two rows from JFK are the ones the filter " JFK " matches. *)
Example origin_filter_matches_two_rows :
  matched_rows (queryAirfareTrends Reference.faresDir (Shape.onlyOrigin " JFK "))
  = 2%nat.
Proof. vm_compute. reflexivity. Qed.

(** X10 at the CSV file whose header is its second comment. *)
Lemma X10_commented_header_witness :
  (nonEmpty "," = true /\
   readFile Reference.commentedDir "fares.csv"
     = Some ("# exported 2024-08-19" +:+ newline +:+ newline
               +:+ "# route,airline,season" +:+ newline
               +:+ "JFK-LHR,Acme Air,Summer" +:+ newline)) /\
  loadTabularRows Reference.commentedDir "fares.csv" ","
  = match List.filter Shape.isDataLine
            (splitLines ("# exported 2024-08-19" +:+ newline +:+ newline
                           +:+ "# route,airline,season" +:+ newline
                           +:+ "JFK-LHR,Acme Air,Summer" +:+ newline)) with
    | [] => Some []
    | dataLines =>
        List.map
          (fun record =>
             buildRow record "fares.csv"
               (if String.eqb "," tab then "tsv" else "csv"))
        <$> parseCsv
              (match Shape.firstHeader ","
                       (splitLines ("# exported 2024-08-19" +:+ newline
                                      +:+ newline
                                      +:+ "# route,airline,season" +:+ newline
                                      +:+ "JFK-LHR,Acme Air,Summer"
                                      +:+ newline)) with
               | Some header => header +:+ newline
               | None => ""
               end +:+ join newline dataLines)
              ","
    end.
Proof.
  split; [split; reflexivity|].
  exact (X10_tabular_header_is_recovered_from_the_first_comment
           Reference.commentedDir "fares.csv" "," _ eq_refl eq_refl).
Defined.

(** The header of that file is its second comment, and its one data
    line gives the row of the route JFK-LHR. *)
Example commented_header_is_found :
  Shape.firstHeader ","
    (splitLines ("# exported 2024-08-19" +:+ newline +:+ newline
                   +:+ "# route,airline,season" +:+ newline
                   +:+ "JFK-LHR,Acme Air,Summer" +:+ newline))
    = Some "route,airline,season" /\
  List.map (fun row => (row !! "route", row !! "airline", row !! "season"))
    (default [] (loadTabularRows Reference.commentedDir "fares.csv" ","))
  = [(Some (JStr "JFK-LHR"), Some (JStr "Acme Air"), Some (JStr "Summer"))].
Proof. split; vm_compute; reflexivity. Qed.

(** X16 at a header in capitals with white space around it. *)
Lemma X16_bearer_in_capitals_witness :
  (Reference.bearerHeaders "token-without-email" !! "authorization"
     = Some (Single "  BEARER token-without-email ") /\
   trim "  BEARER token-without-email " = "BEARER" +:+ " " +:+ "token-without-email" /\
   toLowerCase "BEARER" = "bearer") /\
  authenticateRequest (Reference.bearerHeaders "token-without-email")
    = verifyBearerToken "token-without-email" /\
  nonEmpty "token-without-email" = true.
Proof.
  assert (Reference.bearerHeaders "token-without-email" !! "authorization"
          = Some (Single "  BEARER token-without-email ")) as Hheader
    by (vm_compute; reflexivity).
  split; [by repeat split|].
  exact (X16_bearer_scheme_is_matched_without_regard_to_case
           (Reference.bearerHeaders "token-without-email")
           "  BEARER token-without-email " "BEARER" "token-without-email"
           (or_introl Hheader) eq_refl eq_refl).
Defined.

(** X17 at a token the library rejects. *)
Lemma X17_rejected_token_witness :
  (Reference.bearerHeaders "expired-token" !! "authorization"
     = Some (Single "  BEARER expired-token ") /\
   trim "  BEARER expired-token " = "BEARER" +:+ " " +:+ "expired-token" /\
   toLowerCase "BEARER" = "bearer" /\
   jwtVerify "expired-token" = None) /\
  exists error,
    authenticateRequest (Reference.bearerHeaders "expired-token") = inl error /\
    errorResponse error = (500, (-32603, "Internal server error")).
Proof.
  assert (Reference.bearerHeaders "expired-token" !! "authorization"
          = Some (Single "  BEARER expired-token ")) as Hheader
    by (vm_compute; reflexivity).
  split; [by repeat split|].
  exact (X17_a_token_the_library_rejects_is_answered_500
           (Reference.bearerHeaders "expired-token")
           "  BEARER expired-token " "BEARER" "expired-token"
           Hheader eq_refl eq_refl eq_refl).
Defined.

(** X19 at "2024/02/31", which is 2 March 2024. *)
Lemma X19_february_31_witness :
  parseIsoDate (Some (Shape.dateString "2" "0" "2" "4" "/" "0" "2" "/" "3" "1"))
    = JsDate.UTC (Spec.year4 "2" "0" "2" "4") (Shape.twoDigits "0" "2" - 1)
                 (Shape.twoDigits "3" "1") /\
  is_Some (parseIsoDate
             (Some (Shape.dateString "2" "0" "2" "4" "/" "0" "2" "/" "3" "1"))) /\
  parseIsoDate (Some (Shape.dateString "2" "0" "2" "4" "/" "0" "2" "/" "3" "1"))
    = parseIsoDate
        (Some (Shape.dateString "2" "0" "2" "4" "-" "0" "2" "-" "3" "1")).
Proof.
  exact (X19_dates_in_digits_always_parse
           "2" "0" "2" "4" "/" "0" "2" "/" "3" "1"
           eq_refl eq_refl eq_refl eq_refl eq_refl eq_refl eq_refl eq_refl
           eq_refl eq_refl).
Defined.

Example february_31_is_march_2 :
  JsDate.toISOString <$> parseIsoDate (Some "2024/02/31")
  = Some "2024-03-02T00:00:00.000Z".
Proof. vm_compute. reflexivity. Qed.

(** X23 on the reference platform, at the directory of four entries. *)
Lemma X23_collation_order_witness :
  Spec.CollationPreorder /\
  StronglySorted (fun a b => localeCompare a b <= 0)
    (availableFiles (loadTrendDataset Reference.partialDir)).
Proof.
  split; [exact reference_collation|].
  exact (proj1 (X23_files_are_taken_in_collation_order
                  (H0 := reference_collation) Reference.partialDir)).
Defined.

End FurtherExamples.

Section DocumentExamples.

Import Trends JsString.

(** X12 at the document with the region EMEA: its two entries give a
    row of the region EMEA and a row of the region Lazio, both dated by
    the document's week. *)
Lemma X12_regions_document_witness :
  (readFile Reference.regionsDir "regions.json" = Some Reference.regionsText /\
   jsonParse (Host := Reference.jsonHost) Reference.regionsText
     = Some (JObj Reference.regionsFields) /\
   objectRecord Reference.regionsFields !! "regions"
     = Some Reference.regionsRegions /\
   isObjectLike Reference.regionsRegions = true) /\
  loadJsonRows (H := Reference.jsonHost) Reference.regionsDir "regions.json"
  = (if existsb buildRowThrows
          (Shape.regionRecords Reference.regionsFields Reference.regionsRegions)
     then None
     else Some (List.map
                  (fun merged =>
                     buildRow (H := Reference.jsonHost) merged
                       "regions.json" "json")
                  (Shape.regionRecords Reference.regionsFields
                     Reference.regionsRegions))).
Proof.
  assert (objectRecord Reference.regionsFields !! "regions"
          = Some Reference.regionsRegions) as Hregions
    by (vm_compute; reflexivity).
  assert (jsonParse (Host := Reference.jsonHost) Reference.regionsText
          = Some (JObj Reference.regionsFields)) as Hparse
    by (vm_compute; reflexivity).
  split; [by repeat split|].
  exact (proj1 (X12_region_rows_are_the_entries_over_the_region_defaults
                  (H := Reference.jsonHost) Reference.regionsDir "regions.json"
                  Reference.regionsText Reference.regionsFields
                  Reference.regionsRegions eq_refl Hparse Hregions eq_refl)).
Defined.

(** A document one value of which [String] cannot convert does not
    load, though it is JSON: the file contributes no rows and stays among
    the available files. *)
Example unprintable_document_is_rejected :
  jsonParse (Host := Reference.jsonHost) Reference.unprintableText
    = Some (JArr Reference.unprintableItems) /\
  loadJsonRows (H := Reference.jsonHost) Reference.regionsDir "t.json" = None /\
  availableFiles (loadTrendDataset (H := Reference.jsonHost) Reference.regionsDir)
    = ["regions.json"; "t.json"] /\
  length (rows (loadTrendDataset (H := Reference.jsonHost) Reference.regionsDir))
    = 2%nat.
Proof. repeat split; vm_compute; reflexivity. Qed.

Example regions_document_rows :
  List.map (fun row => (row !! "region", row !! "date", row !! "query"))
    (default [] (loadJsonRows (H := Reference.jsonHost) Reference.regionsDir
                   "regions.json"))
  = [(Some (JStr "EMEA"), Some (JStr "2024-W34"), Some (JStr "flights to rome"));
     (Some (JStr "Lazio"), Some (JStr "2024-W34"), Some (JStr "regions.json"))].
Proof. vm_compute. reflexivity. Qed.

End DocumentExamples.

Section ServiceExamples.

Import Auth Server Config JsString.

(** X14 at a token with every required scope. *)
Lemma X14_full_token_witness :
  (nonEmpty "full-token" = true /\
   (forall s, s ∈ REQUIRED_SCOPES ->
      s ∈ extractScopes
            (<["scp" := JArr [JStr "openid"; JStr " profile"; JStr "email";
                              JStr "offline_access"]]>
               (<["azp" := JStr "client-7"]>
                  (<["aud" := JStr "not a url"]>
                     (<["resource" := JStr "https://example.org/mcp"]> ∅)))))) /\
  exists info, verifyBearerToken (H := Reference.fullAuthHost) "full-token" = inr info.
Proof.
  assert (forall s, s ∈ REQUIRED_SCOPES ->
            s ∈ extractScopes
                  (<["scp" := JArr [JStr "openid"; JStr " profile"; JStr "email";
                                    JStr "offline_access"]]>
                     (<["azp" := JStr "client-7"]>
                        (<["aud" := JStr "not a url"]>
                           (<["resource" := JStr "https://example.org/mcp"]> ∅)))))
    as Hscopes.
  { intros s Hs.
    replace (extractScopes _)
      with ["openid"; "profile"; "email"; "offline_access"]
      by (vm_compute; reflexivity).
    unfold REQUIRED_SCOPES in Hs. set_solver. }
  split; [split; [reflexivity|exact Hscopes]|].
  exact (proj2 (X14_verified_tokens_carry_every_required_scope
                  (H := Reference.fullAuthHost) "full-token")
           _ eq_refl eq_refl Hscopes).
Defined.

Example full_token_is_verified :
  (fun info => (clientId info, scopes info, Auth.resource info))
    <$> (match verifyBearerToken (H := Reference.fullAuthHost) "full-token" with
         | inr info => Some info
         | inl _ => None
         end)
  = Some ("client-7", ["openid"; "profile"; "email"; "offline_access"],
          "http://localhost:8788/").
Proof. vm_compute. reflexivity. Qed.

(** X20 at the query the store answers. *)
Lemma X20_search_witness :
  search (H := Reference.searchHost) " fare trends "
    = Results
        [ {| id := "file-1"; title := "call-1.txt"; text := "Fares rose.";
             url := "https://platform.openai.com/storage/files/file-1" |};
          {| id := "vs_1"; title := "Document 2";
             text := "No content available";
             url := "https://platform.openai.com/storage/files/vs_1" |} ] /\
  Forall
    (fun result =>
       nonEmpty (text result) = true /\
       (String.length (text result) <= 203)%nat /\
       url result
         = "https://platform.openai.com/storage/files/" +:+ id result)
    [ {| id := "file-1"; title := "call-1.txt"; text := "Fares rose.";
         url := "https://platform.openai.com/storage/files/file-1" |};
      {| id := "vs_1"; title := "Document 2";
         text := "No content available";
         url := "https://platform.openai.com/storage/files/vs_1" |} ].
Proof.
  assert (search (H := Reference.searchHost) " fare trends "
          = Results
              [ {| id := "file-1"; title := "call-1.txt"; text := "Fares rose.";
                   url := "https://platform.openai.com/storage/files/file-1" |};
                {| id := "vs_1"; title := "Document 2";
                   text := "No content available";
                   url := "https://platform.openai.com/storage/files/vs_1" |} ])
    as Hsearch by (vm_compute; reflexivity).
  split; [exact Hsearch|].
  exact (proj1 (proj2 (X20_search_results_carry_bounded_snippets
                         (H := Reference.searchHost) " fare trends "))
           _ Hsearch).
Defined.

(** X21 at an environment that lists two audiences and a blank. *)
Lemma X21_two_audiences_witness :
  config (H := Reference.portHost) (H0 := Reference.urlHost)
         "/data/web_search_trends" Reference.twoAudiences
    = Some {| port := Num "8788";
              auth0Issuer := "https://tenant.example.com/";
              resourceServerUrl := "http://localhost:8788/";
              openAiApiKey := None;
              vectorStoreId := None;
              trendDataDir := "/data/web_search_trends";
              expectedAudiences := ["https://api.example.com"; "mcp"] |} /\
  Auth.audienceOption ["https://api.example.com"; "mcp"] <> Auth.NoAudience.
Proof.
  assert (config (H := Reference.portHost) (H0 := Reference.urlHost)
                 "/data/web_search_trends" Reference.twoAudiences
          = Some {| port := Num "8788";
                    auth0Issuer := "https://tenant.example.com/";
                    resourceServerUrl := "http://localhost:8788/";
                    openAiApiKey := None;
                    vectorStoreId := None;
                    trendDataDir := "/data/web_search_trends";
                    expectedAudiences := ["https://api.example.com"; "mcp"] |})
    as Hconfig by (vm_compute; reflexivity).
  split; [exact Hconfig|].
  pose proof (proj2 (X21_configuration_always_names_an_audience
                       (H := Reference.portHost) (H0 := Reference.urlHost)
                       "/data/web_search_trends" Reference.twoAudiences)
                _ Hconfig) as Hall.
  exact (proj2 (proj2 (proj2 (proj2 (proj2 (proj2 (proj2 (proj2 Hall)))))))).
Defined.

(** A port that parses and is out of range: the module throws at
    [new URL]. *)
Example large_port_is_refused :
  config (H := Reference.portHost) (H0 := Reference.urlHost)
         "/data/web_search_trends" Reference.largePort = None /\
  Config.isNaN (parseInt (Host := Reference.portHost) "70000") = false.
Proof. split; vm_compute; reflexivity. Qed.

End ServiceExamples.
